(** * localai_cli: export and import of a Local AI environment

    A shallow embedding of [src/localai_cli.py]: the [LocalAICLI] methods
    [export_docker_volume], [import_docker_volume], [export_environment],
    [import_environment] and [validate_environment], and the subcommands
    of [main], together with the parts of the Python library they lean on
    (text of [json.dump] / [json.load], [pathlib], [str] methods).

    Conventions of the embedding.
    - A Python [str] and the bytes of a file are both a [string]; a
      character is one of the 256 values of [ascii].  A text file stands for
      its decoded text.
    - The file system is a tree rooted at the working directory; a path is
      the list of its components.  The name of an export and the name of
      a volume are each one component.
    - An archive is a tree: its members have relative names without
      [..], and an extraction lays all of them below its destination.
    - [cp] and [rm] are given file names: a name that begins with [-],
      which they would read as an option, is outside the embedding.
    - External programs ([docker], [cp], [rm]) answer through an oracle,
      [exec]; every call is recorded, with its argv, in the trace.
    - An exception that nobody catches is the result [Raise]; a call that
      never returns is [Hang]. *)

From Stdlib Require Import String Ascii List ZArith NArith Bool Lia.
From Stdlib Require Import DecimalString.
From Stdlib Require DecimalPos DecimalFacts.
Import ListNotations.

Local Open Scope list_scope.
Local Open Scope string_scope.

(** ** Characters and strings of Python *)

Module Py.

Definition dquote : ascii := "034"%char.
Definition backslash : ascii := "092"%char.
Definition lf : ascii := "010"%char.
Definition nl : string := String lf EmptyString.

Definition code (c : ascii) : N := N_of_ascii c.

Definition in_range (lo hi : N) (c : ascii) : bool :=
  (N.leb lo (code c) && N.leb (code c) hi)%bool.

Definition is_digit (c : ascii) : bool := in_range 48 57 c.

(** [str.isspace] on the characters below U+0100. *)
Definition is_space (c : ascii) : bool :=
  (in_range 9 13 c || in_range 28 32 c
   || N.eqb (code c) 133 || N.eqb (code c) 160)%bool.

(** [s.startswith(p)], and [s[len(p):]] when it does. *)
Fixpoint strip_prefix (p s : string) : option string :=
  match p with
  | EmptyString => Some s
  | String a p' =>
      match s with
      | String b s' => if Ascii.eqb a b then strip_prefix p' s' else None
      | EmptyString => None
      end
  end.

Definition startswith (p s : string) : bool :=
  match strip_prefix p s with Some _ => true | None => false end.

Fixpoint rev_string (s acc : string) : string :=
  match s with
  | EmptyString => acc
  | String c s' => rev_string s' (String c acc)
  end.

Definition endswith (suffix s : string) : bool :=
  startswith (rev_string suffix EmptyString) (rev_string s EmptyString).

Fixpoint take (n : nat) (s : string) : string :=
  match n, s with
  | S n', String c s' => String c (take n' s')
  | _, _ => EmptyString
  end.

(** [s.rfind('.')], counted from the end: the number of characters after
    the last dot. *)
Fixpoint after_last_dot (rs : string) : option nat :=
  match rs with
  | EmptyString => None
  | String c rs' =>
      if Ascii.eqb c "." then Some O
      else option_map S (after_last_dot rs')
  end.

(** [PurePath.stem]: the name without its last suffix. *)
Definition stem (name : string) : string :=
  let len := String.length name in
  match after_last_dot (rev_string name EmptyString) with
  | Some j =>
      let i := len - 1 - j in
      if (Nat.ltb 0 i && Nat.ltb i (len - 1))%bool then take i name else name
  | None => name
  end.

(** [s.replace(".tar", "")]: every occurrence, left to right. *)
Fixpoint remove_dot_tar (s : string) : string :=
  match s with
  | String "." (String "t" (String "a" (String "r" s'))) => remove_dot_tar s'
  | String c s' => String c (remove_dot_tar s')
  | EmptyString => EmptyString
  end.

Fixpoint lstrip (s : string) : string :=
  match s with
  | String c s' => if is_space c then lstrip s' else s
  | EmptyString => EmptyString
  end.

Fixpoint until_space (s : string) : string :=
  match s with
  | String c s' => if is_space c then EmptyString else String c (until_space s')
  | EmptyString => EmptyString
  end.

(** [s.split()[0]]: the first whitespace-separated word, [None] for the
    [IndexError] of a blank string. *)
Definition first_word (s : string) : option string :=
  match lstrip s with
  | EmptyString => None
  | t => Some (until_space t)
  end.

(** [s.strip().split('\n')] filtered on non-empty names, as in
    [[name for name in result.stdout.strip().split('\n') if name]]. *)
Fixpoint split_lines_acc (s cur : string) : list string :=
  match s with
  | EmptyString => [rev_string cur EmptyString]
  | String c s' =>
      if Ascii.eqb c lf
      then rev_string cur EmptyString :: split_lines_acc s' EmptyString
      else split_lines_acc s' (String c cur)
  end.

Definition rstrip (s : string) : string :=
  rev_string (lstrip (rev_string s EmptyString)) EmptyString.

Definition strip (s : string) : string := rstrip (lstrip s).

Definition nonempty (s : string) : bool :=
  match s with EmptyString => false | _ => true end.

Definition names_of_output (stdout : string) : list string :=
  filter nonempty (split_lines_acc (strip stdout) EmptyString).

Fixpoint repeat_char (c : ascii) (n : nat) : string :=
  match n with
  | O => EmptyString
  | S n' => String c (repeat_char c n')
  end.

(** [text.center(width)] with the padding rule of CPython. *)
Definition center (width : nat) (text : string) : string :=
  let len := String.length text in
  if Nat.leb width len then text
  else
    let pad := width - len in
    let left := Nat.div2 pad + (if (Nat.odd pad && Nat.odd width)%bool then 1 else 0) in
    repeat_char " " left ++ text ++ repeat_char " " (pad - left).

Fixpoint join (sep : string) (l : list string) : string :=
  match l with
  | [] => EmptyString
  | [x] => x
  | x :: l' => x ++ sep ++ join sep l'
  end.

(** [c in s] *)
Fixpoint has_char (c : ascii) (s : string) : bool :=
  match s with
  | EmptyString => false
  | String a s' => (Ascii.eqb a c || has_char c s')%bool
  end.

(** [s.split(c, 1)] on a string that has the character [c]: what stands
    before the first [c] and what stands after it. *)
Fixpoint split_once (c : ascii) (s : string) : string * string :=
  match s with
  | EmptyString => (EmptyString, EmptyString)
  | String a s' =>
      if Ascii.eqb a c then (EmptyString, s')
      else let (before, rest) := split_once c s' in (String a before, rest)
  end.

(** What a file opened in text mode makes of the line ends: a carriage
    return, with the line feed that follows it if there is one, is read as
    one line feed. *)
Fixpoint universal_newlines (s : string) : string :=
  match s with
  | String "013" (String "010" s') => String lf (universal_newlines s')
  | String "013" s' => String lf (universal_newlines s')
  | String c s' => String c (universal_newlines s')
  | EmptyString => EmptyString
  end.

(** The lines of [for line in f], each without its line feed: the text is
    cut after every line feed, and what follows the last one is a line
    unless it is empty. *)
Fixpoint lines_of (s : string) : list string :=
  match s with
  | EmptyString => []
  | String c s' =>
      if Ascii.eqb c lf then EmptyString :: lines_of s'
      else match lines_of s' with
           | [] => [String c EmptyString]
           | line :: rest => String c line :: rest
           end
  end.

Definition file_lines (text : string) : list string :=
  lines_of (universal_newlines text).

End Py.

(** ** JSON values and the text written by [json.dump(obj, f, indent=2)]
       and read by [json.load]

    Numbers are integers: a number with a fraction or an exponent, [NaN]
    and [Infinity] are floats and lie outside this embedding, and so do
    [\uXXXX] escapes above U+00FF; the reader answers [None] on them as it
    does on malformed text. *)

Module Json.

Import Py.

#[warnings="-register-all"]
Inductive json : Type :=
| JNull
| JBool (b : bool)
| JInt (z : Z)
| JStr (s : string)
| JArr (items : list json)
| JObj (members : list (string * json)).

(** A [dict] keeps its keys in insertion order, each key once. *)
Fixpoint dict_get (k : string) (d : list (string * json)) : option json :=
  match d with
  | [] => None
  | (k', v) :: d' => if String.eqb k k' then Some v else dict_get k d'
  end.

Fixpoint dict_set (k : string) (v : json) (d : list (string * json))
  : list (string * json) :=
  match d with
  | [] => [(k, v)]
  | (k', v') :: d' =>
      if String.eqb k k' then (k, v) :: d' else (k', v') :: dict_set k v d'
  end.

(** [d.update(other)] *)
Definition dict_update (d other : list (string * json)) : list (string * json) :=
  fold_left (fun acc kv => dict_set (fst kv) (snd kv) acc) other d.

Definition dict_of_pairs (ps : list (string * json)) : list (string * json) :=
  dict_update [] ps.

Fixpoint mem_string (k : string) (l : list string) : bool :=
  match l with
  | [] => false
  | x :: l' => (String.eqb k x || mem_string k l')%bool
  end.

Fixpoint distinct (l : list string) : bool :=
  match l with
  | [] => true
  | x :: l' => (negb (mem_string x l') && distinct l')%bool
  end.

(** The values a Python program can hold: no object repeats a key. *)
Fixpoint wf_json (v : json) : bool :=
  match v with
  | JArr items => forallb wf_json items
  | JObj members =>
      (distinct (map fst members)
       && forallb (fun member => wf_json (snd member)) members)%bool
  | _ => true
  end.

(** *** Writing *)

Definition hex_digit (n : N) : ascii :=
  match n with
  | 0 => "0" | 1 => "1" | 2 => "2" | 3 => "3" | 4 => "4" | 5 => "5"
  | 6 => "6" | 7 => "7" | 8 => "8" | 9 => "9" | 10 => "a" | 11 => "b"
  | 12 => "c" | 13 => "d" | 14 => "e" | _ => "f"
  end%N%char.

(** [py_encode_basestring_ascii], one character. *)
Definition encode_char (c : ascii) : string :=
  if Ascii.eqb c dquote then String backslash (String dquote EmptyString)
  else if Ascii.eqb c backslash then String backslash (String backslash EmptyString)
  else if Ascii.eqb c "010" then String backslash "n"
  else if Ascii.eqb c "013" then String backslash "r"
  else if Ascii.eqb c "009" then String backslash "t"
  else if Ascii.eqb c "012" then String backslash "f"
  else if Ascii.eqb c "008" then String backslash "b"
  else if in_range 32 126 c then String c EmptyString
  else String backslash
         (String "u" (String "0" (String "0"
            (String (hex_digit (N.div (code c) 16))
               (String (hex_digit (N.modulo (code c) 16)) EmptyString))))).

Fixpoint encode_chars (s : string) : string :=
  match s with
  | EmptyString => EmptyString
  | String c s' => encode_char c ++ encode_chars s'
  end.

Definition encode_string (s : string) : string :=
  String dquote (encode_chars s ++ String dquote EmptyString).

(** [int.__repr__] *)
Definition int_repr (z : Z) : string :=
  match z with
  | Z0 => "0"
  | Zpos p => NilEmpty.string_of_uint (Pos.to_uint p)
  | Zneg p => String "-" (NilEmpty.string_of_uint (Pos.to_uint p))
  end.

Definition newline_indent (level : nat) : string :=
  String lf (repeat_char " " (2 * level)).

Section Separated.

Variable enc : json -> string.
Variable level : nat.

(** After the first item of a list at [level]: the other items, each
    after a comma, and the closing bracket. *)
Fixpoint more_items (l : list json) : string :=
  match l with
  | [] => newline_indent level ++ "]"
  | y :: l' => "," ++ newline_indent (S level) ++ enc y ++ more_items l'
  end.

Fixpoint more_members (l : list (string * json)) : string :=
  match l with
  | [] => newline_indent level ++ "}"
  | (k, y) :: l' =>
      "," ++ newline_indent (S level) ++ encode_string k ++ ": "
      ++ enc y ++ more_members l'
  end.

End Separated.

Fixpoint encode (level : nat) (v : json) : string :=
  match v with
  | JNull => "null"
  | JBool true => "true"
  | JBool false => "false"
  | JInt z => int_repr z
  | JStr s => encode_string s
  | JArr [] => "[]"
  | JArr (x :: xs) =>
      "[" ++ newline_indent (S level) ++ encode (S level) x
      ++ more_items (encode (S level)) level xs
  | JObj [] => "{}"
  | JObj ((k, x) :: ms) =>
      "{" ++ newline_indent (S level) ++ encode_string k ++ ": "
      ++ encode (S level) x
      ++ more_members (encode (S level)) level ms
  end.

(** [json.dumps(obj, indent=2)], the text [json.dump] writes. *)
Definition dumps (v : json) : string := encode 0 v.

(** *** Reading *)

(** The whitespace of the decoder: space, tab, line feed, carriage return. *)
Definition is_ws (c : ascii) : bool :=
  (Ascii.eqb c " " || Ascii.eqb c "009" || Ascii.eqb c "010" || Ascii.eqb c "013")%bool.

Fixpoint skip_ws (s : string) : string :=
  match s with
  | String c s' => if is_ws c then skip_ws s' else s
  | EmptyString => EmptyString
  end.

Definition hex_value (c : ascii) : option N :=
  if in_range 48 57 c then Some (code c - 48)%N
  else if in_range 97 102 c then Some (code c - 87)%N
  else if in_range 65 70 c then Some (code c - 55)%N
  else None.

Definition hex4 (a b c d : ascii) : option N :=
  match hex_value a, hex_value b, hex_value c, hex_value d with
  | Some x, Some y, Some z, Some w => Some (((x * 16 + y) * 16 + z) * 16 + w)%N
  | _, _, _, _ => None
  end.

(** The table [BACKSLASH] of the decoder. *)
Definition unescape (e : ascii) : option ascii :=
  if Ascii.eqb e dquote then Some dquote
  else if Ascii.eqb e backslash then Some backslash
  else if Ascii.eqb e "/" then Some "/"%char
  else if Ascii.eqb e "b" then Some "008"%char
  else if Ascii.eqb e "f" then Some "012"%char
  else if Ascii.eqb e "n" then Some "010"%char
  else if Ascii.eqb e "r" then Some "013"%char
  else if Ascii.eqb e "t" then Some "009"%char
  else None.

Definition cons_char (c : ascii) (r : option (string * string))
  : option (string * string) :=
  match r with
  | Some (t, rest) => Some (String c t, rest)
  | None => None
  end.

(** [py_scanstring] in strict mode, from just after the opening quote:
    the string and the text after its closing quote. *)
Fixpoint scanstring (s : string) : option (string * string) :=
  match s with
  | EmptyString => None
  | String c r =>
      if Ascii.eqb c dquote then Some (EmptyString, r)
      else if Ascii.eqb c backslash then
        match r with
        | String e r1 =>
            if Ascii.eqb e "u" then
              match r1 with
              | String h1 (String h2 (String h3 (String h4 r2))) =>
                  match hex4 h1 h2 h3 h4 with
                  | Some n =>
                      if N.ltb n 256
                      then cons_char (ascii_of_N n) (scanstring r2)
                      else None
                  | None => None
                  end
              | _ => None
              end
            else
              match unescape e with
              | Some ch => cons_char ch (scanstring r1)
              | None => None
              end
        | EmptyString => None
        end
      else if N.ltb (code c) 32 then None
      else cons_char c (scanstring r)
  end.

Fixpoint span_digits (s : string) : string * string :=
  match s with
  | String c r =>
      if is_digit c
      then let (ds, rest) := span_digits r in (String c ds, rest)
      else (EmptyString, s)
  | EmptyString => (EmptyString, EmptyString)
  end.

Definition starts_digit (s : string) : bool :=
  match s with String c _ => is_digit c | EmptyString => false end.

(** Does the text after the integer part go on as a float: a fraction
    [\.[0-9]+] or an exponent [[eE][-+]?[0-9]+]. *)
Definition float_tail (r : string) : bool :=
  match r with
  | String c r1 =>
      if Ascii.eqb c "." then starts_digit r1
      else if (Ascii.eqb c "e" || Ascii.eqb c "E")%bool then
        match r1 with
        | String sg r2 =>
            if (Ascii.eqb sg "+" || Ascii.eqb sg "-")%bool
            then starts_digit r2 else is_digit sg
        | EmptyString => false
        end
      else false
  | EmptyString => false
  end.

Definition finish_number (neg : bool) (digits rest : string)
  : option (json * string) :=
  if float_tail rest then None
  else
    match NilEmpty.uint_of_string digits with
    | Some u => Some (JInt (if neg then Z.opp (Z.of_uint u) else Z.of_uint u), rest)
    | None => None
    end.

(** [NUMBER_RE]: an optional minus sign, then a lone zero or a digit from
    1 to 9 and every digit after it. *)
Definition scan_number (s : string) : option (json * string) :=
  let '(neg, s1) :=
    match s with
    | String "-" r => (true, r)
    | _ => (false, s)
    end in
  match s1 with
  | String c r =>
      if Ascii.eqb c "0" then finish_number neg "0" r
      else if is_digit c then
        let (ds, rest) := span_digits r in finish_number neg (String c ds) rest
      else None
  | EmptyString => None
  end.

Section Containers.

Variable scan : string -> option (json * string).

(** [JSONArray] after the first value is known to be there. *)
Fixpoint parse_items (fuel : nat) (s : string) : option (list json * string) :=
  match fuel with
  | O => None
  | S fuel' =>
      match scan s with
      | Some (v, r) =>
          match skip_ws r with
          | String "]" r1 => Some ([v], r1)
          | String "," r1 =>
              match parse_items fuel' (skip_ws r1) with
              | Some (vs, r2) => Some (v :: vs, r2)
              | None => None
              end
          | _ => None
          end
      | None => None
      end
  end.

(** [JSONObject] from the quote of a property name. *)
Fixpoint parse_members (fuel : nat) (s : string)
  : option (list (string * json) * string) :=
  match fuel with
  | O => None
  | S fuel' =>
      match s with
      | String q r =>
          if Ascii.eqb q dquote then
            match scanstring r with
            | Some (k, r1) =>
                match skip_ws r1 with
                | String ":" r2 =>
                    match scan (skip_ws r2) with
                    | Some (v, r3) =>
                        match skip_ws r3 with
                        | String "}" r4 => Some ([(k, v)], r4)
                        | String "," r4 =>
                            match parse_members fuel' (skip_ws r4) with
                            | Some (ms, r5) => Some ((k, v) :: ms, r5)
                            | None => None
                            end
                        | _ => None
                        end
                    | None => None
                    end
                | _ => None
                end
            | None => None
            end
          else None
      | EmptyString => None
      end
  end.

End Containers.

(** [scan_once]; the fuel bounds the nesting and the number of elements,
    the length of the text is always enough. *)
Fixpoint scan_once (fuel : nat) (s : string) : option (json * string) :=
  match fuel with
  | O => None
  | S fuel' =>
      match s with
      | EmptyString => None
      | String c r =>
          if Ascii.eqb c dquote then
            match scanstring r with
            | Some (t, r1) => Some (JStr t, r1)
            | None => None
            end
          else if Ascii.eqb c "{" then
            match skip_ws r with
            | String "}" r1 => Some (JObj [], r1)
            | s1 =>
                match parse_members (scan_once fuel') fuel' s1 with
                | Some (ms, r1) => Some (JObj (dict_of_pairs ms), r1)
                | None => None
                end
            end
          else if Ascii.eqb c "[" then
            match skip_ws r with
            | String "]" r1 => Some (JArr [], r1)
            | s1 =>
                match parse_items (scan_once fuel') fuel' s1 with
                | Some (vs, r1) => Some (JArr vs, r1)
                | None => None
                end
            end
          else
            match strip_prefix "null" s with
            | Some r1 => Some (JNull, r1)
            | None =>
                match strip_prefix "true" s with
                | Some r1 => Some (JBool true, r1)
                | None =>
                    match strip_prefix "false" s with
                    | Some r1 => Some (JBool false, r1)
                    | None => scan_number s
                    end
                end
            end
      end
  end.

(** [json.loads]: one value between optional whitespace, nothing after. *)
Definition loads (s : string) : option json :=
  match scan_once (S (String.length s)) (skip_ws s) with
  | Some (v, r) =>
      match skip_ws r with
      | EmptyString => Some v
      | _ => None
      end
  | None => None
  end.

End Json.

(** ** Files and directories under the working directory *)

Module FS.

Definition path : Type := list string.

#[warnings="-register-all"]
Inductive node : Type :=
| File (data : string)
| Dir (entries : list (string * node)).

Fixpoint assoc (k : string) (es : list (string * node)) : option node :=
  match es with
  | [] => None
  | (k', x) :: es' => if String.eqb k k' then Some x else assoc k es'
  end.

(** Rebinds the entry [k], or adds it after the others. *)
Fixpoint set_entry (k : string) (x : node) (es : list (string * node))
  : list (string * node) :=
  match es with
  | [] => [(k, x)]
  | (k', y) :: es' =>
      if String.eqb k k' then (k, x) :: es' else (k', y) :: set_entry k x es'
  end.

Fixpoint del_entry (k : string) (es : list (string * node))
  : list (string * node) :=
  match es with
  | [] => []
  | (k', y) :: es' =>
      if String.eqb k k' then del_entry k es' else (k', y) :: del_entry k es'
  end.

Fixpoint lookup (p : path) (n : node) : option node :=
  match p with
  | [] => Some n
  | c :: p' =>
      match n with
      | Dir es =>
          match assoc c es with
          | Some sub => lookup p' sub
          | None => None
          end
      | File _ => None
      end
  end.

(** Binds [p] to [x]; nothing changes unless the parent of [p] is a
    directory. *)
Fixpoint put (p : path) (x : node) (n : node) : node :=
  match p with
  | [] => x
  | c :: p' =>
      match n with
      | Dir es =>
          match assoc c es, p' with
          | Some sub, _ => Dir (set_entry c (put p' x sub) es)
          | None, [] => Dir (set_entry c x es)
          | None, _ :: _ => n
          end
      | File _ => n
      end
  end.

(** The effect of [rm -rf p]. *)
Fixpoint remove (p : path) (n : node) : node :=
  match p with
  | [] => n
  | c :: p' =>
      match n with
      | Dir es =>
          match p' with
          | [] => Dir (del_entry c es)
          | _ :: _ =>
              match assoc c es with
              | Some sub => Dir (set_entry c (remove p' sub) es)
              | None => n
              end
          end
      | File _ => n
      end
  end.

(** What lies at [old] once the archive member [new] is extracted over
    it: directories are merged, files replaced. *)
Fixpoint overlay (new old : node) : node :=
  match new with
  | File d => File d
  | Dir es =>
      match old with
      | Dir old_es =>
          Dir ((fix go (l acc : list (string * node)) : list (string * node) :=
                  match l with
                  | [] => acc
                  | (k, x) :: l' =>
                      go l' (set_entry k
                               (match assoc k acc with
                                | Some o => overlay x o
                                | None => x
                                end) acc)
                  end) es old_es)
      | File _ => new
      end
  end.

Definition exists_ (p : path) (n : node) : bool :=
  match lookup p n with Some _ => true | None => false end.

Definition is_dir (p : path) (n : node) : bool :=
  match lookup p n with Some (Dir _) => true | _ => false end.

Definition is_file (p : path) (n : node) : bool :=
  match lookup p n with Some (File _) => true | _ => false end.

(** [PurePath.name], [PurePath.parent], [str(path)] and the path
    [f"{path}{suffix}"]. *)
Definition name (p : path) : string := last p EmptyString.

Definition parent (p : path) : path := removelast p.

Definition path_str (p : path) : string :=
  match p with
  | [] => "."
  | _ => Py.join "/" p
  end.

(** [p / c] *)
Definition child (p : path) (c : string) : path := (p ++ [c])%list.

Definition add_suffix (p : path) (suffix : string) : path :=
  match p with
  | [] => [suffix]
  | _ => (removelast p ++ [(last p EmptyString ++ suffix)%string])%list
  end.

(** What [cp src dest] does to the tree: a regular file is copied onto
    [dest], or into it when [dest] is a directory; nothing happens when
    [src] is missing or is a directory. *)
Definition cp_effect (src dest : path) (n : node) : node :=
  match lookup src n with
  | Some (File d) =>
      match lookup dest n with
      | Some (Dir _) =>
          let target := child dest (name src) in
          match lookup target n with
          | Some (Dir _) => n
          | _ => put target (File d) n
          end
      | _ => put dest (File d) n
      end
  | _ => n
  end.

End FS.

(** ** The world a run acts on, and the monad of a run *)

Import Py Json FS.

Inductive exn : Type :=
| FileNotFoundError
| FileExistsError
| IsADirectoryError
| NotADirectoryError
| IndexError
| ReadError
| JSONDecodeError
| TypeError
| AttributeError
| TimeoutExpired
| SystemExit (status : Z).

Inductive result (A : Type) : Type :=
| Ok (a : A)
| Raise (e : exn)
| Hang.

Arguments Ok {A} a.
Arguments Raise {A} e.
Arguments Hang {A}.

Record world : Type := mkWorld {
  fs : node;                    (* the tree under the working directory *)
  trace : list (list string);   (* argv of each external command, in order *)
  out : list string             (* one entry for each call of print *)
}.

Definition M (A : Type) : Type := world -> result A * world.

Definition ret {A} (a : A) : M A := fun w => (Ok a, w).

Definition bind {A B} (m : M A) (k : A -> M B) : M B :=
  fun w =>
    match m w with
    | (Ok a, w') => k a w'
    | (Raise e, w') => (Raise e, w')
    | (Hang, w') => (Hang, w')
    end.

Declare Scope run_scope.
Delimit Scope run_scope with run.
Bind Scope run_scope with M.

Notation "x <- m ;; k" := (bind m (fun x => k))
  (at level 61, m at next level, right associativity) : run_scope.
Notation "m ;; k" := (bind m (fun _ => k))
  (at level 61, right associativity) : run_scope.

Local Open Scope run_scope.

Notation "p // c" := (child p c) (at level 40, left associativity).

Definition raise {A} (e : exn) : M A := fun w => (Raise e, w).

Definition print (line : string) : M unit :=
  fun w => (Ok tt, mkWorld (fs w) (trace w) (out w ++ [line])%list).

Definition get_fs : M node := fun w => (Ok (fs w), w).

Definition set_fs (n : node) : M unit :=
  fun w => (Ok tt, mkWorld n (trace w) (out w)).

Fixpoint for_each {A} (l : list A) (body : A -> M unit) : M unit :=
  match l with
  | [] => ret tt
  | x :: l' => body x ;; for_each l' body
  end.

(** [Path.mkdir(exist_ok=True)] *)
Definition mkdir_exist_ok (p : path) : M unit :=
  n <- get_fs ;;
  match lookup p n with
  | Some (Dir _) => ret tt
  | Some (File _) => raise FileExistsError
  | None =>
      match lookup (parent p) n with
      | Some (Dir _) => set_fs (put p (Dir []) n)
      | Some (File _) => raise NotADirectoryError
      | None => raise FileNotFoundError
      end
  end.

(** [open(p, 'r')] or [open(p, 'rb')], and [read()] *)
Definition read_file (p : path) : M string :=
  n <- get_fs ;;
  match lookup p n with
  | Some (File d) => ret d
  | Some (Dir _) => raise IsADirectoryError
  | None => raise FileNotFoundError
  end.

(** [open(p, 'w')], [write(data)] and the closing of the file *)
Definition write_file (p : path) (data : string) : M unit :=
  n <- get_fs ;;
  match lookup p n with
  | Some (Dir _) => raise IsADirectoryError
  | _ =>
      match lookup (parent p) n with
      | Some (Dir _) => set_fs (put p (File data) n)
      | Some (File _) => raise NotADirectoryError
      | None => raise FileNotFoundError
      end
  end.

(** [list(p.iterdir())], in the order of the directory *)
Definition iterdir (p : path) : M (list path) :=
  n <- get_fs ;;
  match lookup p n with
  | Some (Dir es) => ret (map (fun e => p // fst e) es)
  | Some (File _) => raise NotADirectoryError
  | None => raise FileNotFoundError
  end.

Definition path_exists (p : path) : M bool :=
  n <- get_fs ;; ret (exists_ p n).

Definition path_is_dir (p : path) : M bool :=
  n <- get_fs ;; ret (is_dir p n).

Definition path_is_file (p : path) : M bool :=
  n <- get_fs ;; ret (is_file p n).

(** ** External programs and library functions *)

Record completed : Type := mkCompleted {
  returncode : Z;
  stdout : string;
  stderr : string
}.

Inductive outcome : Type :=
| Exits (r : completed)   (* the process ends, with this result *)
| Overruns                (* the process is still running when any timeout expires *)
| NoSuchProgram.          (* the program cannot be started *)

(** What a run depends on and the program does not define.  The oracle
    [exec] answers by argv alone: the environment is taken to be stable
    over one run. *)
Record env : Type := mkEnv {
  sha256_hexdigest : string -> string;              (* hashlib.sha256(data).hexdigest() *)
  targz_pack : list (string * node) -> string;      (* the bytes of a tar.gz with these members *)
  targz_unpack : string -> option (list (string * node)); (* its members, None for tarfile.ReadError *)
  format_mb : nat -> string;                        (* f"{size / (1024 * 1024):.2f}" *)
  repr_container : json -> string;                  (* str() of a list or a dict *)
  exec : list string -> outcome;                    (* docker *)
  helper_archive : string -> option string;         (* what the export helper leaves as <volume>.tar.gz *)
  cwd : string;                                     (* os.getcwd() *)
  now_stamp : string;                               (* datetime.now().strftime("%Y%m%d_%H%M%S") *)
  now_iso : string                                  (* datetime.now().isoformat() *)
}.

(** ** The program: class [LocalAICLI] *)

Section Program.

Variable E : env.

Definition project_name : string := "localai".

Definition backup_dir : path := ["backups"].

(** [Path.absolute()] as a string *)
Definition abs_str (p : path) : string :=
  match p with
  | [] => cwd E
  | _ => cwd E ++ "/" ++ Py.join "/" p
  end.

Definition print_header (text : string) : M unit :=
  print (nl ++ repeat_char "=" 60) ;;
  print (center 60 text) ;;
  print (repeat_char "=" 60 ++ nl).

Definition record_call (cmd : list string) : M unit :=
  fun w => (Ok tt, mkWorld (fs w) (trace w ++ [cmd])%list (out w)).

Definition hang {A} : M A := fun w => (Hang, w).

(** [subprocess.run(cmd, timeout=...)] of a program that answers through
    the oracle; [effect] is what the process, once started, does to the
    files. *)
Definition subprocess_run (cmd : list string) (timeout : option nat)
    (effect : node -> node) : M completed :=
  record_call cmd ;;
  match exec E cmd with
  | NoSuchProgram => raise FileNotFoundError
  | Exits r => n <- get_fs ;; set_fs (effect n) ;; ret r
  | Overruns =>
      n <- get_fs ;; set_fs (effect n) ;;
      match timeout with
      | Some _ => raise TimeoutExpired
      | None => hang
      end
  end.

(** [subprocess.run] of [cp] and [rm]: they are taken to be installed and
    to end; their exit status is never looked at. *)
Definition coreutil (cmd : list string) (effect : node -> node) : M unit :=
  record_call cmd ;;
  n <- get_fs ;; set_fs (effect n).

Definition run_command (cmd : list string) (timeout : option nat) : M completed :=
  subprocess_run cmd timeout (fun n => n).

Definition names_if_ok (r : completed) : list string :=
  if Z.eqb (returncode r) 0 then names_of_output (stdout r) else [].

Definition docker_ps_cmd : list string :=
  ["docker"; "ps"; "--filter"; "name=" ++ project_name; "--format"; "{{.Names}}"].

Definition docker_volume_ls_cmd : list string :=
  ["docker"; "volume"; "ls"; "--filter"; "name=" ++ project_name;
   "--format"; "{{.Name}}"].

Definition get_running_containers : M (list string) :=
  r <- run_command docker_ps_cmd None ;;
  ret (names_if_ok r).

Definition get_docker_volumes : M (list string) :=
  r <- run_command docker_volume_ls_cmd None ;;
  ret (names_if_ok r).

Definition write_entry (p : path) (data : string) (n : node) : node :=
  match lookup p n with
  | Some (Dir _) => n
  | _ => put p (File data) n
  end.

Definition export_helper_cmd (volume_name : string) (output_dir : path)
  : list string :=
  ["docker"; "run"; "--rm";
   "-v"; volume_name ++ ":/volume";
   "-v"; abs_str output_dir ++ ":/backup";
   "alpine";
   "tar"; "czf"; "/backup/" ++ volume_name ++ ".tar.gz"; "-C"; "/volume"; "."].

(** The container writes into the directory mounted as /backup. *)
Definition export_helper_effect (volume_name : string) (output_dir : path)
    (n : node) : node :=
  match helper_archive E volume_name with
  | Some data => write_entry (output_dir // (volume_name ++ ".tar.gz")) data n
  | None => n
  end.

Definition export_docker_volume (volume_name : string) (output_dir : path)
  : M bool :=
  print ("  Exporting volume: " ++ volume_name) ;;
  r <- subprocess_run (export_helper_cmd volume_name output_dir) (Some 300)
         (export_helper_effect volume_name output_dir) ;;
  if Z.eqb (returncode r) 0 then
    print ("    ✓ Exported to " ++ volume_name ++ ".tar.gz") ;;
    ret true
  else
    print ("    ✗ Failed to export: " ++ stderr r) ;;
    ret false.

Definition import_helper_cmd (volume_name : string) (backup_file : path)
  : list string :=
  ["docker"; "run"; "--rm";
   "-v"; volume_name ++ ":/volume";
   "-v"; abs_str (parent backup_file) ++ ":/backup";
   "alpine";
   "tar"; "xzf"; "/backup/" ++ name backup_file; "-C"; "/volume"].

Definition import_docker_volume (volume_name : string) (backup_file : path)
  : M bool :=
  print ("  Importing volume: " ++ volume_name) ;;
  run_command ["docker"; "volume"; "create"; volume_name] None ;;
  r <- run_command (import_helper_cmd volume_name backup_file) (Some 300) ;;
  if Z.eqb (returncode r) 0 then
    print ("    ✓ Imported " ++ name backup_file) ;;
    ret true
  else
    print ("    ✗ Failed to import: " ++ stderr r) ;;
    ret false.

(** *** [export_environment] *)

Definition default_metadata (format : string) (containers volumes : list string)
  : list (string * json) :=
  [("version", JStr "1.0");
   ("timestamp", JStr (now_iso E));
   ("format", JStr format);
   ("containers", JArr (map JStr containers));
   ("volumes", JArr (map JStr volumes))].

Definition bootstrap_metadata_file : path := [".bootstrap_metadata.json"].

(** [metadata.update(json.load(f))].  Metadata that is a JSON object is
    merged.  Python would also merge a non-empty array of pairs, whose keys
    need not be strings: such a file is outside the embedding and stands
    with the values that raise [TypeError]. *)
Definition load_bootstrap_metadata (metadata : list (string * json))
  : M (list (string * json)) :=
  present <- path_exists bootstrap_metadata_file ;;
  if present then
    text <- read_file bootstrap_metadata_file ;;
    match loads text with
    | None => raise JSONDecodeError
    | Some (JObj bootstrap_meta) => ret (dict_update metadata bootstrap_meta)
    | Some (JArr []) => ret metadata
    | Some (JStr EmptyString) => ret metadata
    | Some _ => raise TypeError
    end
  else ret metadata.

Definition config_files : list string :=
  [".env";
   ".env.enc";
   ".sops.yaml";
   "docker-compose.yml";
   "docker-compose.override.private.yml";
   "docker-compose.override.public.yml";
   "Caddyfile";
   ".bootstrap_metadata.json"].

Definition cp (src : path) (src_str : string) (dest : path) : M unit :=
  coreutil ["cp"; src_str; path_str dest] (cp_effect src dest).

Definition export_config_file (config_dir : path) (config_file : string) : M unit :=
  present <- path_exists [config_file] ;;
  if present then
    cp [config_file] config_file config_dir ;;
    print ("  ✓ " ++ config_file)
  else ret tt.

Definition export_searxng (config_dir : path) : M unit :=
  present <- path_exists ["searxng"; "settings.yml"] ;;
  if present then
    let searxng_dir := (config_dir // "searxng") in
    mkdir_exist_ok searxng_dir ;;
    cp ["searxng"; "settings.yml"] "searxng/settings.yml" searxng_dir ;;
    print "  ✓ searxng/settings.yml"
  else ret tt.

Definition export_volumes (export_dir : path) : M unit :=
  print (nl ++ "💾 Exporting Docker volumes...") ;;
  let volumes_dir := (export_dir // "volumes") in
  mkdir_exist_ok volumes_dir ;;
  volumes <- get_docker_volumes ;;
  for_each volumes (fun volume =>
    _ <- export_docker_volume volume volumes_dir ;; ret tt).

(** The block [# Export metadata]. *)
Definition export_metadata (export_dir : path) (format : string) : M unit :=
  print "📋 Collecting metadata..." ;;
  containers <- get_running_containers ;;
  volumes <- get_docker_volumes ;;
  metadata <- load_bootstrap_metadata (default_metadata format containers volumes) ;;
  write_file (export_dir // "manifest.json") (dumps (JObj metadata)) ;;
  print "✓ Metadata saved".

(** The blocks [# Export configuration files] and
    [# Export custom configurations]. *)
Definition export_configs (export_dir : path) : M unit :=
  print (nl ++ "📄 Exporting configuration files...") ;;
  let config_dir := export_dir // "configs" in
  mkdir_exist_ok config_dir ;;
  for_each config_files (export_config_file config_dir) ;;
  export_searxng config_dir.

(** [with tarfile.open(archive_path, "w:gz") as tar: tar.add(dir, arcname)] *)
Definition tar_create (archive_path source : path) (arcname : string) : M unit :=
  write_file archive_path (targz_pack E []) ;;
  n <- get_fs ;;
  match lookup source n with
  | Some tree => set_fs (put archive_path (File (targz_pack E [(arcname, tree)])) n)
  | None => raise FileNotFoundError
  end.

(** The block [# Create tarball]. *)
Definition create_tarball (archive_path export_dir : path) (output_name : string)
  : M unit :=
  print (nl ++ "📦 Creating backup archive...") ;;
  tar_create archive_path export_dir output_name.

(** The block [# Calculate checksum]: the digest, written beside the
    archive. *)
Definition write_checksum (archive_path : path) : M string :=
  print "🔐 Calculating checksum..." ;;
  data <- read_file archive_path ;;
  let checksum := sha256_hexdigest E data in
  write_file (add_suffix archive_path ".sha256")
    (checksum ++ "  " ++ name archive_path ++ nl) ;;
  ret checksum.

Definition rm_rf (p : path) : M unit :=
  coreutil ["rm"; "-rf"; path_str p] (remove p).

(** The lines under the comment [# Summary]. *)
Definition export_summary (archive_path : path) (size : nat) (checksum : string)
  : list string :=
  [nl ++ "✓ Export Complete!";
   nl ++ "📦 Archive: " ++ path_str archive_path;
   "📊 Size: " ++ format_mb E size ++ " MB";
   "🔐 SHA256: " ++ checksum].

(** The block [# Summary]; the size is that of [archive_path.stat()]. *)
Definition print_export_summary (archive_path : path) (checksum : string) : M unit :=
  archive <- read_file archive_path ;;
  for_each (export_summary archive_path (String.length archive) checksum) print.

(** [output_name], given or made from the clock. *)
Definition chosen_name (output_name : option string) : string :=
  match output_name with
  | None | Some EmptyString => "localai_backup_" ++ now_stamp E
  | Some given => given
  end.

Definition export_environment (output_name : option string) (format : string)
  : M path :=
  print_header "Exporting Local AI Package" ;;
  let output_name := chosen_name output_name in
  let export_dir := backup_dir // output_name in
  mkdir_exist_ok export_dir ;;
  export_metadata export_dir format ;;
  export_configs export_dir ;;
  (* Export Docker volumes (if full backup) *)
  (if String.eqb format "full" then export_volumes export_dir else ret tt) ;;
  let archive_path := backup_dir // (output_name ++ ".tar.gz") in
  create_tarball archive_path export_dir output_name ;;
  checksum <- write_checksum archive_path ;;
  (* Cleanup temporary directory *)
  rm_rf export_dir ;;
  print_export_summary archive_path checksum ;;
  ret archive_path.

(** *** [import_environment] *)

(** The block [# Verify checksum if exists]: [false] is the early
    [return False]. *)
Definition verify_checksum (backup_file : path) : M bool :=
  let checksum_file := add_suffix backup_file ".sha256" in
  present <- path_exists checksum_file ;;
  if present then
    print "🔐 Verifying checksum..." ;;
    text <- read_file checksum_file ;;
    match first_word text with
    | None => raise IndexError
    | Some expected_checksum =>
        data <- read_file backup_file ;;
        if String.eqb (sha256_hexdigest E data) expected_checksum then
          print "✓ Checksum verified" ;; ret true
        else
          print "✗ Checksum mismatch! File may be corrupted." ;; ret false
    end
  else ret true.

(** [with tarfile.open(path, "r:gz") as tar: tar.extractall(dest)] *)
Definition tar_extractall (archive dest : path) : M unit :=
  data <- read_file archive ;;
  match targz_unpack E data with
  | None => raise ReadError
  | Some members =>
      n <- get_fs ;;
      match lookup dest n with
      | Some old => set_fs (put dest (overlay (Dir members) old) n)
      | None => raise FileNotFoundError
      end
  end.

Definition extract_dir : path := (backup_dir // "restore_temp").

(** The blocks [# Extract archive] and [# Find the backup directory]:
    [None] is the early [return False]. *)
Definition extract_archive (backup_path : path) : M (option path) :=
  print (nl ++ "📦 Extracting backup archive...") ;;
  mkdir_exist_ok extract_dir ;;
  tar_extractall backup_path extract_dir ;;
  children <- iterdir extract_dir ;;
  n <- get_fs ;;
  match filter (fun d => is_dir d n) children with
  | [] => print "✗ Invalid backup structure" ;; ret None
  | restore_dir :: _ => ret (Some restore_dir)
  end.

(** The block [# Read manifest]. *)
Definition read_manifest (restore_dir : path) : M (option json) :=
  let manifest_file := (restore_dir // "manifest.json") in
  present <- path_exists manifest_file ;;
  if present then
    text <- read_file manifest_file ;;
    match loads text with
    | Some manifest => ret (Some manifest)
    | None => raise JSONDecodeError
    end
  else
    print "✗ Manifest not found in backup" ;; ret None.

Definition py_str (v : json) : string :=
  match v with
  | JStr s => s
  | JInt z => int_repr z
  | JNull => "None"
  | JBool true => "True"
  | JBool false => "False"
  | _ => repr_container E v
  end.

(** [manifest.get(key, 'unknown')] inside an f-string *)
Definition manifest_get (manifest : json) (key : string) : M string :=
  match manifest with
  | JObj d =>
      ret (match dict_get key d with Some v => py_str v | None => "unknown" end)
  | _ => raise AttributeError
  end.

Definition print_backup_info (manifest : json) : M unit :=
  print (nl ++ "📋 Backup Info:") ;;
  created <- manifest_get manifest "timestamp" ;;
  print ("  Created: " ++ created) ;;
  format <- manifest_get manifest "format" ;;
  print ("  Format: " ++ format) ;;
  profile <- manifest_get manifest "hardware_profile" ;;
  print ("  Profile: " ++ profile) ;;
  environment <- manifest_get manifest "environment" ;;
  print ("  Environment: " ++ environment).

Definition restore_config_file (config_file : path) : M unit :=
  regular <- path_is_file config_file ;;
  if regular then
    cp config_file (path_str config_file) [name config_file] ;;
    print ("  ✓ " ++ name config_file)
  else ret tt.

(** The block [# Restore configuration files]. *)
Definition restore_configs (restore_dir : path) : M unit :=
  print (nl ++ "📄 Restoring configuration files...") ;;
  let config_dir := (restore_dir // "configs") in
  present <- path_exists config_dir ;;
  if present then
    files <- iterdir config_dir ;;
    for_each files restore_config_file
  else ret tt.

Definition compose_down_cmd : list string :=
  ["docker"; "compose"; "-p"; project_name; "down"].

(** [manifest.get('format') == 'full'] *)
Definition format_is_full (manifest : json) : bool :=
  match manifest with
  | JObj d =>
      match dict_get "format" d with
      | Some (JStr f) => String.eqb f "full"
      | _ => false
      end
  | _ => false
  end.

(** [volumes_dir.glob("*.tar.gz")] *)
Definition glob_tar_gz (dir : path) : M (list path) :=
  n <- get_fs ;;
  match lookup dir n with
  | Some (Dir es) =>
      ret (map (fun e => (dir // fst e))
             (filter (fun e => endswith ".tar.gz" (fst e)) es))
  | _ => ret []
  end.

Definition restore_volume (volume_backup : path) : M unit :=
  let volume_name := remove_dot_tar (stem (name volume_backup)) in
  _ <- import_docker_volume volume_name volume_backup ;; ret tt.

(** The block [# Restore Docker volumes (if not skipped)]. *)
Definition restore_volumes (restore_dir : path) (manifest : json)
    (skip_volumes : bool) : M unit :=
  if (negb skip_volumes && format_is_full manifest)%bool then
    print (nl ++ "💾 Restoring Docker volumes...") ;;
    print "⚠  This will stop running containers..." ;;
    (* Stop containers *)
    _ <- run_command compose_down_cmd None ;;
    let volumes_dir := (restore_dir // "volumes") in
    present <- path_exists volumes_dir ;;
    if present then
      backups <- glob_tar_gz volumes_dir ;;
      for_each backups restore_volume
    else ret tt
  else ret tt.

Definition import_next_steps : list string :=
  [nl ++ "✓ Import Complete!";
   nl ++ "📚 Next steps:";
   "  1. Review imported configuration: cat .env";
   "  2. Start services: python start_services.py"].

(** What follows the reading of the manifest. *)
Definition restore_backup (restore_dir : path) (manifest : json)
    (skip_volumes : bool) : M bool :=
  print_backup_info manifest ;;
  restore_configs restore_dir ;;
  restore_volumes restore_dir manifest skip_volumes ;;
  (* Cleanup *)
  rm_rf extract_dir ;;
  for_each import_next_steps print ;;
  ret true.

Definition import_environment (backup_file : path) (skip_volumes : bool)
  : M bool :=
  print_header "Importing Local AI Package" ;;
  present <- path_exists backup_file ;;
  if negb present then
    print ("✗ Backup file not found: " ++ path_str backup_file) ;;
    ret false
  else
    verified <- verify_checksum backup_file ;;
    if negb verified then ret false
    else
      found <- extract_archive backup_file ;;
      match found with
      | None => ret false
      | Some restore_dir =>
          read <- read_manifest restore_dir ;;
          match read with
          | None => ret false
          | Some manifest => restore_backup restore_dir manifest skip_volumes
          end
      end.

(** The run of [import_environment] up to the reading of the manifest:
    the backup root and the manifest, or [None] where the function
    returns [False]. *)
Definition open_backup (backup_file : path) : M (option (path * json)) :=
  print_header "Importing Local AI Package" ;;
  present <- path_exists backup_file ;;
  if negb present then
    print ("✗ Backup file not found: " ++ path_str backup_file) ;;
    ret None
  else
    verified <- verify_checksum backup_file ;;
    if negb verified then ret None
    else
      found <- extract_archive backup_file ;;
      match found with
      | None => ret None
      | Some restore_dir =>
          read <- read_manifest restore_dir ;;
          match read with
          | None => ret None
          | Some manifest => ret (Some (restore_dir, manifest))
          end
      end.

(** *** [main]

    The parsed command line, for the two subcommands of the backup
    engine; the other subcommands do not touch it. *)
Inductive args : Type :=
| Export (output : option string) (format : string)
| Import (backup_file : path) (skip_volumes : bool).

Definition main (a : args) : M unit :=
  (* cli = LocalAICLI() *)
  mkdir_exist_ok backup_dir ;;
  match a with
  | Export output format => _ <- export_environment output format ;; ret tt
  | Import backup_file skip_volumes =>
      _ <- import_environment backup_file skip_volumes ;; ret tt
  end.

End Program.

(** The exit status of the process: 0 when [main] returns, the argument
    of [sys.exit], 1 after an uncaught exception; none when it never ends. *)
Definition exit_status (r : result unit) : option Z :=
  match r with
  | Ok _ => Some 0%Z
  | Raise (SystemExit status) => Some status
  | Raise _ => Some 1%Z
  | Hang => None
  end.

(** ** [validate_environment] and the other subcommands of [main] *)

Section Commands.

Variable E : env.

(** The text of [parser.print_help()], and what a script that [main]
    starts does to the files: neither is defined by this file. *)
Variable help_text : string.
Variable script_effect : list string -> node -> node.

Definition required_vars : list string :=
  ["POSTGRES_PASSWORD";
   "N8N_ENCRYPTION_KEY";
   "N8N_USER_MANAGEMENT_JWT_SECRET";
   "JWT_SECRET";
   "NEO4J_AUTH";
   "ENCRYPTION_KEY"].

(** The dictionary [env_vars]: [env_vars.get(k)] and [env_vars[k] = v]. *)
Fixpoint vars_get (k : string) (d : list (string * string)) : option string :=
  match d with
  | [] => None
  | (k', v) :: d' => if String.eqb k k' then Some v else vars_get k d'
  end.

Fixpoint vars_set (k v : string) (d : list (string * string))
  : list (string * string) :=
  match d with
  | [] => [(k, v)]
  | (k', v') :: d' =>
      if String.eqb k k' then (k, v) :: d' else (k', v') :: vars_set k v d'
  end.

(** [if '=' in line and not line.strip().startswith('#')] *)
Definition is_assignment (line : string) : bool :=
  (has_char "=" line && negb (startswith "#" (strip line)))%bool.

(** The body of the loop over the lines of .env. *)
Definition read_env_line (env_vars : list (string * string)) (line : string)
  : list (string * string) :=
  if is_assignment line then
    let (key, value) := split_once "=" line in
    vars_set (strip key) (strip value) env_vars
  else env_vars.

Definition read_env (text : string) : list (string * string) :=
  fold_left read_env_line (file_lines text) [].

(** The issue that one required variable adds, if any. *)
Definition var_issues (env_vars : list (string * string)) (var : string)
  : list string :=
  match vars_get var env_vars with
  | None => ["Missing required variable: " ++ var]
  | Some value =>
      if (negb (nonempty value) || startswith "generate-" value)%bool
      then ["Variable not set: " ++ var]
      else []
  end.

(** The block [# Check if .env exists]: the issues it finds. *)
Definition check_env_file : M (list string) :=
  present <- path_exists [".env"] ;;
  if negb present then ret [".env file not found"]
  else
    print "✓ .env file exists" ;;
    text <- read_file [".env"] ;;
    let issues := flat_map (var_issues (read_env text)) required_vars in
    (match issues with
     | [] => print "✓ All required variables are set"
     | _ => ret tt
     end) ;;
    ret issues.

(** The blocks [# Check Docker] and [# Check Docker Compose]. *)
Definition check_tool (cmd : list string) (installed missing : string)
    (issues : list string) : M (list string) :=
  r <- run_command E cmd None ;;
  if Z.eqb (returncode r) 0 then print installed ;; ret issues
  else ret (issues ++ [missing])%list.

(** The block [# Check optional tools]. *)
Fixpoint check_optional (tools : list string) (warnings : list string)
  : M (list string) :=
  match tools with
  | [] => ret warnings
  | tool :: tools' =>
      r <- run_command E [tool; "--version"] None ;;
      check_optional tools'
        (if Z.eqb (returncode r) 0 then warnings
         else (warnings
               ++ [(tool ++ " is not installed (optional - needed for encryption)")%string])%list)
  end.

(** The block [# Summary]. *)
Definition print_validation (issues warnings : list string) : M unit :=
  print (nl ++ repeat_char "=" 60) ;;
  (match issues with
   | [] => print "✅ Validation Passed"
   | _ =>
       print "❌ Validation Failed" ;;
       print (nl ++ "Issues found:") ;;
       for_each issues (fun issue => print ("  ✗ " ++ issue))
   end) ;;
  match warnings with
  | [] => ret tt
  | _ =>
      print (nl ++ "Warnings:") ;;
      for_each warnings (fun warning => print ("  ⚠ " ++ warning))
  end.

Definition validate_environment : M bool :=
  print_header "Validating Environment" ;;
  issues <- check_env_file ;;
  issues <- check_tool ["docker"; "--version"] "✓ Docker is installed"
              "Docker is not installed or not running" issues ;;
  issues <- check_tool ["docker"; "compose"; "version"] "✓ Docker Compose is installed"
              "Docker Compose is not installed" issues ;;
  warnings <- check_optional ["sops"; "age"] [] ;;
  print_validation issues warnings ;;
  ret (Nat.eqb (List.length issues) 0).

(** *** [main], every subcommand *)

Inductive command : Type :=
| NoCommand
| ExportCmd (output : option string) (format : string)
| ImportCmd (backup_file : path) (skip_volumes : bool)
| Validate
| Encrypt
| Decrypt
| SetupGitea
| SyncInfisical (push pull : bool).

(** [subprocess.run(cmd)] of one of the scripts: no timeout, the result
    is not looked at. *)
Definition run_script (cmd : list string) : M unit :=
  _ <- subprocess_run E cmd None (script_effect cmd) ;; ret tt.

Definition decrypt_cmd : list string := ["sops"; "--decrypt"; ".env.enc"].

Definition decrypt : M unit :=
  print "Decrypting .env.enc with SOPS..." ;;
  r <- run_command E decrypt_cmd None ;;
  if Z.eqb (returncode r) 0 then
    write_file [".env"] (stdout r) ;;
    print "✓ Decrypted to .env"
  else
    print ("✗ Decryption failed: " ++ stderr r) ;;
    raise (SystemExit 1).

Definition sync_infisical_cmd (push pull : bool) : list string :=
  (["python"; "scripts/infisical_sync.py"]
   ++ (if push then ["--push"] else if pull then ["--pull"] else []))%list.

(** [main] after [parser.parse_args()].  On [ExportCmd] and [ImportCmd]
    it is [main] above. *)
Definition cli_main (c : command) : M unit :=
  match c with
  | NoCommand => print help_text ;; raise (SystemExit 1)
  | _ =>
      (* cli = LocalAICLI() *)
      mkdir_exist_ok backup_dir ;;
      match c with
      | NoCommand => ret tt
      | ExportCmd output format =>
          _ <- export_environment E output format ;; ret tt
      | ImportCmd backup_file skip_volumes =>
          _ <- import_environment E backup_file skip_volumes ;; ret tt
      | Validate =>
          valid <- validate_environment ;;
          if negb valid then raise (SystemExit 1) else ret tt
      | Encrypt =>
          print "Running SOPS encryption..." ;;
          run_script ["python"; "scripts/encrypt_secrets.py"]
      | Decrypt => decrypt
      | SetupGitea =>
          print "Setting up Gitea..." ;;
          run_script ["python"; "scripts/gitea_setup.py"]
      | SyncInfisical push pull => run_script (sync_infisical_cmd push pull)
      end
  end.

End Commands.

(** ** Runs on concrete data

    An environment for the examples.  The library functions are stand-ins:
    an archive is the JSON text of the tree it holds (a file is its
    content, a directory an object), so that packing and unpacking are
    inverse on the data of the examples, and the digest is another function
    of the bytes than SHA-256.  [docker] answers as the tables say. *)

Module Demo.

Definition same_cmd (a b : list string) : bool :=
  if list_eq_dec string_dec a b then true else false.

Definition succeeded (stdout : string) : outcome :=
  Exits (mkCompleted 0 stdout EmptyString).

Definition failed (stderr : string) : outcome :=
  Exits (mkCompleted 1 EmptyString stderr).

Fixpoint json_of_node (n : node) : json :=
  match n with
  | File data => JStr data
  | Dir es =>
      JObj ((fix each (l : list (string * node)) : list (string * json) :=
               match l with
               | [] => []
               | (k, x) :: l' => (k, json_of_node x) :: each l'
               end) es)
  end.

Fixpoint node_of_json (v : json) : option node :=
  match v with
  | JStr data => Some (File data)
  | JObj ms =>
      option_map Dir
        ((fix each (l : list (string * json)) : option (list (string * node)) :=
            match l with
            | [] => Some []
            | (k, x) :: l' =>
                match node_of_json x, each l' with
                | Some n, Some es => Some ((k, n) :: es)
                | _, _ => None
                end
            end) ms)
  | _ => None
  end.

Definition pack (members : list (string * node)) : string :=
  dumps (json_of_node (Dir members)).

Definition unpack (data : string) : option (list (string * node)) :=
  match loads data with
  | Some v =>
      match node_of_json v with
      | Some (Dir members) => Some members
      | _ => None
      end
  | None => None
  end.

Definition digest (data : string) : string :=
  let h := fold_left (fun acc c => N.modulo (acc * 31 + code c) 4294967296)
             (list_ascii_of_string data) 7%N in
  String (hex_digit (N.modulo (N.div h 268435456) 16))
    (String (hex_digit (N.modulo (N.div h 16777216) 16))
       (String (hex_digit (N.modulo (N.div h 1048576) 16))
          (String (hex_digit (N.modulo (N.div h 65536) 16))
             (String (hex_digit (N.modulo (N.div h 4096) 16))
                (String (hex_digit (N.modulo (N.div h 256) 16))
                   (String (hex_digit (N.modulo (N.div h 16) 16))
                      (String (hex_digit (N.modulo h 16)) EmptyString))))))).

(** A backup of format full: a root directory with the manifest, two
    configuration files, the nested group searxng and one volume. *)
Definition full_manifest : json :=
  JObj [("version", JStr "1.0");
        ("timestamp", JStr "2025-01-01T12:00:00");
        ("format", JStr "full");
        ("containers", JArr [JStr "localai_n8n"]);
        ("volumes", JArr [JStr "localai_db"])].

Definition backup_root : node :=
  Dir [("manifest.json", File (dumps full_manifest));
       ("configs",
        Dir [(".env", File "POSTGRES_PASSWORD=restored");
             ("searxng", Dir [("settings.yml", File "use_default_settings: true")]);
             ("Caddyfile", File ":80")]);
       ("volumes", Dir [("localai_db.tar.gz", File "db-volume-data")])].

Definition good_archive : string := pack [("localai_backup_1", backup_root)].

(** Two directories at the top of one archive. *)
Definition two_root_archive : string :=
  pack [("first", backup_root);
        ("second", Dir [("manifest.json", File (dumps full_manifest))])].

(** No directory at the top, and a root without manifest. *)
Definition no_root_archive : string := pack [("README", File "not a backup")].

Definition no_manifest_archive : string :=
  pack [("localai_backup_1", Dir [("configs", Dir [])])].

(** [docker volume ls] lists [volumes]; the export helper answers by
    mounted volume as [helper] says; every other command succeeds
    silently. *)
Definition docker (volumes : list string) (helper : string -> outcome)
    (cmd : list string) : outcome :=
  if same_cmd cmd docker_volume_ls_cmd then
    succeeded (Py.join nl volumes ++ nl)
  else if (same_cmd (firstn 3 cmd) ["docker"; "run"; "--rm"]
           && same_cmd (firstn 2 (skipn 8 cmd)) ["tar"; "czf"])%bool then
    helper (nth 4 cmd EmptyString)
  else succeeded EmptyString.

Definition demo_env (volumes : list string) (helper : string -> outcome) : env :=
  mkEnv digest pack unpack
    (fun size => "0.00") (fun v => "[...]")
    (docker volumes helper)
    (fun volume => Some ("archive of " ++ volume))
    "/srv/localai" "20250101_120000" "2025-01-01T12:00:00".

(** Every helper succeeds. *)
Definition quiet_env : env :=
  demo_env ["localai_db"] (fun _ => succeeded EmptyString).

(** The helper of [localai_a] exits with status 1, that of [localai_b]
    with status 0. *)
Definition a_fails_env : env :=
  demo_env ["localai_a"; "localai_b"]
    (fun mount =>
       if String.eqb mount "localai_a:/volume" then failed "tar: read error"
       else succeeded EmptyString).

(** The helper of [localai_db] is still running after 300 seconds. *)
Definition slow_env : env :=
  demo_env ["localai_db"; "localai_cache"]
    (fun mount =>
       if String.eqb mount "localai_db:/volume" then Overruns
       else succeeded EmptyString).

Definition empty_world (tree : list (string * node)) : world :=
  mkWorld (Dir tree) [] [].

(** A working directory with a configuration and the archive [data]
    under the name b.tar.gz, beside a sidecar that records [recorded]. *)
Definition site (data recorded : string) : world :=
  empty_world
    [(".env", File "POSTGRES_PASSWORD=current");
     ("searxng", Dir [("settings.yml", File "current settings")]);
     ("backups", Dir []);
     ("b.tar.gz", File data);
     ("b.tar.gz.sha256", File (recorded ++ "  b.tar.gz" ++ nl))].

Definition other_digest : string := "00000000".

Definition tampered_site : world := site good_archive other_digest.

Definition good_site : world := site good_archive (digest good_archive).

(** The same without sidecar. *)
Definition bare_site (data : string) : world :=
  empty_world
    [(".env", File "POSTGRES_PASSWORD=current");
     ("backups", Dir []);
     ("b.tar.gz", File data)].

(** What bootstrap.py leaves in .bootstrap_metadata.json, with one key
    the manifest has too. *)
Definition bootstrap_metadata : json :=
  JObj [("hardware_profile", JStr "cpu");
        ("environment", JStr "private");
        ("created_at", JStr "2025-01-01 11:00:00");
        ("version", JStr "bootstrap")].

(** A working directory after bootstrap, with the scratch directory of an
    export named nightly. *)
Definition bootstrapped_site : world :=
  empty_world
    [(".env", File "POSTGRES_PASSWORD=current");
     (".bootstrap_metadata.json", File (dumps bootstrap_metadata));
     ("backups", Dir [("nightly", Dir [])])].

Definition run {A} (m : M A) (w : world) : result A := fst (m w).

Definition after {A} (m : M A) (w : world) : world := snd (m w).

(** The directory [root] inside the archive stored at [p]. *)
Definition archive_root (w : world) (p : path) (root : string) : option node :=
  match lookup p (fs w) with
  | Some (File data) =>
      match unpack data with
      | Some members => assoc root members
      | None => None
      end
  | _ => None
  end.

(** The manifest inside that directory, as [json.load] reads it. *)
Definition archived_manifest (w : world) (p : path) (root : string) : option json :=
  match archive_root w p root with
  | Some tree =>
      match lookup ["manifest.json"] tree with
      | Some (File text) => loads text
      | _ => None
      end
  | None => None
  end.

(** [needle in line] *)
Fixpoint mentions (needle line : string) : bool :=
  match line with
  | EmptyString => startswith needle line
  | String _ rest => (startswith needle line || mentions needle rest)%bool
  end.

Fixpoint last_lines (k : nat) (lines : list string) : list string :=
  if Nat.leb (List.length lines) k then lines
  else match lines with
       | [] => []
       | _ :: rest => last_lines k rest
       end.

End Demo.

(** An archive format for the examples that need packing and unpacking
    to be inverse on every tree: a file is the letter F and its content, a
    directory the letter D, the number of its entries and, for each one,
    its name and its node; a string is written after its length, and a
    number n as n times the digit 1 and one 0. *)

Module Tar.

Definition number (n : nat) : string := repeat_char "1" n ++ "0".

Definition text (s : string) : string := number (String.length s) ++ s.

Section Texts.

Variable enc : node -> string.

Fixpoint entries_text (l : list (string * node)) : string :=
  match l with
  | [] => EmptyString
  | (k, y) :: l' => text k ++ enc y ++ entries_text l'
  end.

End Texts.

Fixpoint node_text (x : node) : string :=
  match x with
  | File data => "F" ++ text data
  | Dir es => "D" ++ number (List.length es) ++ entries_text node_text es
  end.

Fixpoint read_number (s : string) : option (nat * string) :=
  match s with
  | EmptyString => None
  | String c r =>
      if Ascii.eqb c "0" then Some (O, r)
      else if Ascii.eqb c "1" then
        match read_number r with
        | Some (n, r') => Some (S n, r')
        | None => None
        end
      else None
  end.

Fixpoint read_chars (n : nat) (s : string) : option (string * string) :=
  match n with
  | O => Some (EmptyString, s)
  | S n' =>
      match s with
      | EmptyString => None
      | String c r =>
          match read_chars n' r with
          | Some (t, r') => Some (String c t, r')
          | None => None
          end
      end
  end.

Definition read_text (s : string) : option (string * string) :=
  match read_number s with
  | Some (n, r) => read_chars n r
  | None => None
  end.

Section Entries.

Variable read : string -> option (node * string).

Fixpoint read_entries (n : nat) (s : string)
  : option (list (string * node) * string) :=
  match n with
  | O => Some ([], s)
  | S n' =>
      match read_text s with
      | Some (k, r) =>
          match read r with
          | Some (y, r') =>
              match read_entries n' r' with
              | Some (l, r'') => Some ((k, y) :: l, r'')
              | None => None
              end
          | None => None
          end
      | None => None
      end
  end.

End Entries.

Fixpoint read_node (fuel : nat) (s : string) : option (node * string) :=
  match fuel with
  | O => None
  | S fuel' =>
      match s with
      | EmptyString => None
      | String c r =>
          if Ascii.eqb c "F" then
            match read_text r with
            | Some (data, r') => Some (File data, r')
            | None => None
            end
          else if Ascii.eqb c "D" then
            match read_number r with
            | Some (n, r1) =>
                match read_entries (read_node fuel') n r1 with
                | Some (es, r') => Some (Dir es, r')
                | None => None
                end
            | None => None
            end
          else None
      end
  end.

Definition pack (members : list (string * node)) : string :=
  node_text (Dir members).

Definition unpack (data : string) : option (list (string * node)) :=
  match read_node (String.length data) data with
  | Some (Dir members, EmptyString) => Some members
  | _ => None
  end.

(** The environment [quiet_env] of [Demo] with this archive format. *)
Definition tar_env : env :=
  mkEnv Demo.digest pack unpack
    (fun size => "0.00") (fun v => "[...]")
    (Demo.docker ["localai_db"] (fun _ => Demo.succeeded EmptyString))
    (fun volume => Some ("archive of " ++ volume))
    "/srv/localai" "20250101_120000" "2025-01-01T12:00:00".

End Tar.

(** Examples for the subcommands other than export and import. *)

Module Examples.

(** A .env that sets the six required variables, one of them twice,
    among a comment and a line without assignment. *)
Definition complete_env_text : string :=
  "# secrets of the stack" ++ nl
  ++ "POSTGRES_PASSWORD=generate-me" ++ nl
  ++ "POSTGRES_PASSWORD = s3cret " ++ nl
  ++ "N8N_ENCRYPTION_KEY=k1" ++ nl
  ++ "N8N_USER_MANAGEMENT_JWT_SECRET=k2" ++ nl
  ++ "JWT_SECRET=k3" ++ nl
  ++ nl
  ++ "NEO4J_AUTH=neo4j/pw" ++ nl
  ++ "ENCRYPTION_KEY=k4".

Definition ready_site : world :=
  Demo.empty_world [(".env", File complete_env_text); ("backups", Dir [])].

(** docker and docker compose answer with status 0, sops and every other
    program with status 1. *)
Definition docker_only (cmd : list string) : outcome :=
  match cmd with
  | "docker" :: _ => Demo.succeeded "Docker version 27"
  | _ => Demo.failed "not available"
  end.

(** The same, where sops is not installed at all. *)
Definition without_sops (cmd : list string) : outcome :=
  match cmd with
  | "sops" :: _ => NoSuchProgram
  | _ => docker_only cmd
  end.

(** sops decrypts to the given text. *)
Definition sops_gives (plain : string) (cmd : list string) : outcome :=
  match cmd with
  | "sops" :: _ => Demo.succeeded plain
  | _ => docker_only cmd
  end.

Definition env_with (answers : list string -> outcome) : env :=
  mkEnv Demo.digest Tar.pack Tar.unpack
    (fun size => "0.00") (fun v => "[...]")
    answers
    (fun volume => None)
    "/srv/localai" "20250101_120000" "2025-01-01T12:00:00".

End Examples.

(** ** Vocabulary of the statements *)

Definition head_is (word : string) (cmd : list string) : bool :=
  match cmd with
  | c :: _ => String.eqb c word
  | [] => false
  end.

(** A command that starts the services again: [docker compose ... up]
    (or [start], [restart]), [docker start], [docker restart], or the
    script the last line of the import names. *)
Definition is_service_start (cmd : list string) : bool :=
  match cmd with
  | prog :: sub :: rest =>
      (String.eqb prog "docker"
       && ((String.eqb sub "compose"
            && existsb (fun a => String.eqb a "up" || String.eqb a "start"
                                 || String.eqb a "restart") rest)
           || String.eqb sub "start" || String.eqb sub "restart")
       || (String.eqb prog "python" || String.eqb prog "python3")
          && String.eqb sub "start_services.py")%bool
  | _ => false
  end.

(** The two commands of [import_docker_volume]. *)
Definition is_volume_import (cmd : list string) : bool :=
  match cmd with
  | prog :: sub :: _ =>
      (String.eqb prog "docker" && (String.eqb sub "run" || String.eqb sub "volume"))%bool
  | _ => false
  end.

(** A run of a container, as the export helper is. *)
Definition is_docker_run (cmd : list string) : bool :=
  match cmd with
  | prog :: sub :: _ => (String.eqb prog "docker" && String.eqb sub "run")%bool
  | _ => false
  end.

(** The metadata [export_environment] merges into the manifest: the
    object in .bootstrap_metadata.json, nothing when there is none. *)
Definition bootstrap_of (n : node) : list (string * json) :=
  match lookup bootstrap_metadata_file n with
  | Some (File text) =>
      match loads text with
      | Some (JObj bootstrap_meta) => bootstrap_meta
      | _ => []
      end
  | _ => []
  end.

(** What [export_docker_volume] prints for a volume whose helper ends. *)
Definition volume_lines (E : env) (volumes_dir : path) (volume : string)
  : list string :=
  ("  Exporting volume: " ++ volume)
  :: match exec E (export_helper_cmd E volume volumes_dir) with
     | Exits r =>
         [if Z.eqb (returncode r) 0
          then "    ✓ Exported to " ++ volume ++ ".tar.gz"
          else "    ✗ Failed to export: " ++ stderr r]
     | _ => []
     end.

(** Is there no metadata file, or one [load_bootstrap_metadata] takes. *)
Definition bootstrap_loads (n : node) : bool :=
  match lookup bootstrap_metadata_file n with
  | None => true
  | Some (File text) =>
      match loads text with
      | Some (JObj _) | Some (JArr []) | Some (JStr EmptyString) => true
      | _ => false
      end
  | Some (Dir _) => false
  end.

(** The copy of the entry [entry] of [config_dir] into the working
    directory. *)
Definition config_cp_cmd (config_dir : path) (entry : string) : list string :=
  ["cp"; path_str (config_dir // entry); entry].

(** The entries of [config_dir] that are regular files, in the order of
    the directory. *)
Definition regular_entries (config_dir : path) (n : node) : list string :=
  match lookup config_dir n with
  | Some (Dir es) => filter (fun entry => is_file (config_dir // entry) n) (map fst es)
  | _ => []
  end.

(** ** Vocabulary of the proofs *)

Local Open Scope list_scope.

(** A relation between the world before and the world after that every
    run of [m] respects, whatever its result. *)
Definition respects {A} (R : world -> world -> Prop) (m : M A) : Prop :=
  forall w r w', m w = (r, w') -> R w w'.

(** Only the output changes. *)
Definition silent (w w' : world) : Prop :=
  fs w' = fs w /\ trace w' = trace w.

(** Nothing is run, and nothing changes outside the directory backups. *)
Definition outside_backups (w w' : world) : Prop :=
  trace w' = trace w
  /\ forall g rest, g <> "backups"%string ->
       lookup (g :: rest) (fs w') = lookup (g :: rest) (fs w).

(** The files stay as they are and every command run satisfies [P]. *)
Definition runs_only (P : list string -> Prop) (w w' : world) : Prop :=
  fs w' = fs w /\ exists t, trace w' = trace w ++ t /\ Forall P t.

Definition volume_import_cmd (cmd : list string) : Prop :=
  is_volume_import cmd = true.

(** The commands of the block that restores the volumes: none, or the
    stop of the services followed by imports of volumes. *)
Definition volume_phase (E : env) (skip : bool) (m : json)
    (vol : list (list string)) : Prop :=
  vol = []
  \/ (skip = false /\ format_is_full m = true
      /\ exists rest, vol = compose_down_cmd :: rest
                      /\ Forall volume_import_cmd rest
                      /\ (rest <> [] -> exists res, exec E compose_down_cmd = Exits res)).

Definition rm_scratch_cmd : list string := ["rm"%string; "-rf"%string; path_str extract_dir].

Definition import_header : list string :=
  [(nl ++ repeat_char "=" 60)%string;
   center 60 "Importing Local AI Package";
   (repeat_char "=" 60 ++ nl)%string].

(** [p] and [q] differ at a component they both have. *)
Definition diverge (p q : path) : Prop :=
  exists l a b p' q', p = l ++ a :: p' /\ q = l ++ b :: q' /\ a <> b.

(** Nothing changes at the paths that part from [p]. *)
Definition writes_below (p : path) (w w' : world) : Prop :=
  forall q, diverge p q -> lookup q (fs w') = lookup q (fs w).

Definition no_docker_run (cmd : list string) : Prop := is_docker_run cmd = false.

Definition metadata_lines : list string :=
  ["📋 Collecting metadata..."%string; "✓ Metadata saved"%string].

(** The commands run satisfy [P] and the output only grows. *)
Definition journal (P : list string -> Prop) (w w' : world) : Prop :=
  (exists t, trace w' = trace w ++ t /\ Forall P t)
  /\ (exists lines, out w' = out w ++ lines).

(** A step of the export that writes only below [p]. *)
Definition export_step (p : path) (w w' : world) : Prop :=
  writes_below p w w' /\ journal no_docker_run w w'.

(** [config_dir] is a directory without the entry searxng. *)
Definition configs_ready (config_dir : path) (n : node) : Prop :=
  (exists es, lookup config_dir n = Some (Dir es))
  /\ lookup (config_dir // "searxng") n = None.

(** [dir] is a directory without subdirectory. *)
Definition flat_dir (dir : path) (n : node) : Prop :=
  (exists es, lookup dir n = Some (Dir es))
  /\ forall c, is_dir (dir // c) n = false.

Definition archive_name (volume : string) : string := (volume ++ ".tar.gz")%string.

Definition volumes_banner : string := (nl ++ "💾 Exporting Docker volumes...")%string.

Definition tarball_banner : string := (nl ++ "📦 Creating backup archive...")%string.

Definition checksum_banner : string := "🔐 Calculating checksum..."%string.

Definition sidecar_text (E : env) (data archive_name : string) : string :=
  (sha256_hexdigest E data ++ "  " ++ archive_name ++ nl)%string.

(** A name that is one component of a path: no slash in it, and neither
    of the names . and .. that stand for other directories.  The
    embedding joins the name of an export to backups as one component;
    the statements on exports are made for such names. *)
Definition plain_name (s : string) : bool :=
  (negb (has_char "/" s) && negb (String.eqb s ".") && negb (String.eqb s ".."))%bool.

(** The characters a value can begin with. *)
Definition value_start (c : ascii) : bool :=
  (Ascii.eqb c dquote || Ascii.eqb c "{" || Ascii.eqb c "[" || Ascii.eqb c "n"
   || Ascii.eqb c "t" || Ascii.eqb c "f" || Ascii.eqb c "-" || is_digit c)%bool.

Definition begins (P : ascii -> bool) (s : string) : bool :=
  match s with
  | String c _ => P c
  | EmptyString => false
  end.

(** What may follow a value in the text [json.dump] writes: the end, a
    comma or a line feed. *)
Definition ends_value (rest : string) : bool :=
  match rest with
  | EmptyString => true
  | String c _ => (Ascii.eqb c "," || Ascii.eqb c lf)%bool
  end.

(** The fuel [scan_once] needs for a value. *)
Fixpoint jsize (v : json) : nat :=
  match v with
  | JArr items => S (fold_right (fun x acc => jsize x + acc) 0 items)
  | JObj members => S (fold_right (fun member acc => jsize (snd member) + acc) 0 members)
  | _ => 1
  end.

Definition wf_members (d : list (string * json)) : bool :=
  forallb (fun member => wf_json (snd member)) d.

Definition wf_scanned {A} (wf : A -> bool) (o : option (A * string)) : Prop :=
  match o with
  | Some (v, _) => wf v = true
  | None => True
  end.

(** ['.tar' in s] *)
Fixpoint has_dot_tar (s : string) : bool :=
  match s with
  | String "." (String "t" (String "a" (String "r" _))) => true
  | String _ s' => has_dot_tar s'
  | EmptyString => false
  end.

(** No character of [s] is white space. *)
Fixpoint no_space (s : string) : bool :=
  match s with
  | EmptyString => true
  | String c s' => (negb (is_space c) && no_space s')%bool
  end.


Fixpoint height (x : node) : nat :=
  match x with
  | File _ => 1
  | Dir es => S (fold_right (fun e acc => Nat.max (height (snd e)) acc) 0 es)
  end.

(** Is the required variable [var] set in [env_vars]. *)
Definition var_is_set (env_vars : list (string * string)) (var : string) : bool :=
  match vars_get var env_vars with
  | Some value => (nonempty value && negb (startswith "generate-" value))%bool
  | None => false
  end.

(** Is .env a regular file that sets every required variable. *)
Definition env_file_ok (n : node) : bool :=
  match lookup [".env"%string] n with
  | Some (File text) => forallb (var_is_set (read_env text)) required_vars
  | _ => false
  end.

(** The four commands of a validation, in the order of the run. *)
Definition validation_cmds : list (list string) :=
  [["docker"%string; "--version"%string];
   ["docker"%string; "compose"%string; "version"%string];
   ["sops"%string; "--version"%string];
   ["age"%string; "--version"%string]].

(** The value that [line] gives to the variable [var], if it is an
    assignment to it. *)
Definition assigned (var line : string) : option string :=
  if is_assignment line then
    let (key, value) := split_once "=" line in
    if String.eqb var (strip key) then Some (strip value) else None
  else None.

(** The value of the last line that assigns [var]. *)
Definition last_assigned (var : string) (lines : list string) : option string :=
  fold_left (fun found line =>
               match assigned var line with
               | Some value => Some value
               | None => found
               end) lines None.

(** The script that a subcommand hands over to. *)
Definition script_of (c : command) : option (list string) :=
  match c with
  | Encrypt => Some ["python"%string; "scripts/encrypt_secrets.py"%string]
  | SetupGitea => Some ["python"%string; "scripts/gitea_setup.py"%string]
  | SyncInfisical push pull => Some (sync_infisical_cmd push pull)
  | _ => None
  end.

(** The volume that the archive [entry] is restored into, and the two
    commands of its restoration. *)
Definition volume_of (entry : string) : string := remove_dot_tar (stem entry).

Definition volume_create_cmd (volume : string) : list string :=
  ["docker"%string; "volume"%string; "create"%string; volume].

Definition volume_import_cmds (E : env) (dir : path) (entry : string)
  : list (list string) :=
  [volume_create_cmd (volume_of entry);
   import_helper_cmd E (volume_of entry) (dir // entry)].

(** * Proofs *)

(** ** Facts on the file tree *)

Lemma assoc_set_entry_same k x es : assoc k (set_entry k x es) = Some x.
Proof.
  induction es as [|[k' y] es IH]; simpl.
  - now rewrite String.eqb_refl.
  - destruct (String.eqb k k') eqn:Hk; simpl.
    + now rewrite String.eqb_refl.
    + now rewrite Hk.
Qed.

Lemma assoc_set_entry_other k k' x es :
  k <> k' -> assoc k' (set_entry k x es) = assoc k' es.
Proof.
  intros Hne. induction es as [|[k0 y] es IH]; simpl.
  - destruct (String.eqb k' k) eqn:Hk; [|reflexivity].
    apply String.eqb_eq in Hk. congruence.
  - destruct (String.eqb k k0) eqn:Hk; simpl.
    + apply String.eqb_eq in Hk. subst k0.
      destruct (String.eqb k' k) eqn:Hk'; [|reflexivity].
      apply String.eqb_eq in Hk'. congruence.
    + now rewrite IH.
Qed.

Lemma assoc_del_entry_other k k' es :
  k <> k' -> assoc k' (del_entry k es) = assoc k' es.
Proof.
  intros Hne. induction es as [|[k0 y] es IH]; simpl; [reflexivity|].
  destruct (String.eqb k k0) eqn:Hk; simpl.
  - apply String.eqb_eq in Hk. subst k0.
    destruct (String.eqb k' k) eqn:Hk'; [|exact IH].
    apply String.eqb_eq in Hk'. congruence.
  - now rewrite IH.
Qed.

Lemma lookup_app p q n :
  lookup (p ++ q) n =
  match lookup p n with Some m => lookup q m | None => None end.
Proof.
  revert n. induction p as [|c p IH]; intros n; simpl; [reflexivity|].
  destruct n as [d|es]; [reflexivity|].
  destruct (assoc c es); [apply IH | reflexivity].
Qed.

(** A write below [l ++ [a]] is not seen from below [l ++ [b]]. *)
Lemma lookup_put_diverge l a b p q x n :
  a <> b ->
  lookup (l ++ b :: q) (put (l ++ a :: p) x n) = lookup (l ++ b :: q) n.
Proof.
  intros Hne. revert n. induction l as [|c l IH]; intros n; simpl.
  - destruct n as [d|es]; [reflexivity|].
    destruct (assoc a es) eqn:Ha; [|destruct p]; simpl;
      rewrite ?assoc_set_entry_other by assumption; reflexivity.
  - destruct n as [d|es]; [reflexivity|].
    destruct (assoc c es) eqn:Hc; simpl; rewrite ?Hc.
    + rewrite assoc_set_entry_same. apply IH.
    + destruct (l ++ a :: p) eqn:Hl; [now destruct l|].
      simpl. now rewrite Hc.
Qed.

Lemma lookup_remove_diverge l a b p q n :
  a <> b ->
  lookup (l ++ b :: q) (remove (l ++ a :: p) n) = lookup (l ++ b :: q) n.
Proof.
  intros Hne. revert n. induction l as [|c l IH]; intros n.
  - cbn [app]. destruct n as [d|es]; [reflexivity|].
    destruct p; cbn [remove lookup].
    + now rewrite assoc_del_entry_other.
    + destruct (assoc a es); cbn [lookup];
        rewrite ?assoc_set_entry_other by assumption; reflexivity.
  - cbn [app]. destruct n as [d|es]; [reflexivity|].
    cbn [remove]. destruct (l ++ a :: p) eqn:Hl; [now destruct l|]. rewrite <- Hl.
    cbn [lookup].
    destruct (assoc c es) eqn:Hc; cbn [lookup].
    + rewrite assoc_set_entry_same. rewrite <- Hl in IH. apply IH.
    + now rewrite Hc.
Qed.

(** Writing where the parent is a directory is read back. *)
Lemma lookup_put_same p x n :
  p <> [] ->
  (exists es, lookup (parent p) n = Some (Dir es)) ->
  lookup p (put p x n) = Some x.
Proof.
  revert n. induction p as [|c p IH]; intros n Hp [es0 Hpar]; [congruence|].
  destruct p as [|c' p].
  - simpl in *. injection Hpar as ->.
    destruct (assoc c es0); simpl; now rewrite assoc_set_entry_same.
  - change (parent (c :: c' :: p)) with (c :: parent (c' :: p)) in Hpar.
    cbn [lookup] in Hpar. destruct n as [d|es]; [discriminate|].
    destruct (assoc c es) as [sub|] eqn:Hc; [|discriminate].
    cbn [put]. rewrite Hc. cbn [lookup].
    rewrite assoc_set_entry_same. apply IH; [discriminate|eauto].
Qed.

(** ** Facts on runs *)

Lemma bind_inv {A B} (m : M A) (k : A -> M B) w r w' :
  bind m k w = (r, w') ->
  (exists a w1, m w = (Ok a, w1) /\ k a w1 = (r, w'))
  \/ (exists e, m w = (Raise e, w') /\ r = Raise e)
  \/ (m w = (Hang, w') /\ r = Hang).
Proof.
  unfold bind. destruct (m w) as [[a|e|] w1]; intros H.
  - left. eauto.
  - right. left. injection H as <- <-. eauto.
  - right. right. injection H as <- <-. eauto.
Qed.

Lemma bind_ok {A B} (m : M A) (k : A -> M B) w a w1 :
  m w = (Ok a, w1) -> bind m k w = k a w1.
Proof. unfold bind. now intros ->. Qed.

(** What the file operations of Python return. *)
Lemma path_exists_run p w : path_exists p w = (Ok (exists_ p (fs w)), w).
Proof. reflexivity. Qed.

Lemma path_is_file_run p w : path_is_file p w = (Ok (is_file p (fs w)), w).
Proof. reflexivity. Qed.

Lemma print_run line w :
  print line w = (Ok tt, mkWorld (fs w) (trace w) (out w ++ [line])).
Proof. reflexivity. Qed.

Lemma read_file_run p w :
  read_file p w =
  match lookup p (fs w) with
  | Some (File d) => (Ok d, w)
  | Some (Dir _) => (Raise IsADirectoryError, w)
  | None => (Raise FileNotFoundError, w)
  end.
Proof.
  unfold read_file, bind, get_fs, ret, raise.
  now destruct (lookup p (fs w)) as [[d|es]|].
Qed.

Lemma iterdir_run p w :
  iterdir p w =
  match lookup p (fs w) with
  | Some (Dir es) => (Ok (map (fun e => p // fst e) es), w)
  | Some (File _) => (Raise NotADirectoryError, w)
  | None => (Raise FileNotFoundError, w)
  end.
Proof.
  unfold iterdir, bind, get_fs, ret, raise.
  now destruct (lookup p (fs w)) as [[d|es]|].
Qed.

Lemma mkdir_exist_ok_run p w :
  mkdir_exist_ok p w =
  match lookup p (fs w) with
  | Some (Dir _) => (Ok tt, w)
  | Some (File _) => (Raise FileExistsError, w)
  | None =>
      match lookup (parent p) (fs w) with
      | Some (Dir _) => (Ok tt, mkWorld (put p (Dir []) (fs w)) (trace w) (out w))
      | Some (File _) => (Raise NotADirectoryError, w)
      | None => (Raise FileNotFoundError, w)
      end
  end.
Proof.
  unfold mkdir_exist_ok, bind, get_fs, set_fs, ret, raise.
  destruct (lookup p (fs w)) as [[d|es]|]; trivial.
  now destruct (lookup (parent p) (fs w)) as [[d|es]|].
Qed.

Lemma write_file_run p data w :
  write_file p data w =
  match lookup p (fs w) with
  | Some (Dir _) => (Raise IsADirectoryError, w)
  | _ =>
      match lookup (parent p) (fs w) with
      | Some (Dir _) => (Ok tt, mkWorld (put p (File data) (fs w)) (trace w) (out w))
      | Some (File _) => (Raise NotADirectoryError, w)
      | None => (Raise FileNotFoundError, w)
      end
  end.
Proof.
  unfold write_file, bind, get_fs, set_fs, ret, raise.
  destruct (lookup p (fs w)) as [[d|es]|]; trivial;
    now destruct (lookup (parent p) (fs w)) as [[d'|es']|].
Qed.

Lemma coreutil_run cmd effect w :
  coreutil cmd effect w
  = (Ok tt, mkWorld (effect (fs w)) (trace w ++ [cmd]) (out w)).
Proof. reflexivity. Qed.

Section Respects.

Variable R : world -> world -> Prop.
Hypothesis R_refl : forall w, R w w.
Hypothesis R_trans : forall w1 w2 w3, R w1 w2 -> R w2 w3 -> R w1 w3.

Lemma respects_ret {A} (a : A) : respects R (ret a).
Proof. intros w r w' [= <- <-]. apply R_refl. Qed.

Lemma respects_raise {A} e : respects R (@raise A e).
Proof. intros w r w' [= <- <-]. apply R_refl. Qed.

Lemma respects_hang {A} : respects R (@hang A).
Proof. intros w r w' [= <- <-]. apply R_refl. Qed.

Lemma respects_get_fs : respects R get_fs.
Proof. intros w r w' [= <- <-]. apply R_refl. Qed.

Lemma respects_bind {A B} (m : M A) (k : A -> M B) :
  respects R m -> (forall a, respects R (k a)) -> respects R (bind m k).
Proof.
  intros Hm Hk w r w' H.
  destruct (bind_inv _ _ _ _ _ H) as [(a & w1 & H1 & H2)|[(e & H1 & _)|[H1 _]]].
  - eapply R_trans; [eapply Hm|eapply Hk]; eassumption.
  - eapply Hm; eassumption.
  - eapply Hm; eassumption.
Qed.

Lemma respects_for_each {A} (l : list A) (body : A -> M unit) :
  (forall x, In x l -> respects R (body x)) -> respects R (for_each l body).
Proof.
  induction l as [|x l IH]; intros Hb; simpl.
  - apply respects_ret.
  - apply respects_bind; [apply Hb; now left|].
    intros _. apply IH. intros y Hy. apply Hb. now right.
Qed.

End Respects.

Lemma silent_refl w : silent w w.
Proof. now split. Qed.

Lemma silent_trans w1 w2 w3 : silent w1 w2 -> silent w2 w3 -> silent w1 w3.
Proof. intros [A1 B1] [A2 B2]. split; congruence. Qed.

Lemma silent_print line : respects silent (print line).
Proof. intros w r w' [= <- <-]. now split. Qed.

Ltac silent_step :=
  first
    [ apply silent_print
    | apply (respects_bind silent silent_trans); [ | intros ? ]
    | apply (respects_ret silent silent_refl)
    | apply (respects_raise silent silent_refl)
    | apply (respects_get_fs silent silent_refl)
    | apply silent_print
    | apply (respects_for_each silent silent_refl silent_trans); intros ? _
    | match goal with
      | |- respects _ (match ?x with _ => _ end) => destruct x
      | |- respects _ (if ?x then _ else _) => destruct x
      end ].

Ltac silent_auto := repeat silent_step.

Lemma silent_print_header text : respects silent (print_header text).
Proof. unfold print_header. silent_auto. Qed.

Lemma silent_read_file p : respects silent (read_file p).
Proof. unfold read_file. silent_auto. Qed.

Lemma silent_path_exists p : respects silent (path_exists p).
Proof. unfold path_exists. silent_auto. Qed.

Lemma silent_path_is_file p : respects silent (path_is_file p).
Proof. unfold path_is_file. silent_auto. Qed.

Lemma silent_verify_checksum E b : respects silent (verify_checksum E b).
Proof.
  unfold verify_checksum. silent_auto;
    first [apply silent_path_exists | apply silent_read_file].
Qed.

Lemma silent_read_manifest rd : respects silent (read_manifest rd).
Proof.
  unfold read_manifest. silent_auto;
    first [apply silent_path_exists | apply silent_read_file].
Qed.

Lemma silent_print_backup_info E m : respects silent (print_backup_info E m).
Proof. unfold print_backup_info, manifest_get. silent_auto. Qed.

Lemma respects_weaken {A} (R S : world -> world -> Prop) (m : M A) :
  (forall w w', R w w' -> S w w') -> respects R m -> respects S m.
Proof. intros HRS Hm w r w' H. apply HRS. eapply Hm. eassumption. Qed.

Tactic Notation "run_inv" hyp(H) "as" ident(a) ident(w1) ident(H1) :=
  let e := fresh "e" in
  let Heq := fresh "Hres" in
  apply bind_inv in H;
  destruct H as [(a & w1 & H1 & H)|[(e & H1 & Heq)|[H1 Heq]]];
  [ | try discriminate Heq | try discriminate Heq ].

Lemma outside_refl w : outside_backups w w.
Proof. now split. Qed.

Lemma outside_trans w1 w2 w3 :
  outside_backups w1 w2 -> outside_backups w2 w3 -> outside_backups w1 w3.
Proof.
  intros [A1 B1] [A2 B2]. split; [congruence|].
  intros g rest Hg. rewrite B2, B1 by assumption. reflexivity.
Qed.

Lemma silent_outside w w' : silent w w' -> outside_backups w w'.
Proof. intros [Hf Ht]. split; [assumption|]. intros. now rewrite Hf. Qed.

Lemma outside_put_backups (w : world) p x :
  outside_backups w (mkWorld (put ("backups"%string :: p) x (fs w)) (trace w) (out w)).
Proof.
  split; [reflexivity|]. intros g rest Hg. simpl.
  apply (lookup_put_diverge [] "backups"%string g p rest). congruence.
Qed.

Lemma outside_mkdir_backups p :
  respects outside_backups (mkdir_exist_ok ("backups"%string :: p)).
Proof.
  intros w r w'. unfold mkdir_exist_ok, bind, get_fs, set_fs, raise, ret.
  destruct (lookup ("backups"%string :: p) (fs w)) as [[d|es]|];
    try (intros [= <- <-]; apply outside_refl).
  destruct (lookup (parent ("backups"%string :: p)) (fs w)) as [[d|es]|];
    intros [= <- <-]; try apply outside_refl.
  apply outside_put_backups.
Qed.

Lemma outside_tar_extractall E b p :
  respects outside_backups (tar_extractall E b ("backups"%string :: p)).
Proof.
  intros w r w'. unfold tar_extractall, read_file, bind, get_fs, set_fs, raise, ret.
  destruct (lookup b (fs w)) as [[d|es]|];
    try (intros [= <- <-]; apply outside_refl).
  destruct (targz_unpack E d); [|intros [= <- <-]; apply outside_refl].
  cbn [fs]. destruct (lookup ("backups"%string :: p) (fs w));
    intros [= <- <-]; try apply outside_refl.
  apply outside_put_backups.
Qed.

Lemma silent_iterdir p : respects silent (iterdir p).
Proof. unfold iterdir. silent_auto. Qed.

Ltac outside_step :=
  first
    [ apply outside_mkdir_backups
    | apply outside_tar_extractall
    | apply (respects_weaken silent outside_backups _ silent_outside);
      first [ apply silent_print | apply silent_print_header
            | apply silent_path_exists | apply silent_read_file
            | apply silent_iterdir | apply silent_verify_checksum
            | apply silent_read_manifest ]
    | apply (respects_bind outside_backups outside_trans); [ | intros ? ]
    | apply (respects_ret outside_backups outside_refl)
    | apply (respects_raise outside_backups outside_refl)
    | apply (respects_get_fs outside_backups outside_refl)
    | apply (respects_weaken silent outside_backups _ silent_outside);
      first [ apply silent_print | apply silent_print_header
            | apply silent_path_exists | apply silent_read_file
            | apply silent_iterdir | apply silent_verify_checksum
            | apply silent_read_manifest ]
    | match goal with
      | |- respects _ (match ?x with _ => _ end) => destruct x
      | |- respects _ (if ?x then _ else _) => destruct x
      end ].

Lemma outside_extract_archive E b :
  respects outside_backups (extract_archive E b).
Proof.
  unfold extract_archive, extract_dir, backup_dir, child. cbn [app].
  repeat outside_step.
Qed.

(** The backup root is a directory just below the scratch directory. *)
Lemma extract_archive_root E b w rd w' :
  extract_archive E b w = (Ok (Some rd), w') ->
  exists root, rd = extract_dir // root /\ is_dir rd (fs w') = true.
Proof.
  unfold extract_archive. intros H.
  run_inv H as u1 w1 H1.
  run_inv H as u2 w2 H2.
  run_inv H as u3 w3 H3.
  run_inv H as children w4 H4.
  run_inv H as n w5 H5.
  injection H5 as <- <-.
  destruct (filter (fun d => is_dir d (fs w4)) children) as [|d ds] eqn:Hf.
  - run_inv H as u6 w6 H6. discriminate.
  - injection H as <- <-.
    assert (Hin : In d (filter (fun d => is_dir d (fs w4)) children))
      by (rewrite Hf; now left).
    apply filter_In in Hin. destruct Hin as [Hin Hd].
    rewrite iterdir_run in H4.
    destruct (lookup extract_dir (fs w3)) as [[x|es]|]; try discriminate.
    injection H4 as <- <-.
    apply in_map_iff in Hin. destruct Hin as ([k y] & <- & _).
    exists k. now split.
Qed.

Lemma open_backup_outside E b : respects outside_backups (open_backup E b).
Proof.
  unfold open_backup.
  repeat first [apply outside_extract_archive | outside_step].
Qed.

Lemma open_backup_root E b w rd m w' :
  open_backup E b w = (Ok (Some (rd, m)), w') ->
  exists root, rd = extract_dir // root /\ is_dir rd (fs w') = true.
Proof.
  unfold open_backup. intros H.
  run_inv H as u1 w1 H1.
  run_inv H as present w2 H2.
  destruct (negb present); [run_inv H as u3 w3 H3; discriminate|].
  run_inv H as verified w3 H3.
  destruct (negb verified); [discriminate|].
  run_inv H as found w4 H4.
  destruct found as [rd'|]; [|discriminate].
  run_inv H as read w5 H5.
  destruct read as [m'|]; [|discriminate].
  injection H as <- <- <-.
  destruct (extract_archive_root _ _ _ _ _ H4) as (root & -> & Hd).
  exists root. split; [reflexivity|].
  destruct (silent_read_manifest _ _ _ _ H5) as [-> _]. exact Hd.
Qed.

(** [import_environment] is [open_backup] and then [restore_backup]. *)
Lemma import_environment_split E b skip w :
  import_environment E b skip w
  = bind (open_backup E b)
      (fun opened =>
         match opened with
         | None => ret false
         | Some (rd, m) => restore_backup E rd m skip
         end) w.
Proof.
  unfold import_environment, open_backup, bind.
  destruct (print_header _ w) as [[[]|e|] w1]; try reflexivity.
  destruct (path_exists b w1) as [[present|e|] w2]; try reflexivity.
  destruct (negb present).
  - destruct (print _ w2) as [[[]|e|] w3]; reflexivity.
  - destruct (verify_checksum E b w2) as [[verified|e|] w3]; try reflexivity.
    destruct (negb verified); [reflexivity|].
    destruct (extract_archive E b w3) as [[[rd|]|e|] w4]; try reflexivity.
    destruct (read_manifest rd w4) as [[[m|]|e|] w5]; reflexivity.
Qed.

(** ** The restoration of the configuration files *)

Lemma name_child p c : name (p // c) = c.
Proof. unfold name, child. apply last_last. Qed.

Lemma parent_child p c : parent (p // c) = p.
Proof. unfold parent, child. apply removelast_last. Qed.

Lemma lookup_child p c n :
  lookup (p // c) n =
  match lookup p n with
  | Some (Dir es) => assoc c es
  | _ => None
  end.
Proof.
  unfold child. rewrite lookup_app. destruct (lookup p n) as [[d|es]|]; simpl; trivial.
  now destruct (assoc c es).
Qed.

(** [cp <file> [entry]] writes at [entry] or below it. *)
Lemma cp_effect_elsewhere src entry g rest n :
  g <> entry ->
  lookup (g :: rest) (cp_effect src [entry] n) = lookup (g :: rest) n.
Proof.
  intros Hne. unfold cp_effect.
  destruct (lookup src n) as [[d|es]|]; trivial.
  assert (Hput : forall p, lookup (g :: rest) (put (entry :: p) (File d) n)
                           = lookup (g :: rest) n).
  { intros p. apply (lookup_put_diverge [] entry g p rest). congruence. }
  destruct (lookup [entry] n) as [[d'|es']|]; try apply Hput.
  unfold child. cbn [app].
  destruct (lookup [entry; name src] n) as [[d''|es'']|]; trivial; apply Hput.
Qed.

Lemma scratch_parent_is_dir n :
  lookup extract_dir n <> None ->
  exists es, lookup ["backups"%string] n = Some (Dir es).
Proof.
  unfold extract_dir, backup_dir, child. cbn [app lookup].
  destruct n as [d|es]; [congruence|].
  destruct (assoc "backups" es) as [[d|es']|]; try congruence. eauto.
Qed.

(** Restoring an entry of the scratch directory leaves the scratch
    directory as it is. *)
Lemma cp_effect_scratch src n q :
  lookup extract_dir n <> None ->
  lookup (extract_dir ++ q) (cp_effect src [name src] n)
  = lookup (extract_dir ++ q) n.
Proof.
  intros Hscratch.
  destruct (string_dec (name src) "backups") as [Hb|Hb].
  - rewrite Hb. unfold cp_effect.
    destruct (lookup src n) as [[d|es]|]; trivial.
    destruct (scratch_parent_is_dir n Hscratch) as [es ->].
    unfold child. cbn [app]. rewrite Hb.
    destruct (lookup ["backups"%string; "backups"%string] n) as [[d''|es'']|]; trivial;
      apply (lookup_put_diverge ["backups"%string] "backups"%string
               "restore_temp"%string [] q); discriminate.
  - apply cp_effect_elsewhere. congruence.
Qed.

Lemma restore_config_file_run p w :
  restore_config_file p w =
  if is_file p (fs w)
  then (Ok tt,
        mkWorld (cp_effect p [name p] (fs w))
          (trace w ++ [["cp"%string; path_str p; name p]])
          (out w ++ [("  ✓ " ++ name p)%string]))
  else (Ok tt, w).
Proof.
  unfold restore_config_file, bind. rewrite path_is_file_run.
  destruct (is_file p (fs w)); reflexivity.
Qed.

(** The loop of [restore_configs] over the entries [names] of
    [config_dir], a directory below the scratch directory: it ends, it
    runs one [cp] for each entry that is a regular file, and it writes
    only at these names. *)
Lemma restore_loop q0 (names : list string) n0 :
  let config_dir := extract_dir ++ q0 in
  forall w,
    lookup extract_dir n0 <> None ->
    (forall q, lookup (extract_dir ++ q) (fs w) = lookup (extract_dir ++ q) n0) ->
    exists w',
      for_each (map (child config_dir) names) restore_config_file w = (Ok tt, w')
      /\ trace w' = trace w
           ++ map (config_cp_cmd config_dir)
                (filter (fun entry => is_file (config_dir // entry) n0) names)
      /\ (forall q, lookup (extract_dir ++ q) (fs w') = lookup (extract_dir ++ q) n0)
      /\ (forall g rest,
            ~ In g (filter (fun entry => is_file (config_dir // entry) n0) names) ->
            lookup (g :: rest) (fs w') = lookup (g :: rest) (fs w)).
Proof.
  intros config_dir. induction names as [|entry names IH]; intros w Hs Hinv.
  - exists w. simpl. rewrite app_nil_r. auto.
  - cbn [map for_each].
    assert (Hfile : is_file (config_dir // entry) (fs w)
                    = is_file (config_dir // entry) n0).
    { unfold is_file, config_dir, child. rewrite <- !app_assoc. now rewrite Hinv. }
    unfold bind at 1. rewrite restore_config_file_run, Hfile. cbn [filter].
    destruct (is_file (config_dir // entry) n0) eqn:Hreg.
    + rewrite name_child.
      set (w1 := mkWorld _ _ _).
      destruct (IH w1 Hs) as (w' & Hrun & Htr & Hinv' & Hframe).
      { intros q. subst w1. cbn [fs].
        rewrite <- (name_child config_dir entry) at 2.
        rewrite cp_effect_scratch; [apply Hinv|].
        specialize (Hinv []). rewrite app_nil_r in Hinv. now rewrite Hinv. }
      exists w'. split; [exact Hrun|]. split; [|split].
      * rewrite Htr. subst w1. cbn [trace map]. rewrite <- app_assoc. reflexivity.
      * exact Hinv'.
      * intros g rest Hg. rewrite Hframe.
        -- subst w1. cbn [fs]. apply cp_effect_elsewhere.
           intros ->. apply Hg. now left.
        -- intros Hin. apply Hg. now right.
    + destruct (IH w Hs Hinv) as (w' & Hrun & Htr & Hinv' & Hframe).
      exists w'. auto.
Qed.

Lemma regular_entries_dir config_dir n es :
  lookup config_dir n = Some (Dir es) ->
  regular_entries config_dir n
  = filter (fun entry => is_file (config_dir // entry) n) (map fst es).
Proof. unfold regular_entries. now intros ->. Qed.

(** [restore_configs] on a backup root of the scratch directory. *)
Lemma restore_configs_spec root w r w' :
  let rd := extract_dir // root in
  lookup extract_dir (fs w) <> None ->
  restore_configs rd w = (r, w') ->
  trace w' = trace w ++ map (config_cp_cmd (rd // "configs"))
                          (regular_entries (rd // "configs") (fs w))
  /\ (forall q, lookup (extract_dir ++ q) (fs w') = lookup (extract_dir ++ q) (fs w))
  /\ (forall g rest,
        ~ In g (regular_entries (rd // "configs") (fs w)) ->
        lookup (g :: rest) (fs w') = lookup (g :: rest) (fs w))
  /\ (r = Ok tt \/ exists e, r = Raise e).
Proof.
  intros rd Hs. unfold restore_configs.
  unfold bind at 1. rewrite print_run.
  set (w0 := mkWorld (fs w) (trace w) _).
  assert (Hf : fs w0 = fs w) by reflexivity.
  assert (Ht : trace w0 = trace w) by reflexivity.
  clearbody w0. rewrite <- Hf in *. rewrite <- Ht. clear w Hf Ht.
  unfold bind at 1. rewrite path_exists_run. unfold exists_.
  set (cd := rd // "configs").
  destruct (lookup cd (fs w0)) as [[d|es]|] eqn:Hcd.
  - (* configs is a file: iterdir raises *)
    unfold bind. rewrite iterdir_run, Hcd. intros [= <- <-].
    unfold regular_entries. rewrite Hcd. rewrite app_nil_r. eauto 6.
  - unfold bind at 1. rewrite iterdir_run, Hcd.
    rewrite (regular_entries_dir _ _ _ Hcd).
    assert (Hcdq : cd = extract_dir ++ [root; "configs"%string]).
    { unfold cd, rd, child. now rewrite <- app_assoc. }
    destruct (restore_loop [root; "configs"%string] (map fst es) (fs w0) w0 Hs)
      as (w1 & Hrun & Htr & Hinv & Hframe); [reflexivity|].
    rewrite <- Hcdq in *.
    replace (map (fun e => cd // fst e) es) with (map (child cd) (map fst es))
      by (rewrite map_map; reflexivity).
    rewrite Hrun. intros [= <- <-]. auto 6.
  - intros [= <- <-]. unfold regular_entries. rewrite Hcd, app_nil_r. auto 6.
Qed.

(** ** The restoration of the volumes *)

Lemma runs_only_refl P w : runs_only P w w.
Proof. split; [reflexivity|]. exists []. now rewrite app_nil_r. Qed.

Lemma runs_only_trans P w1 w2 w3 :
  runs_only P w1 w2 -> runs_only P w2 w3 -> runs_only P w1 w3.
Proof.
  intros [F1 (t1 & T1 & P1)] [F2 (t2 & T2 & P2)]. split; [congruence|].
  exists (t1 ++ t2). split.
  - now rewrite T2, T1, app_assoc.
  - apply Forall_app. now split.
Qed.

Lemma silent_runs_only P w w' : silent w w' -> runs_only P w w'.
Proof.
  intros [Hf Ht]. split; [assumption|]. exists []. now rewrite app_nil_r.
Qed.

Lemma run_command_run E cmd timeout w :
  let w1 := mkWorld (fs w) (trace w ++ [cmd]) (out w) in
  run_command E cmd timeout w =
  match exec E cmd with
  | Exits r => (Ok r, w1)
  | Overruns =>
      match timeout with
      | Some _ => (Raise TimeoutExpired, w1)
      | None => (Hang, w1)
      end
  | NoSuchProgram => (Raise FileNotFoundError, w1)
  end.
Proof.
  unfold run_command, subprocess_run, record_call, bind, get_fs, set_fs, ret,
    raise, hang. cbn [fs trace out].
  destruct (exec E cmd); [reflexivity| |reflexivity].
  now destruct timeout.
Qed.

Lemma runs_only_run_command (P : list string -> Prop) E cmd timeout :
  P cmd -> respects (runs_only P) (run_command E cmd timeout).
Proof.
  intros HP w r w' H. rewrite run_command_run in H.
  assert (Hgoal : runs_only P w (mkWorld (fs w) (trace w ++ [cmd]) (out w))).
  { split; [reflexivity|]. exists [cmd]. split; [reflexivity|]. now constructor. }
  destruct (exec E cmd); [|destruct timeout|]; injection H as <- <-; exact Hgoal.
Qed.

Ltac runs_only_step P :=
  first
    [ apply (respects_weaken silent (runs_only P) _ (silent_runs_only P));
      first [ apply silent_print | apply silent_path_exists ]
    | apply runs_only_run_command
    | apply (respects_bind (runs_only P) (runs_only_trans P)); [ | intros ? ]
    | apply (respects_ret (runs_only P) (runs_only_refl P))
    | match goal with
      | |- respects _ (match ?x with _ => _ end) => destruct x
      | |- respects _ (if ?x then _ else _) => destruct x
      end ].

Lemma import_docker_volume_runs E volume backup :
  respects (runs_only volume_import_cmd) (import_docker_volume E volume backup).
Proof.
  unfold import_docker_volume.
  repeat runs_only_step volume_import_cmd; reflexivity.
Qed.

Lemma silent_glob_tar_gz dir : respects silent (glob_tar_gz dir).
Proof. unfold glob_tar_gz. silent_auto. Qed.

(** After the stop of the services, only volumes are imported. *)
Lemma restore_volumes_after_stop E rd :
  respects (runs_only volume_import_cmd)
    (present <- path_exists (rd // "volumes") ;;
     if present then
       backups <- glob_tar_gz (rd // "volumes") ;;
       for_each backups (restore_volume E)
     else ret tt)%run.
Proof.
  apply (respects_bind _ (runs_only_trans _)).
  - apply (respects_weaken silent _ _ (silent_runs_only _)), silent_path_exists.
  - intros [|]; [|apply (respects_ret _ (runs_only_refl _))].
    apply (respects_bind _ (runs_only_trans _)).
    + apply (respects_weaken silent _ _ (silent_runs_only _)), silent_glob_tar_gz.
    + intros backups.
      apply (respects_for_each _ (runs_only_refl _) (runs_only_trans _)).
      intros b _. unfold restore_volume.
      apply (respects_bind _ (runs_only_trans _)).
      * apply import_docker_volume_runs.
      * intros _. apply (respects_ret _ (runs_only_refl _)).
Qed.

Lemma restore_volumes_spec E rd m skip w r w' :
  restore_volumes E rd m skip w = (r, w') ->
  fs w' = fs w
  /\ exists vol,
       trace w' = trace w ++ vol
       /\ volume_phase E skip m vol
       /\ (r = Ok tt -> skip = false -> format_is_full m = true -> vol <> []).
Proof.
  unfold restore_volumes.
  destruct (negb skip && format_is_full m)%bool eqn:Hgo.
  - apply andb_true_iff in Hgo. destruct Hgo as [Hskip Hfull].
    apply negb_true_iff in Hskip.
    unfold bind at 1. rewrite print_run.
    unfold bind at 1. rewrite print_run.
    unfold bind at 1. rewrite run_command_run. cbn [fs trace out].
    set (w1 := mkWorld (fs w) (trace w ++ [compose_down_cmd]) _).
    assert (Hstop : volume_phase E skip m [compose_down_cmd]).
    { right. repeat split; trivial. exists [].
      split; [reflexivity|]. split; [constructor|congruence]. }
    destruct (exec E compose_down_cmd) as [res| |] eqn:Hexec.
    + intros H. apply restore_volumes_after_stop in H.
      destruct H as [Hf (t & Ht & HP)]. split; [exact Hf|].
      exists (compose_down_cmd :: t). split; [|split].
      * rewrite Ht. subst w1. cbn [trace]. now rewrite <- app_assoc.
      * right. repeat split; trivial. exists t. repeat split; eauto.
      * discriminate.
    + intros [= <- <-]. split; [reflexivity|].
      exists [compose_down_cmd]. repeat split; trivial. discriminate.
    + intros [= <- <-]. split; [reflexivity|].
      exists [compose_down_cmd]. repeat split; trivial. discriminate.
  - intros [= <- <-]. split; [reflexivity|]. exists []. rewrite app_nil_r.
    split; [reflexivity|]. split; [now left|].
    intros _ -> Hfull. rewrite Hfull in Hgo. discriminate.
Qed.

Lemma silent_next_steps : respects silent (for_each import_next_steps print).
Proof. silent_auto. Qed.

(** What [restore_backup] runs and writes, from a backup root of the
    scratch directory. *)
Lemma restore_backup_spec E root m skip w r w' :
  let rd := extract_dir // root in
  let config_dir := rd // "configs" in
  lookup extract_dir (fs w) <> None ->
  restore_backup E rd m skip w = (r, w') ->
  exists cps vol fin,
    trace w' = trace w ++ cps ++ vol ++ fin
    /\ (cps = [] \/ cps = map (config_cp_cmd config_dir) (regular_entries config_dir (fs w)))
    /\ volume_phase E skip m vol
    /\ (fin = [] \/ fin = [rm_scratch_cmd])
    /\ (r = Ok true ->
        cps = map (config_cp_cmd config_dir) (regular_entries config_dir (fs w))
        /\ fin = [rm_scratch_cmd]
        /\ (skip = false -> format_is_full m = true -> vol <> []))
    /\ (forall g rest,
          g <> "backups"%string ->
          ~ In g (regular_entries config_dir (fs w)) ->
          lookup (g :: rest) (fs w') = lookup (g :: rest) (fs w)).
Proof.
  intros rd config_dir Hs H. unfold restore_backup in H.
  assert (Hnil : forall w0 : world, trace w0 = trace w0 ++ [] ++ [] ++ [])
    by (intros; cbn [app]; now rewrite app_nil_r).
  assert (Hvnil : volume_phase E skip m []) by now left.
  (* print_backup_info *)
  apply bind_inv in H.
  destruct H as [(u1 & w1 & H1 & H)|[(e & H1 & ->)|[H1 ->]]];
    pose proof (silent_print_backup_info _ _ _ _ _ H1) as [Hf1 Ht1];
    [|exists [], [], []; rewrite Ht1, Hf1; repeat split; auto; discriminate ..].
  rewrite <- Hf1 in *. rewrite <- Ht1. clear H1 Hf1 Ht1 w.
  (* restore_configs *)
  apply bind_inv in H.
  destruct H as [(u2 & w2 & H2 & H)|[(e & H2 & ->)|[H2 ->]]];
    pose proof (restore_configs_spec _ _ _ _ Hs H2) as (Ht2 & Hscratch & Hframe2 & Hr2);
    fold rd config_dir in Ht2, Hframe2;
    [| exists (map (config_cp_cmd config_dir) (regular_entries config_dir (fs w1))), [], [];
       cbn [app]; rewrite app_nil_r; repeat split; auto; discriminate ..].
  (* restore_volumes *)
  apply bind_inv in H.
  destruct H as [(u3 & w3 & H3 & H)|[(e & H3 & ->)|[H3 ->]]];
    pose proof (restore_volumes_spec _ _ _ _ _ _ _ H3) as (Hf3 & vol & Ht3 & Hvol & Hr3);
    [| exists (map (config_cp_cmd config_dir) (regular_entries config_dir (fs w1))), vol, [];
       rewrite app_nil_r, Ht3, Ht2, <- app_assoc; rewrite Hf3;
       repeat split; auto; discriminate ..].
  (* rm -rf and the last lines *)
  unfold bind at 1, rm_rf in H. rewrite coreutil_run in H.
  set (w4 := mkWorld _ _ _) in H.
  apply bind_inv in H.
  assert (Hframe4 : forall g rest, g <> "backups"%string ->
            ~ In g (regular_entries config_dir (fs w1)) ->
            lookup (g :: rest) (fs w4) = lookup (g :: rest) (fs w1)).
  { intros g rest Hg Hreg. subst w4. cbn [fs]. rewrite Hf3.
    unfold extract_dir, backup_dir, child. cbn [app].
    rewrite (lookup_remove_diverge [] "backups"%string g ["restore_temp"%string] rest)
      by congruence.
    now apply Hframe2. }
  assert (Htr4 : trace w4 = trace w1
            ++ map (config_cp_cmd config_dir) (regular_entries config_dir (fs w1))
            ++ vol ++ [rm_scratch_cmd]).
  { subst w4. cbn [trace]. rewrite Ht3, Ht2, <- !app_assoc. reflexivity. }
  exists (map (config_cp_cmd config_dir) (regular_entries config_dir (fs w1))),
    vol, [rm_scratch_cmd].
  destruct H as [(u5 & w5 & H5 & H)|[(e & H5 & ->)|[H5 ->]]];
    pose proof (silent_next_steps _ _ _ H5) as [Hf5 Ht5].
  - injection H as <- <-. rewrite Ht5, Hf5. destruct u3.
    specialize (Hr3 eq_refl). repeat split; auto.
  - rewrite Ht5, Hf5. repeat split; auto; discriminate.
  - rewrite Ht5, Hf5. repeat split; auto; discriminate.
Qed.

(** ** The shape of an import *)

(** Every run of [import_environment]: either nothing was run and the
    result is not [True], or the backup was opened and [restore_backup]
    ran on it. *)
Lemma import_shape E b skip w r w' :
  import_environment E b skip w = (r, w') ->
  (trace w' = trace w /\ r <> Ok true
   /\ forall rd m w1, open_backup E b w <> (Ok (Some (rd, m)), w1))
  \/ exists root m w1,
       open_backup E b w = (Ok (Some (extract_dir // root, m)), w1)
       /\ outside_backups w w1
       /\ lookup extract_dir (fs w1) <> None
       /\ restore_backup E (extract_dir // root) m skip w1 = (r, w').
Proof.
  rewrite import_environment_split. intros H.
  apply bind_inv in H.
  destruct H as [(opened & w1 & H1 & H)|[(e & H1 & ->)|[H1 ->]]];
    pose proof (open_backup_outside _ _ _ _ _ H1) as Hout.
  - destruct opened as [[rd m]|].
    + right. destruct (open_backup_root _ _ _ _ _ _ H1) as (root & -> & Hd).
      exists root, m, w1. repeat split; trivial; try apply Hout.
      unfold is_dir in Hd. rewrite lookup_child in Hd.
      destruct (lookup extract_dir (fs w1)); congruence.
    + left. injection H as <- <-. destruct Hout as [Ht _].
      repeat split; trivial; try discriminate. intros rd m w2. congruence.
  - left. destruct Hout as [Ht _]. repeat split; trivial; try discriminate.
    intros rd m w2. congruence.
  - left. destruct Hout as [Ht _]. repeat split; trivial; try discriminate.
    intros rd m w2. congruence.
Qed.

Lemma config_cp_not_start config_dir entry :
  is_service_start (config_cp_cmd config_dir entry) = false.
Proof. reflexivity. Qed.

Lemma volume_import_not_start cmd :
  volume_import_cmd cmd -> is_service_start cmd = false.
Proof.
  unfold volume_import_cmd, is_volume_import, is_service_start.
  destruct cmd as [|prog [|sub rest]]; try discriminate.
  intros H. apply andb_true_iff in H. destruct H as [Hp Hs].
  apply String.eqb_eq in Hp. subst prog.
  apply orb_true_iff in Hs.
  destruct Hs as [Hs|Hs]; apply String.eqb_eq in Hs; subst sub; reflexivity.
Qed.

Lemma volume_import_not_stop cmd :
  volume_import_cmd cmd -> cmd <> compose_down_cmd.
Proof. intros H ->. discriminate H. Qed.


Lemma in_config_cps cmd config_dir names :
  In cmd (map (config_cp_cmd config_dir) names) ->
  is_volume_import cmd = false /\ cmd <> compose_down_cmd
  /\ is_service_start cmd = false.
Proof.
  intros H. apply in_map_iff in H. destruct H as (entry & <- & _).
  repeat split. discriminate.
Qed.

Lemma in_volume_phase E skip m vol cmd :
  volume_phase E skip m vol -> In cmd vol ->
  (cmd = compose_down_cmd \/ volume_import_cmd cmd) /\ skip = false.
Proof.
  intros [->|(Hs & _ & rest & -> & Hall & _)] Hin; [contradiction|].
  split; [|exact Hs]. destruct Hin as [<-|Hin]; [now left|right].
  rewrite Forall_forall in Hall. now apply Hall.
Qed.

Lemma stop_comes_first (cps tail before later : list (list string)) cmd :
  (forall c, In c cps -> is_volume_import c = false) ->
  cps ++ compose_down_cmd :: tail = before ++ cmd :: later ->
  is_volume_import cmd = true ->
  In compose_down_cmd before.
Proof.
  intros Hcps Hsplit Hcmd. revert before Hsplit.
  induction cps as [|c cps IH]; intros before Hsplit.
  - destruct before as [|c0 before]; injection Hsplit as <- _.
    + discriminate.
    + now left.
  - destruct before as [|c0 before].
    + injection Hsplit as <- _.
      rewrite (Hcps c (or_introl eq_refl)) in Hcmd. discriminate.
    + injection Hsplit as <- Hsplit. right.
      apply IH; [|exact Hsplit]. intros x Hx. apply Hcps. now right.
Qed.

(** C9.  In every run of the import: with skip-volumes the services are
    never stopped; a volume is imported only after the command that stops
    the services was issued and had ended; no command starts the services
    again; and a run that completes without skip-volumes on a manifest of
    format full has stopped the services. *)
Theorem import_stops_services_first_and_never_restarts :
  forall E backup_file skip_volumes w r w',
    import_environment E backup_file skip_volumes w = (r, w') ->
    exists issued,
      trace w' = trace w ++ issued
      /\ (skip_volumes = true -> ~ In compose_down_cmd issued)
      /\ (forall before cmd later,
            issued = before ++ cmd :: later ->
            is_volume_import cmd = true ->
            In compose_down_cmd before
            /\ exists res, exec E compose_down_cmd = Exits res)
      /\ (forall cmd, In cmd issued -> is_service_start cmd = false)
      /\ (forall restore_dir manifest w1,
            open_backup E backup_file w = (Ok (Some (restore_dir, manifest)), w1) ->
            r = Ok true -> skip_volumes = false ->
            format_is_full manifest = true ->
            In compose_down_cmd issued).
Proof.
  intros E b skip w r w' H.
  destruct (import_shape _ _ _ _ _ _ H)
    as [(Ht & Hr & Hopen)|(root & m & w1 & Hopen & [Ht1 _] & Hs & Hrest)].
  { exists []. rewrite app_nil_r. split; [exact Ht|].
    split; [auto|]. split; [intros [|] ? ?; discriminate|].
    split; [intros ? []|]. intros rd m w1 Ho. now apply Hopen in Ho. }
  destruct (restore_backup_spec _ _ _ _ _ _ _ Hs Hrest)
    as (cps & vol & fin & Ht & Hcps & Hvol & Hfin & Hok & _).
  set (config_dir := extract_dir // root // "configs") in *.
  assert (Hcp : forall cmd, In cmd cps ->
            is_volume_import cmd = false /\ cmd <> compose_down_cmd
            /\ is_service_start cmd = false).
  { intros cmd Hin. destruct Hcps as [->| ->]; [contradiction|].
    eapply in_config_cps; eassumption. }
  assert (Hrm : forall cmd, In cmd fin -> cmd = rm_scratch_cmd).
  { intros cmd Hin. destruct Hfin as [->| ->]; [contradiction|].
    destruct Hin as [<-|[]]. reflexivity. }
  exists (cps ++ vol ++ fin). split; [now rewrite Ht, Ht1|].
  split; [|split; [|split]].
  - (* skip-volumes: no stop *)
    intros Hskip Hin. apply in_app_or in Hin. destruct Hin as [Hin|Hin].
    + now apply Hcp in Hin.
    + apply in_app_or in Hin. destruct Hin as [Hin|Hin].
      * apply (in_volume_phase _ _ _ _ _ Hvol) in Hin. destruct Hin as [_ Hn].
        congruence.
      * apply Hrm in Hin. discriminate.
  - (* a volume import comes after the stop *)
    intros before cmd later Hsplit Hcmd.
    destruct Hvol as [->|(_ & _ & rest & -> & Hall & Hres)].
    + (* no volume phase: no volume import at all *)
      exfalso. assert (Hin : In cmd (cps ++ [] ++ fin))
        by (rewrite Hsplit; apply in_elt).
      apply in_app_or in Hin. destruct Hin as [Hin|Hin].
      * apply Hcp in Hin. destruct Hin as [Hn _]. congruence.
      * apply Hrm in Hin. subst cmd. discriminate.
    + assert (Hres' : exists res, exec E compose_down_cmd = Exits res).
      { apply Hres. intros ->.
        assert (Hin : In cmd (cps ++ [compose_down_cmd] ++ fin))
          by (rewrite Hsplit; apply in_elt).
        apply in_app_or in Hin. destruct Hin as [Hin|Hin].
        - apply Hcp in Hin. destruct Hin as [Hn _]. congruence.
        - destruct Hin as [<-|Hin]; [discriminate|].
          apply Hrm in Hin. subst cmd. discriminate. }
      split; [|exact Hres'].
      (* where is the stop: before [cmd] *)
      apply (stop_comes_first cps (rest ++ fin) before later cmd);
        [intros c Hc; now apply Hcp in Hc|exact Hsplit|exact Hcmd].
  - (* nothing starts the services *)
    intros cmd Hin. apply in_app_or in Hin. destruct Hin as [Hin|Hin].
    + now apply Hcp in Hin.
    + apply in_app_or in Hin. destruct Hin as [Hin|Hin].
      * apply (in_volume_phase _ _ _ _ _ Hvol) in Hin.
        destruct Hin as [[->|Hv] _]; [reflexivity|].
        now apply volume_import_not_start.
      * apply Hrm in Hin. now subst cmd.
  - (* a completed import of a full backup has stopped the services *)
    intros rd m' w2 Hopen' -> Hskip Hfull.
    rewrite Hopen in Hopen'. injection Hopen' as _ <- _.
    destruct (Hok eq_refl) as (_ & _ & Hne). specialize (Hne Hskip Hfull).
    destruct Hvol as [->|(_ & _ & rest & -> & _)]; [congruence|].
    apply in_or_app. right. now left.
Qed.

(** ** The verification of the checksum *)

Lemma read_file_ok p w d :
  lookup p (fs w) = Some (File d) -> read_file p w = (Ok d, w).
Proof. intros H. now rewrite read_file_run, H. Qed.

Lemma path_exists_true p w x :
  lookup p (fs w) = Some x -> path_exists p w = (Ok true, w).
Proof. intros H. rewrite path_exists_run. unfold exists_. now rewrite H. Qed.

Lemma verify_checksum_mismatch E b w data sidecar expected :
  lookup b (fs w) = Some (File data) ->
  lookup (add_suffix b ".sha256") (fs w) = Some (File sidecar) ->
  first_word sidecar = Some expected ->
  sha256_hexdigest E data <> expected ->
  verify_checksum E b w
  = (Ok false,
     mkWorld (fs w) (trace w)
       (out w ++ ["🔐 Verifying checksum..."%string;
                  "✗ Checksum mismatch! File may be corrupted."%string])).
Proof.
  intros Hfile Hside Hword Hdiff. apply String.eqb_neq in Hdiff.
  unfold verify_checksum.
  erewrite bind_ok by (eapply path_exists_true; eassumption). cbv beta iota.
  erewrite bind_ok by apply print_run.
  erewrite bind_ok by (apply read_file_ok; eassumption).
  rewrite Hword. cbv beta iota.
  erewrite bind_ok by (apply read_file_ok; eassumption).
  rewrite Hdiff. cbv beta iota.
  erewrite bind_ok by apply print_run.
  unfold ret. cbn [fs trace out]. now rewrite <- app_assoc.
Qed.

(** C2.  An archive beside a sidecar whose recorded digest (its first
    word) is not the SHA-256 digest of the archive: the import returns
    False after the line of the checksum mismatch, nothing is extracted
    (the files are as before) and no command is run. *)
Theorem import_checksum_mismatch_stops_before_extraction :
  forall E backup_file skip_volumes w data sidecar expected,
    lookup backup_file (fs w) = Some (File data) ->
    lookup (add_suffix backup_file ".sha256") (fs w) = Some (File sidecar) ->
    first_word sidecar = Some expected ->
    sha256_hexdigest E data <> expected ->
    import_environment E backup_file skip_volumes w
    = (Ok false,
       mkWorld (fs w) (trace w)
         (out w ++ import_header
            ++ ["🔐 Verifying checksum..."%string;
                "✗ Checksum mismatch! File may be corrupted."%string])).
Proof.
  intros E b skip w data sidecar expected Hfile Hside Hword Hdiff.
  unfold import_environment, print_header.
  erewrite bind_ok
    by (erewrite bind_ok by apply print_run;
        erewrite bind_ok by apply print_run; apply print_run).
  erewrite bind_ok by (eapply path_exists_true; cbn [fs]; eassumption).
  cbn [negb]. cbv beta iota.
  erewrite bind_ok
    by (eapply verify_checksum_mismatch; cbn [fs]; eassumption).
  cbn [negb fs trace out]. unfold ret, import_header.
  rewrite <- !app_assoc. reflexivity.
Qed.

(** ** Paths that part ways *)

Lemma diverge_sym p q : diverge p q -> diverge q p.
Proof.
  intros (l & a & b & p' & q' & -> & -> & H). exists l, b, a, q', p'. auto.
Qed.

Lemma diverge_app p q r s : diverge p q -> diverge (p ++ r) (q ++ s).
Proof.
  intros (l & a & b & p' & q' & -> & -> & H).
  exists l, a, b, (p' ++ r), (q' ++ s). rewrite <- !app_assoc. auto.
Qed.

Lemma diverge_below p q r : diverge p q -> diverge (p ++ r) q.
Proof. intros H. rewrite <- (app_nil_r q). now apply diverge_app. Qed.

Lemma diverge_children p a b : a <> b -> diverge (p // a) (p // b).
Proof. intros H. exists p, a, b, [], []. auto. Qed.

Lemma lookup_put_div p q x n :
  diverge p q -> lookup q (put p x n) = lookup q n.
Proof.
  intros (l & a & b & p' & q' & -> & -> & H). now apply lookup_put_diverge.
Qed.

Lemma lookup_remove_div p q n :
  diverge p q -> lookup q (remove p n) = lookup q n.
Proof.
  intros (l & a & b & p' & q' & -> & -> & H). now apply lookup_remove_diverge.
Qed.

Lemma writes_below_refl p w : writes_below p w w.
Proof. intros q _. reflexivity. Qed.

Lemma writes_below_trans p w1 w2 w3 :
  writes_below p w1 w2 -> writes_below p w2 w3 -> writes_below p w1 w3.
Proof. intros H1 H2 q Hq. rewrite H2, H1 by assumption. reflexivity. Qed.

Lemma silent_writes_below p w w' : silent w w' -> writes_below p w w'.
Proof. intros [Hf _] q _. now rewrite Hf. Qed.

Lemma writes_below_deeper p r w w' :
  writes_below (p ++ r) w w' -> writes_below p w w'.
Proof. intros H q Hq. apply H. now apply diverge_below. Qed.

Lemma child_app p c r : (p // c) ++ r = p ++ c :: r.
Proof. unfold child. now rewrite <- app_assoc. Qed.

(** A write below a directory leaves it a directory. *)
Lemma put_child_dir p c x n es :
  lookup p n = Some (Dir es) ->
  lookup p (put (p // c) x n) = Some (Dir (set_entry c x es)).
Proof.
  revert n. induction p as [|d p IH]; intros n H.
  - cbn in H. injection H as ->. cbn. now destruct (assoc c es).
  - cbn [lookup] in H. destruct n as [data|es0]; [discriminate|].
    destruct (assoc d es0) as [sub|] eqn:Hd; [|discriminate].
    change ((d :: p) // c) with (d :: (p // c)).
    cbn [put]. rewrite Hd. cbn [lookup]. rewrite assoc_set_entry_same.
    now apply IH.
Qed.

Lemma lookup_put_child p c x n es :
  lookup p n = Some (Dir es) ->
  lookup (p // c) (put (p // c) x n) = Some x.
Proof.
  intros H. apply lookup_put_same.
  - unfold child. now destruct p.
  - rewrite parent_child. eauto.
Qed.

Lemma length_append s t :
  String.length (s ++ t)%string = String.length s + String.length t.
Proof. induction s as [|c s IH]; simpl; [reflexivity|now rewrite IH]. Qed.

Lemma append_assoc s t u : ((s ++ t) ++ u = s ++ (t ++ u))%string.
Proof. induction s as [|c s IH]; simpl; [reflexivity|now rewrite IH]. Qed.

Lemma append_not_self s t : t <> EmptyString -> (s ++ t)%string <> s.
Proof.
  intros Ht H. apply (f_equal String.length) in H.
  rewrite length_append in H. destruct t; [congruence|]. simpl in H. lia.
Qed.

Lemma append_right_cancel s s' t : (s ++ t = s' ++ t)%string -> s = s'.
Proof.
  revert s'. induction s as [|c s IH]; intros [|c' s'] H; simpl in H.
  - reflexivity.
  - exfalso. apply (f_equal String.length) in H. simpl in H.
    rewrite length_append in H. lia.
  - exfalso. apply (f_equal String.length) in H. simpl in H.
    rewrite length_append in H. lia.
  - injection H as -> H. f_equal. now apply IH.
Qed.

Lemma add_suffix_child p c s : add_suffix (p // c) s = p // (c ++ s)%string.
Proof.
  unfold add_suffix, child.
  destruct (p ++ [c]) eqn:H; [now destruct p|]. rewrite <- H.
  now rewrite removelast_last, last_last.
Qed.

(** ** The blocks of [export_environment] *)

Lemma dict_update_nil d : dict_update d [] = d.
Proof. reflexivity. Qed.

Lemma load_bootstrap_metadata_spec md w r w' :
  load_bootstrap_metadata md w = (r, w') ->
  w' = w
  /\ (forall md', r = Ok md' -> md' = dict_update md (bootstrap_of (fs w)))
  /\ (bootstrap_loads (fs w) = true -> exists md', r = Ok md').
Proof.
  unfold load_bootstrap_metadata, bootstrap_of, bootstrap_loads.
  unfold bind at 1. rewrite path_exists_run. unfold exists_.
  destruct (lookup bootstrap_metadata_file (fs w)) as [[text|es]|] eqn:Hl.
  - unfold bind. rewrite read_file_run, Hl.
    destruct (loads text) as [[| | |[|]|[|]|]|];
      intros [= <- <-]; repeat split; eauto; try discriminate; intros ? [= <-];
      reflexivity.
  - unfold bind. rewrite read_file_run, Hl. intros [= <- <-].
    repeat split; eauto; discriminate.
  - intros [= <- <-]. repeat split; eauto. now intros ? [= <-].
Qed.

Lemma export_metadata_spec E export_dir format w r w' :
  export_metadata E export_dir format w = (r, w') ->
  writes_below (export_dir // "manifest.json") w w'
  /\ (exists t, trace w' = trace w ++ t /\ Forall no_docker_run t)
  /\ (r = Ok tt ->
      exists rps rls,
        exec E docker_ps_cmd = Exits rps
        /\ exec E docker_volume_ls_cmd = Exits rls
        /\ lookup (export_dir // "manifest.json") (fs w')
           = Some (File (dumps (JObj (dict_update
                                        (default_metadata E format (names_if_ok rps)
                                           (names_if_ok rls))
                                        (bootstrap_of (fs w))))))
        /\ trace w' = trace w ++ [docker_ps_cmd; docker_volume_ls_cmd]
        /\ out w' = out w ++ metadata_lines)
  /\ ((exists rps, exec E docker_ps_cmd = Exits rps) ->
      (exists rls, exec E docker_volume_ls_cmd = Exits rls) ->
      bootstrap_loads (fs w) = true ->
      (exists es, lookup export_dir (fs w) = Some (Dir es)) ->
      is_dir (export_dir // "manifest.json") (fs w) = false ->
      r = Ok tt).
Proof.
  unfold export_metadata, get_running_containers, get_docker_volumes.
  unfold bind at 1. rewrite print_run.
  unfold bind at 1. unfold bind at 1. rewrite run_command_run. cbn [fs trace out].
  assert (Hps : Forall no_docker_run [docker_ps_cmd]) by (repeat constructor).
  assert (Hls : Forall no_docker_run [docker_ps_cmd; docker_volume_ls_cmd])
    by (repeat constructor).
  destruct (exec E docker_ps_cmd) as [rps| |] eqn:Eps;
    [| intros [= <- <-]; cbn [fs trace];
       (split; [intros ? _; reflexivity|]);
       (split; [eauto|]); (split; [discriminate|]);
       intros [? ?]; discriminate ..].
  unfold ret at 1. unfold bind at 1. unfold bind at 1.
  rewrite run_command_run. cbn [fs trace out].
  destruct (exec E docker_volume_ls_cmd) as [rls| |] eqn:Els;
    [| intros [= <- <-]; cbn [fs trace]; rewrite <- app_assoc;
       (split; [intros ? _; reflexivity|]);
       (split; [eauto|]); (split; [discriminate|]);
       intros _ [? ?]; discriminate ..].
  unfold ret at 1. unfold bind at 1.
  set (w2 := mkWorld _ _ _).
  set (md := default_metadata E format (names_if_ok rps) (names_if_ok rls)).
  destruct (load_bootstrap_metadata md w2) as [rb w3] eqn:Hb.
  destruct (load_bootstrap_metadata_spec _ _ _ _ Hb) as (-> & Hmd & Hbok).
  change (fs w2) with (fs w) in Hmd, Hbok.
  destruct rb as [md'|e|];
    [| intros [= <- <-]; subst w2; cbn [fs trace]; rewrite <- app_assoc;
       (split; [intros ? _; reflexivity|]);
       (split; [eauto|]); (split; [discriminate|]);
       intros _ _ Hok; destruct (Hbok Hok); discriminate ..].
  rewrite (Hmd md' eq_refl). clear Hmd Hbok Hb md'.
  unfold bind at 1. rewrite write_file_run. rewrite parent_child.
  change (fs w2) with (fs w).
  assert (Hfail : forall (x : exn),
            ((lookup (export_dir // "manifest.json") (fs w) = Some (Dir [])
              \/ exists es, lookup (export_dir // "manifest.json") (fs w) = Some (Dir es))
             \/ (forall es, lookup export_dir (fs w) <> Some (Dir es))) ->
            writes_below (export_dir // "manifest.json") w w2 /\
            (exists t, trace w2 = trace w ++ t /\ Forall no_docker_run t) /\
            (Raise x = Ok tt -> exists rps0 rls0,
               Exits rps = Exits rps0 /\ Exits rls = Exits rls0
               /\ lookup (export_dir // "manifest.json") (fs w2)
                  = Some (File (dumps (JObj (dict_update
                       (default_metadata E format (names_if_ok rps0) (names_if_ok rls0))
                       (bootstrap_of (fs w))))))
               /\ trace w2 = trace w ++ [docker_ps_cmd; docker_volume_ls_cmd]
               /\ out w2 = out w ++ metadata_lines) /\
            ((exists rps0, Exits rps = Exits rps0) ->
             (exists rls0, Exits rls = Exits rls0) ->
             bootstrap_loads (fs w) = true ->
             (exists es, lookup export_dir (fs w) = Some (Dir es)) ->
             is_dir (export_dir // "manifest.json") (fs w) = false ->
             Raise x = Ok tt)).
  { intros x Hwhy. subst w2. cbn [fs trace]. rewrite <- app_assoc.
    split; [intros ? _; reflexivity|]. split; [eauto|]. split; [discriminate|].
    intros _ _ _ [es Hes] Hnd. exfalso.
    destruct Hwhy as [[H|[es' H]]|H].
    - unfold is_dir in Hnd. rewrite H in Hnd. discriminate.
    - unfold is_dir in Hnd. rewrite H in Hnd. discriminate.
    - now apply (H es). }
  assert (Hok : forall es,
            lookup export_dir (fs w) = Some (Dir es) ->
            forall r0 w0,
            print "✓ Metadata saved"
              (mkWorld (put (export_dir // "manifest.json")
                          (File (dumps (JObj (dict_update md (bootstrap_of (fs w))))))
                          (fs w)) (trace w2) (out w2)) = (r0, w0) ->
            writes_below (export_dir // "manifest.json") w w0 /\
            (exists t, trace w0 = trace w ++ t /\ Forall no_docker_run t) /\
            (r0 = Ok tt -> exists rps0 rls0,
               Exits rps = Exits rps0 /\ Exits rls = Exits rls0
               /\ lookup (export_dir // "manifest.json") (fs w0)
                  = Some (File (dumps (JObj (dict_update
                       (default_metadata E format (names_if_ok rps0) (names_if_ok rls0))
                       (bootstrap_of (fs w))))))
               /\ trace w0 = trace w ++ [docker_ps_cmd; docker_volume_ls_cmd]
               /\ out w0 = out w ++ metadata_lines) /\
            ((exists rps0, Exits rps = Exits rps0) ->
             (exists rls0, Exits rls = Exits rls0) ->
             bootstrap_loads (fs w) = true ->
             (exists es, lookup export_dir (fs w) = Some (Dir es)) ->
             is_dir (export_dir // "manifest.json") (fs w) = false ->
             r0 = Ok tt)).
  { intros es Hes r0 w0. rewrite print_run. intros [= <- <-].
    subst w2. cbn [fs trace out]. rewrite <- !app_assoc.
    split; [intros q Hq; cbn [fs]; now apply lookup_put_div|].
    split; [eauto|]. split; [|reflexivity].
    intros _. exists rps, rls. repeat split.
    eapply lookup_put_child; eassumption. }
  destruct (lookup (export_dir // "manifest.json") (fs w)) as [[d|es]|] eqn:Hm.
  - destruct (lookup export_dir (fs w)) as [[d'|es']|] eqn:He.
    + intros [= <- <-]. apply Hfail. right. congruence.
    + apply (Hok es' eq_refl).
    + intros [= <- <-]. apply Hfail. right. congruence.
  - intros [= <- <-]. apply Hfail. left. right. eauto.
  - destruct (lookup export_dir (fs w)) as [[d'|es']|] eqn:He.
    + intros [= <- <-]. apply Hfail. right. congruence.
    + apply (Hok es' eq_refl).
    + intros [= <- <-]. apply Hfail. right. congruence.
Qed.

Lemma journal_refl P w : journal P w w.
Proof. split; exists []; rewrite app_nil_r; auto. Qed.

Lemma journal_trans P w1 w2 w3 :
  journal P w1 w2 -> journal P w2 w3 -> journal P w1 w3.
Proof.
  intros [(t1 & T1 & P1) (l1 & L1)] [(t2 & T2 & P2) (l2 & L2)]. split.
  - exists (t1 ++ t2). rewrite T2, T1, app_assoc. split; [reflexivity|].
    apply Forall_app. now split.
  - exists (l1 ++ l2). now rewrite L2, L1, app_assoc.
Qed.

Lemma journal_same P w w' :
  trace w' = trace w -> out w' = out w -> journal P w w'.
Proof. intros Ht Ho. split; exists []; rewrite app_nil_r; auto. Qed.

Lemma export_step_refl p w : export_step p w w.
Proof. split; [apply writes_below_refl|apply journal_refl]. Qed.

Lemma export_step_trans p w1 w2 w3 :
  export_step p w1 w2 -> export_step p w2 w3 -> export_step p w1 w3.
Proof.
  intros [A1 B1] [A2 B2]. split.
  - eapply writes_below_trans; eassumption.
  - eapply journal_trans; eassumption.
Qed.

Lemma export_step_deeper p r w w' : export_step (p ++ r) w w' -> export_step p w w'.
Proof. intros [A B]. split; [eapply writes_below_deeper; eassumption|exact B]. Qed.

Lemma export_step_print p line : respects (export_step p) (print line).
Proof.
  intros w r w'. rewrite print_run. intros [= <- <-]. split.
  - intros q _. reflexivity.
  - split; [exists []; cbn; now rewrite app_nil_r|]. now exists [line].
Qed.

Lemma export_step_path_exists p q : respects (export_step p) (path_exists q).
Proof.
  intros w r w'. rewrite path_exists_run. intros [= <- <-]. apply export_step_refl.
Qed.

Lemma export_step_mkdir p r :
  respects (export_step p) (mkdir_exist_ok (p ++ r)).
Proof.
  intros w res w'. rewrite mkdir_exist_ok_run.
  destruct (lookup (p ++ r) (fs w)) as [[d|es]|];
    try (intros [= <- <-]; apply export_step_refl).
  destruct (lookup (parent (p ++ r)) (fs w)) as [[d|es]|];
    intros [= <- <-]; try apply export_step_refl.
  split; [|now apply journal_same].
  intros q Hq. cbn [fs]. apply lookup_put_div. now apply diverge_below.
Qed.

Lemma cp_effect_div src dest q n :
  diverge dest q -> lookup q (cp_effect src dest n) = lookup q n.
Proof.
  intros Hq. unfold cp_effect.
  destruct (lookup src n) as [[d|es]|]; trivial.
  destruct (lookup dest n) as [[d'|es']|]; try now apply lookup_put_div.
  destruct (lookup (dest // name src) n) as [[d''|es'']|]; trivial;
    apply lookup_put_div; now apply diverge_below.
Qed.

Lemma cp_run src src_str dest w :
  cp src src_str dest w
  = (Ok tt, mkWorld (cp_effect src dest (fs w))
              (trace w ++ [["cp"%string; src_str; path_str dest]]) (out w)).
Proof. reflexivity. Qed.

Lemma export_step_cp p r src src_str :
  respects (export_step p) (cp src src_str (p ++ r)).
Proof.
  intros w res w'. rewrite cp_run. intros [= <- <-]. split.
  - intros q Hq. cbn [fs]. apply cp_effect_div. now apply diverge_below.
  - split; [|exists []; cbn; now rewrite app_nil_r].
    eexists. split; [reflexivity|]. repeat constructor.
Qed.

Lemma export_step_mkdir_here p : respects (export_step p) (mkdir_exist_ok p).
Proof. rewrite <- (app_nil_r p) at 2. apply export_step_mkdir. Qed.

Lemma export_step_mkdir_child p c :
  respects (export_step p) (mkdir_exist_ok (p // c)).
Proof. apply export_step_mkdir. Qed.

Lemma export_step_cp_here p src src_str :
  respects (export_step p) (cp src src_str p).
Proof. rewrite <- (app_nil_r p) at 2. apply export_step_cp. Qed.

Lemma export_step_cp_child p c src src_str :
  respects (export_step p) (cp src src_str (p // c)).
Proof. apply export_step_cp. Qed.

Ltac export_step_tac p :=
  repeat first
    [ apply export_step_print
    | apply export_step_path_exists
    | apply (export_step_mkdir_here p)
    | apply (export_step_mkdir_child p)
    | apply (export_step_cp_here p)
    | apply (export_step_cp_child p)
    | apply (respects_bind (export_step p) (export_step_trans p)); [ | intros ? ]
    | apply (respects_ret (export_step p) (export_step_refl p))
    | apply (respects_for_each (export_step p) (export_step_refl p)
               (export_step_trans p)); intros ? _
    | match goal with
      | |- respects _ (if ?x then _ else _) => destruct x
      end ].

Lemma export_configs_step export_dir :
  respects (export_step (export_dir // "configs")) (export_configs export_dir).
Proof.
  unfold export_configs, export_config_file, export_searxng.
  export_step_tac (export_dir // "configs").
Qed.

(** *** The configuration files never make the export fail *)

Lemma export_config_file_run config_dir config_file w :
  export_config_file config_dir config_file w =
  if exists_ [config_file] (fs w)
  then (Ok tt,
        mkWorld (cp_effect [config_file] config_dir (fs w))
          (trace w ++ [["cp"%string; config_file; path_str config_dir]])
          (out w ++ [("  ✓ " ++ config_file)%string]))
  else (Ok tt, w).
Proof.
  unfold export_config_file, bind. rewrite path_exists_run.
  destruct (exists_ [config_file] (fs w)); reflexivity.
Qed.

Lemma configs_ready_cp config_dir file n :
  file <> "searxng"%string ->
  configs_ready config_dir n ->
  configs_ready config_dir (cp_effect [file] config_dir n).
Proof.
  intros Hne [[es Hes] Hs]. unfold cp_effect.
  destruct (lookup [file] n) as [[d|es']|]; try (split; eauto; fail).
  rewrite Hes. change (name [file]) with file.
  destruct (lookup (config_dir // file) n) as [[d''|es'']|];
    try (split; eauto; fail).
  - split.
    + rewrite (put_child_dir _ _ _ _ _ Hes). eauto.
    + rewrite lookup_put_div; [exact Hs|]. now apply diverge_children.
  - split.
    + rewrite (put_child_dir _ _ _ _ _ Hes). eauto.
    + rewrite lookup_put_div; [exact Hs|]. now apply diverge_children.
Qed.

Lemma export_config_loop config_dir (files : list string) w :
  (forall f, In f files -> f <> "searxng"%string) ->
  configs_ready config_dir (fs w) ->
  exists w',
    for_each files (export_config_file config_dir) w = (Ok tt, w')
    /\ configs_ready config_dir (fs w').
Proof.
  revert w. induction files as [|f files IH]; intros w Hne Hready.
  - exists w. now split.
  - cbn [for_each]. unfold bind at 1. rewrite export_config_file_run.
    assert (Hf : f <> "searxng"%string) by (apply Hne; now left).
    assert (Hrest : forall g, In g files -> g <> "searxng"%string)
      by (intros g Hg; apply Hne; now right).
    destruct (exists_ [f] (fs w)).
    + apply IH; [exact Hrest|]. cbn [fs]. now apply configs_ready_cp.
    + now apply IH.
Qed.

Lemma config_files_not_searxng f : In f config_files -> f <> "searxng"%string.
Proof.
  unfold config_files. cbn [In].
  intros [<-|[<-|[<-|[<-|[<-|[<-|[<-|[<-|[]]]]]]]]]; discriminate.
Qed.

Lemma lookup_below_put_empty p c n es :
  lookup (parent p) n = Some (Dir es) -> p <> [] ->
  lookup (p // c) (put p (Dir []) n) = None.
Proof.
  intros Hpar Hp. unfold child. rewrite lookup_app.
  rewrite lookup_put_same by eauto. reflexivity.
Qed.

Lemma child_not_nil p c : p // c <> [].
Proof. unfold child. now destruct p. Qed.

Lemma export_configs_ok export_dir w :
  (exists es, lookup export_dir (fs w) = Some (Dir es)) ->
  lookup (export_dir // "configs") (fs w) = None ->
  exists w', export_configs export_dir w = (Ok tt, w').
Proof.
  intros [es Hes] Hnone. unfold export_configs.
  erewrite bind_ok by apply print_run.
  set (cd := export_dir // "configs") in *.
  unfold bind at 1. rewrite mkdir_exist_ok_run. cbn [fs trace out].
  rewrite Hnone. unfold cd at 1. rewrite parent_child, Hes.
  set (w1 := mkWorld _ _ _).
  assert (Hready : configs_ready cd (fs w1)).
  { subst w1. cbn [fs]. split.
    - exists []. unfold cd. eapply lookup_put_child. eassumption.
    - eapply lookup_below_put_empty; [|apply child_not_nil].
      unfold cd. rewrite parent_child. eassumption. }
  destruct (export_config_loop cd config_files w1 config_files_not_searxng Hready)
    as (w2 & Hloop & [[es2 Hes2] Hs2]).
  erewrite bind_ok by exact Hloop.
  unfold export_searxng. unfold bind at 1. rewrite path_exists_run.
  destruct (exists_ ["searxng"%string; "settings.yml"%string] (fs w2));
    [|eexists; reflexivity].
  unfold bind at 1. rewrite mkdir_exist_ok_run, Hs2, parent_child, Hes2.
  unfold bind at 1. rewrite cp_run. rewrite print_run. eexists; reflexivity.
Qed.

(** *** The export of the volumes *)

Lemma export_docker_volume_run E volume dir w :
  let cmd := export_helper_cmd E volume dir in
  let n := export_helper_effect E volume dir (fs w) in
  let first_line := ("  Exporting volume: " ++ volume)%string in
  export_docker_volume E volume dir w =
  match exec E cmd with
  | Exits r =>
      (Ok (Z.eqb (returncode r) 0),
       mkWorld n (trace w ++ [cmd]) (out w ++ volume_lines E dir volume))
  | Overruns =>
      (Raise TimeoutExpired, mkWorld n (trace w ++ [cmd]) (out w ++ [first_line]))
  | NoSuchProgram =>
      (Raise FileNotFoundError,
       mkWorld (fs w) (trace w ++ [cmd]) (out w ++ [first_line]))
  end.
Proof.
  cbv zeta. unfold export_docker_volume, subprocess_run, record_call, volume_lines.
  unfold bind, print, get_fs, set_fs, ret, raise. cbn [fs trace out].
  destruct (exec E (export_helper_cmd E volume dir)) as [r| |]; try reflexivity.
  destruct (Z.eqb (returncode r) 0); cbn [fs trace out];
    rewrite <- app_assoc; reflexivity.
Qed.

Lemma flat_dir_write dir c d n :
  flat_dir dir n -> flat_dir dir (write_entry (dir // c) d n).
Proof.
  intros [[es Hes] Hflat]. unfold write_entry.
  pose proof (Hflat c) as Hc. unfold is_dir in Hc.
  destruct (lookup (dir // c) n) as [[d'|es']|] eqn:Hl; try discriminate.
  - split; [rewrite (put_child_dir _ _ _ _ _ Hes); eauto|].
    intros c'. unfold is_dir. destruct (string_dec c c') as [<-|Hne].
    + now rewrite (lookup_put_child _ _ _ _ _ Hes).
    + rewrite lookup_put_div by now apply diverge_children. apply Hflat.
  - split; [rewrite (put_child_dir _ _ _ _ _ Hes); eauto|].
    intros c'. unfold is_dir. destruct (string_dec c c') as [<-|Hne].
    + now rewrite (lookup_put_child _ _ _ _ _ Hes).
    + rewrite lookup_put_div by now apply diverge_children. apply Hflat.
Qed.

Lemma write_entry_read dir c d n :
  flat_dir dir n -> lookup (dir // c) (write_entry (dir // c) d n) = Some (File d).
Proof.
  intros [[es Hes] Hflat]. unfold write_entry.
  pose proof (Hflat c) as Hc. unfold is_dir in Hc.
  destruct (lookup (dir // c) n) as [[d'|es']|] eqn:Hl; try discriminate;
    eapply lookup_put_child; eassumption.
Qed.

Lemma write_entry_div p d q n :
  diverge p q -> lookup q (write_entry p d n) = lookup q n.
Proof.
  intros Hq. unfold write_entry.
  destruct (lookup p n) as [[d'|es']|]; trivial; now apply lookup_put_div.
Qed.

Lemma export_helper_effect_div E volume dir q n :
  diverge (dir // (volume ++ ".tar.gz")%string) q ->
  lookup q (export_helper_effect E volume dir n) = lookup q n.
Proof.
  intros Hq. unfold export_helper_effect.
  destruct (helper_archive E volume); [now apply write_entry_div|reflexivity].
Qed.

(** The loop of [export_volumes] when every helper ends: it ends, one
    helper is run and reported for each volume, and the archive a helper
    leaves is in the directory. *)
Lemma export_volume_loop E dir (volumes : list string) w :
  (forall v, In v volumes -> exists r, exec E (export_helper_cmd E v dir) = Exits r) ->
  flat_dir dir (fs w) ->
  exists w',
    for_each volumes
      (fun volume => bind (export_docker_volume E volume dir) (fun _ => ret tt)) w
    = (Ok tt, w')
    /\ trace w' = trace w ++ map (fun v => export_helper_cmd E v dir) volumes
    /\ out w' = out w ++ flat_map (volume_lines E dir) volumes
    /\ writes_below dir w w'
    /\ flat_dir dir (fs w')
    /\ (forall c, ~ In c (map archive_name volumes) ->
          lookup (dir // c) (fs w') = lookup (dir // c) (fs w))
    /\ (forall v d, In v volumes -> helper_archive E v = Some d ->
          lookup (dir // archive_name v) (fs w') = Some (File d)).
Proof.
  revert w. induction volumes as [|v0 volumes IH]; intros w Hexit Hflat.
  - exists w. cbn. rewrite !app_nil_r.
    split; [reflexivity|]. split; [reflexivity|]. split; [reflexivity|].
    split; [apply writes_below_refl|]. split; [exact Hflat|].
    split; [reflexivity|]. intros v d [].
  - cbn [for_each]. unfold bind at 1. unfold bind at 1.
    rewrite export_docker_volume_run. cbv zeta.
    destruct (Hexit v0 (or_introl eq_refl)) as [r0 Hr0]. rewrite Hr0.
    unfold ret at 1.
    set (w1 := mkWorld _ _ _).
    assert (Hflat1 : flat_dir dir (fs w1)).
    { subst w1. cbn [fs]. unfold export_helper_effect.
      destruct (helper_archive E v0); [now apply flat_dir_write|exact Hflat]. }
    destruct (IH w1 (fun v Hv => Hexit v (or_intror Hv)) Hflat1)
      as (w' & Hrun & Htr & Hout & Hbelow & Hflat' & Hother & Hin).
    exists w'. split; [exact Hrun|]. split; [|split; [|split; [|split; [|split]]]].
    + rewrite Htr. subst w1. cbn [trace map]. now rewrite <- app_assoc.
    + rewrite Hout. subst w1. cbn [out flat_map]. now rewrite <- app_assoc.
    + intros q Hq. rewrite Hbelow by assumption. subst w1. cbn [fs].
      apply export_helper_effect_div. now apply diverge_below.
    + exact Hflat'.
    + intros c Hc. rewrite Hother by (intros Hin'; apply Hc; now right).
      subst w1. cbn [fs]. apply export_helper_effect_div, diverge_children.
      intros Heq. apply Hc. left. exact Heq.
    + intros v d [<-|Hv] Hd.
      * destruct (in_dec string_dec v0 volumes) as [Hin0|Hnot]; [now apply Hin|].
        rewrite Hother.
        -- subst w1. cbn [fs]. unfold export_helper_effect. rewrite Hd.
           now apply write_entry_read.
        -- intros Hmem. apply in_map_iff in Hmem. destruct Hmem as (v' & Heq & Hv').
           apply append_right_cancel in Heq. now subst v'.
      * now apply Hin.
Qed.

Lemma export_volumes_ok E export_dir w rls :
  let dir := export_dir // "volumes" in
  let volumes := names_if_ok rls in
  (exists es, lookup export_dir (fs w) = Some (Dir es)) ->
  lookup dir (fs w) = None ->
  exec E docker_volume_ls_cmd = Exits rls ->
  (forall v, In v volumes -> exists r, exec E (export_helper_cmd E v dir) = Exits r) ->
  exists w',
    export_volumes E export_dir w = (Ok tt, w')
    /\ trace w' = trace w ++ docker_volume_ls_cmd
                    :: map (fun v => export_helper_cmd E v dir) volumes
    /\ out w' = out w ++ volumes_banner :: flat_map (volume_lines E dir) volumes
    /\ writes_below dir w w'
    /\ (forall v d, In v volumes -> helper_archive E v = Some d ->
          lookup (dir // archive_name v) (fs w') = Some (File d)).
Proof.
  intros dir volumes [es Hes] Hnone Hls Hexit. unfold export_volumes.
  erewrite bind_ok by apply print_run.
  unfold bind at 1. rewrite mkdir_exist_ok_run. cbn [fs trace out].
  fold dir. rewrite Hnone. unfold dir at 1. rewrite parent_child, Hes.
  unfold get_docker_volumes. unfold bind at 1. unfold bind at 1.
  rewrite run_command_run, Hls. cbn [fs trace out]. unfold ret at 1.
  set (w1 := mkWorld _ _ _).
  assert (Hflat : flat_dir dir (fs w1)).
  { subst w1. cbn [fs]. split.
    - exists []. unfold dir. eapply lookup_put_child. eassumption.
    - intros c. unfold is_dir.
      erewrite lookup_below_put_empty; [reflexivity| |apply child_not_nil].
      unfold dir. rewrite parent_child. eassumption. }
  destruct (export_volume_loop E dir volumes w1 Hexit Hflat)
    as (w' & Hrun & Htr & Hout & Hbelow & _ & _ & Hin).
  exists w'. fold volumes. split; [exact Hrun|].
  split; [|split; [|split]].
  - rewrite Htr. subst w1. cbn [trace]. now rewrite <- app_assoc.
  - rewrite Hout. subst w1. cbn [out]. now rewrite <- app_assoc.
  - intros q Hq. rewrite Hbelow by assumption. subst w1. cbn [fs].
    now apply lookup_put_div.
  - exact Hin.
Qed.

(** *** The archive, its checksum and the summary *)

Lemma mkdir_ok_spec p w w1 :
  p <> [] ->
  mkdir_exist_ok p w = (Ok tt, w1) ->
  (exists es, lookup p (fs w1) = Some (Dir es))
  /\ (forall c rest, lookup (p ++ c :: rest) (fs w1) = lookup (p ++ c :: rest) (fs w))
  /\ writes_below p w w1
  /\ trace w1 = trace w /\ out w1 = out w.
Proof.
  intros Hp. rewrite mkdir_exist_ok_run.
  destruct (lookup p (fs w)) as [[d|es]|] eqn:Hl; try discriminate.
  - intros [= <-]. repeat split; eauto; try apply writes_below_refl.
  - destruct (lookup (parent p) (fs w)) as [[d|es]|] eqn:Hpar; try discriminate.
    intros [= <-]. cbn [fs trace out].
    assert (Hnew : lookup p (put p (Dir []) (fs w)) = Some (Dir []))
      by (apply lookup_put_same; eauto).
    split; [eauto|]. split; [|split; [|split; reflexivity]].
    + intros c rest. rewrite !lookup_app, Hnew, Hl. reflexivity.
    + intros q Hq. cbn [fs]. now apply lookup_put_div.
Qed.

Lemma create_tarball_spec E bd c export_dir output_name w r w' :
  let archive_path := bd // c in
  diverge archive_path export_dir ->
  create_tarball E archive_path export_dir output_name w = (r, w') ->
  writes_below archive_path w w'
  /\ trace w' = trace w
  /\ (r = Ok tt ->
      exists tree,
        lookup export_dir (fs w) = Some tree
        /\ lookup archive_path (fs w')
           = Some (File (targz_pack E [(output_name, tree)]))
        /\ out w' = out w ++ [tarball_banner])
  /\ ((exists es, lookup bd (fs w) = Some (Dir es)) ->
      is_dir archive_path (fs w) = false ->
      (exists tree, lookup export_dir (fs w) = Some tree) ->
      r = Ok tt).
Proof.
  intros ap Hdiv. unfold create_tarball, tar_create.
  unfold bind at 1. rewrite print_run.
  unfold bind at 1. rewrite write_file_run. cbn [fs trace out].
  fold ap. replace (parent ap) with bd by (unfold ap; now rewrite parent_child).
  assert (Hfail : forall e (w0 : world),
            fs w0 = fs w -> trace w0 = trace w ->
            (is_dir ap (fs w) = true \/ forall es, lookup bd (fs w) <> Some (Dir es)) ->
            writes_below ap w w0 /\ trace w0 = trace w /\
            (Raise e = Ok tt ->
             exists tree, lookup export_dir (fs w) = Some tree
               /\ lookup ap (fs w0) = Some (File (targz_pack E [(output_name, tree)]))
               /\ out w0 = out w ++ [tarball_banner]) /\
            ((exists es, lookup bd (fs w) = Some (Dir es)) ->
             is_dir ap (fs w) = false ->
             (exists tree, lookup export_dir (fs w) = Some tree) -> Raise e = Ok tt)).
  { intros e w0 Hf Ht Hwhy. split; [intros q _; now rewrite Hf|].
    split; [exact Ht|]. split; [discriminate|].
    intros [es Hes] Hnd _. exfalso. destruct Hwhy as [H|H]; [congruence|].
    now apply (H es). }
  assert (Hgo : forall es, lookup bd (fs w) = Some (Dir es) ->
            forall r0 w0,
            bind get_fs
              (fun n => match lookup export_dir n with
                        | Some tree =>
                            set_fs (put ap (File (targz_pack E [(output_name, tree)])) n)
                        | None => raise FileNotFoundError
                        end)
              (mkWorld (put ap (File (targz_pack E [])) (fs w)) (trace w)
                 (out w ++ [tarball_banner])) = (r0, w0) ->
            writes_below ap w w0 /\ trace w0 = trace w /\
            (r0 = Ok tt ->
             exists tree, lookup export_dir (fs w) = Some tree
               /\ lookup ap (fs w0) = Some (File (targz_pack E [(output_name, tree)]))
               /\ out w0 = out w ++ [tarball_banner]) /\
            ((exists es, lookup bd (fs w) = Some (Dir es)) ->
             is_dir ap (fs w) = false ->
             (exists tree, lookup export_dir (fs w) = Some tree) -> r0 = Ok tt)).
  { intros es Hes r0 w0. unfold bind, get_fs. cbv beta iota. cbn [fs trace out].
    rewrite (lookup_put_div ap export_dir) by exact Hdiv.
    destruct (lookup export_dir (fs w)) as [tree|] eqn:Htree;
      unfold set_fs, raise; intros Hrun; injection Hrun as <- <-; cbn [fs trace out].
    - split; [intros q Hq; cbn [fs]; now rewrite !lookup_put_div|].
      split; [reflexivity|]. split; [|reflexivity].
      intros _. exists tree. split; [reflexivity|]. split; [|reflexivity].
      unfold ap. eapply lookup_put_child.
      apply (put_child_dir _ _ _ _ _ Hes).
    - split; [intros q Hq; cbn [fs]; now rewrite lookup_put_div|].
      split; [reflexivity|]. split; [discriminate|].
      intros _ _ [tree Ht]. discriminate. }
  unfold is_dir in *.
  destruct (lookup ap (fs w)) as [[d|es]|] eqn:Hap; cbv beta iota.
  - destruct (lookup bd (fs w)) as [[d'|es']|] eqn:Hbd; cbv beta iota.
    + intros [= <- <-]. apply Hfail; trivial. right. congruence.
    + apply (Hgo es' eq_refl).
    + intros [= <- <-]. apply Hfail; trivial. right. congruence.
  - intros [= <- <-]. apply Hfail; trivial. now left.
  - destruct (lookup bd (fs w)) as [[d'|es']|] eqn:Hbd; cbv beta iota.
    + intros [= <- <-]. apply Hfail; trivial. right. congruence.
    + apply (Hgo es' eq_refl).
    + intros [= <- <-]. apply Hfail; trivial. right. congruence.
Qed.

Lemma write_checksum_spec E bd c w r w' :
  let archive_path := bd // c in
  let sidecar := bd // (c ++ ".sha256")%string in
  write_checksum E archive_path w = (r, w') ->
  writes_below sidecar w w'
  /\ trace w' = trace w
  /\ (forall checksum, r = Ok checksum ->
      exists data,
        lookup archive_path (fs w) = Some (File data)
        /\ checksum = sha256_hexdigest E data
        /\ lookup sidecar (fs w') = Some (File (sidecar_text E data c))
        /\ out w' = out w ++ [checksum_banner])
  /\ (forall data,
        lookup archive_path (fs w) = Some (File data) ->
        is_dir sidecar (fs w) = false ->
        r = Ok (sha256_hexdigest E data)).
Proof.
  intros ap sidecar. unfold write_checksum.
  subst ap. rewrite add_suffix_child, name_child. fold sidecar.
  set (ap := bd // c).
  unfold bind at 1. rewrite print_run.
  unfold bind at 1. rewrite read_file_run. cbn [fs trace out].
  destruct (lookup ap (fs w)) as [[data|es]|] eqn:Hap;
    [| intros [= <- <-]; cbn [fs trace];
       (split; [intros q _; reflexivity|]); (split; [reflexivity|]);
       (split; [discriminate|]); discriminate ..].
  unfold bind at 1. rewrite write_file_run. cbn [fs trace out].
  replace (parent sidecar) with bd by (unfold sidecar; now rewrite parent_child).
  assert (Hbd : exists es, lookup bd (fs w) = Some (Dir es)).
  { unfold ap in Hap. rewrite lookup_child in Hap.
    destruct (lookup bd (fs w)) as [[d|es]|]; try discriminate. eauto. }
  destruct Hbd as [es Hes]. rewrite Hes. unfold is_dir.
  destruct (lookup sidecar (fs w)) as [[d|es']|] eqn:Hside.
  - intros [= <- <-]. cbn [fs trace out].
    split; [intros q Hq; cbn [fs]; now apply lookup_put_div|].
    split; [reflexivity|]. split.
    + intros ? [= <-]. exists data. repeat split.
      unfold sidecar. eapply lookup_put_child. eassumption.
    + now intros ? [= <-] _.
  - intros [= <- <-]. cbn [fs trace].
    split; [intros q _; reflexivity|]. split; [reflexivity|].
    split; [discriminate|]. intros ? _ ?. discriminate.
  - intros [= <- <-]. cbn [fs trace out].
    split; [intros q Hq; cbn [fs]; now apply lookup_put_div|].
    split; [reflexivity|]. split.
    + intros ? [= <-]. exists data. repeat split.
      unfold sidecar. eapply lookup_put_child. eassumption.
    + now intros ? [= <-] _.
Qed.

Lemma print_export_summary_spec E archive_path checksum w r w' :
  print_export_summary E archive_path checksum w = (r, w') ->
  fs w' = fs w /\ trace w' = trace w
  /\ (r = Ok tt ->
      exists archive,
        lookup archive_path (fs w) = Some (File archive)
        /\ out w' = out w ++ export_summary E archive_path (String.length archive) checksum)
  /\ (forall archive, lookup archive_path (fs w) = Some (File archive) -> r = Ok tt).
Proof.
  unfold print_export_summary. unfold bind at 1. rewrite read_file_run.
  destruct (lookup archive_path (fs w)) as [[archive|es]|];
    [| intros [= <- <-]; repeat split; discriminate ..].
  unfold export_summary. cbn [for_each]. unfold bind.
  rewrite !print_run. cbn [fs trace out]. intros [= <- <-]. cbn [fs trace out].
  repeat split. exists archive. split; [reflexivity|].
  rewrite <- !app_assoc. reflexivity.
Qed.

Lemma rm_rf_run p w :
  rm_rf p w
  = (Ok tt, mkWorld (remove p (fs w))
              (trace w ++ [["rm"%string; "-rf"%string; path_str p]]) (out w)).
Proof. reflexivity. Qed.

Lemma chosen_name_cases E output :
  chosen_name E output = ("localai_backup_" ++ now_stamp E)%string
  \/ output = Some (chosen_name E output).
Proof. destruct output as [[|c s]|]; cbn; auto. Qed.

(** ** The export as a whole *)

Lemma dict_get_set_other k k' v d :
  k <> k' -> dict_get k (dict_set k' v d) = dict_get k d.
Proof.
  intros Hne. induction d as [|[k0 v0] d IH]; cbn.
  - destruct (String.eqb k k') eqn:Hk; [|reflexivity].
    apply String.eqb_eq in Hk. congruence.
  - destruct (String.eqb k' k0) eqn:Hk0; cbn.
    + apply String.eqb_eq in Hk0. subst k0.
      destruct (String.eqb k k') eqn:Hk; [|reflexivity].
      apply String.eqb_eq in Hk. congruence.
    + now rewrite IH.
Qed.

(** A key the other dictionary does not have keeps its value. *)
Lemma dict_get_update_absent k d other :
  dict_get k other = None -> dict_get k (dict_update d other) = dict_get k d.
Proof.
  unfold dict_update. revert d.
  induction other as [|[k0 v0] other IH]; intros d Hk; cbn; [reflexivity|].
  cbn in Hk. destruct (String.eqb k k0) eqn:Hk0; [discriminate|].
  rewrite IH by exact Hk. apply dict_get_set_other.
  intros ->. now rewrite String.eqb_refl in Hk0.
Qed.

Section Names.

Variable output_name : string.

Let export_dir : path := backup_dir // output_name.
Let archive_path : path := backup_dir // (output_name ++ ".tar.gz")%string.
Let sidecar : path := backup_dir // ((output_name ++ ".tar.gz") ++ ".sha256")%string.

Lemma scratch_not_archive r : diverge (export_dir ++ r) archive_path.
Proof.
  apply diverge_below, diverge_children. intros H. symmetry in H.
  now apply append_not_self in H.
Qed.

Lemma scratch_not_sidecar r : diverge (export_dir ++ r) sidecar.
Proof.
  apply diverge_below, diverge_children. intros H. symmetry in H.
  rewrite append_assoc in H. now apply append_not_self in H.
Qed.

Lemma archive_not_sidecar : diverge archive_path sidecar.
Proof.
  apply diverge_children. intros H. symmetry in H. now apply append_not_self in H.
Qed.

Lemma scratch_not_bootstrap r : diverge (export_dir ++ r) bootstrap_metadata_file.
Proof.
  apply diverge_below. exists [], "backups"%string, ".bootstrap_metadata.json"%string,
    [output_name], []. repeat split. discriminate.
Qed.

Lemma entries_part a b r s :
  a <> b -> diverge (export_dir ++ a :: r) (export_dir ++ b :: s).
Proof. intros H. exists export_dir, a, b, r, s. auto. Qed.

End Names.

Lemma bootstrap_of_same n n' :
  lookup bootstrap_metadata_file n' = lookup bootstrap_metadata_file n ->
  bootstrap_of n' = bootstrap_of n /\ bootstrap_loads n' = bootstrap_loads n.
Proof. unfold bootstrap_of, bootstrap_loads. now intros ->. Qed.

Lemma print_header_run text w :
  print_header text w
  = (Ok tt, mkWorld (fs w) (trace w)
              (out w ++ [(nl ++ repeat_char "=" 60)%string; center 60 text;
                         (repeat_char "=" 60 ++ nl)%string])).
Proof.
  unfold print_header, bind. rewrite !print_run. cbn [fs trace out].
  now rewrite <- !app_assoc.
Qed.

(** C5, as the code has it.  An export of a format other than full,
    under a plain name, that completes: the archive holds the scratch tree; the manifest in it
    records the volumes [docker volume ls] listed, whatever the format
    (unless the bootstrap metadata brings its own key volumes); no helper
    container was run, and below volumes the tree holds what
    backups/<name>/volumes held before the export: nothing, when the
    scratch directory is new. *)
Theorem export_without_volumes :
  forall E output format w archive_path w',
    plain_name (chosen_name E output) = true ->
    format <> "full"%string ->
    export_environment E output format w = (Ok archive_path, w') ->
    let output_name := chosen_name E output in
    exists rps rls tree issued,
      archive_path = backup_dir // (output_name ++ ".tar.gz")%string
      /\ exec E docker_ps_cmd = Exits rps
      /\ exec E docker_volume_ls_cmd = Exits rls
      /\ lookup archive_path (fs w') = Some (File (targz_pack E [(output_name, tree)]))
      /\ (let metadata :=
            dict_update
              (default_metadata E format (names_if_ok rps) (names_if_ok rls))
              (bootstrap_of (fs w)) in
          lookup ["manifest.json"%string] tree = Some (File (dumps (JObj metadata)))
          /\ (dict_get "volumes" (bootstrap_of (fs w)) = None ->
              dict_get "volumes" metadata = Some (JArr (map JStr (names_if_ok rls)))))
      /\ (forall rest,
            lookup ("volumes"%string :: rest) tree
            = lookup (backup_dir // output_name ++ "volumes"%string :: rest) (fs w))
      /\ trace w' = trace w ++ issued
      /\ Forall no_docker_run issued.
Proof.
  intros E output format w p w' _ Hformat H output_name.
  apply String.eqb_neq in Hformat.
  unfold export_environment in H. fold output_name in H.
  set (export_dir := backup_dir // output_name) in *.
  set (ap := backup_dir // (output_name ++ ".tar.gz")%string) in *.
  rewrite Hformat in H.
  (* the header *)
  unfold bind at 1 in H. rewrite print_header_run in H.
  set (w0 := mkWorld _ _ _) in H.
  (* the scratch directory *)
  run_inv H as u1 w1 H1. destruct u1.
  destruct (mkdir_ok_spec _ _ _ (child_not_nil _ _) H1)
    as ([es1 Hes1] & Hsame1 & Hbelow1 & Ht1 & _).
  (* the manifest *)
  run_inv H as u2 w2 H2. destruct u2.
  destruct (export_metadata_spec _ _ _ _ _ _ H2) as (Hbelow2 & _ & Hok2 & _).
  destruct (Hok2 eq_refl) as (rps & rls & Hps & Hls & Hman & Ht2 & _). clear Hok2.
  (* the configuration files *)
  run_inv H as u3 w3 H3.
  destruct (export_configs_step _ _ _ _ H3) as [Hbelow3 [(t3 & Ht3 & Hnd3) _]].
  (* no volumes *)
  unfold bind at 1, ret at 1 in H.
  (* the archive *)
  run_inv H as u4 w4 H4. destruct u4.
  destruct (create_tarball_spec _ _ _ _ _ _ _ _
              (diverge_sym _ _ (scratch_not_archive output_name [])) H4)
    as (_ & Ht4 & Hok4 & _).
  rewrite app_nil_r in Hok4.
  destruct (Hok4 eq_refl) as (tree & Htree & Harch & _). clear Hok4.
  (* the checksum, the cleanup and the summary *)
  run_inv H as checksum w5 H5.
  destruct (write_checksum_spec _ _ _ _ _ _ H5) as (Hbelow5 & Ht5 & _).
  unfold bind at 1 in H. rewrite rm_rf_run in H.
  set (w6 := mkWorld _ _ _) in H.
  run_inv H as u7 w7 H7.
  destruct (print_export_summary_spec _ _ _ _ _ _ H7) as (Hf7 & Ht7 & _).
  injection H as <- <-.
  exists rps, rls, tree, ([docker_ps_cmd; docker_volume_ls_cmd] ++ t3
                           ++ [["rm"%string; "-rf"%string; path_str export_dir]]).
  split; [reflexivity|]. split; [exact Hps|]. split; [exact Hls|].
  assert (Hboot : bootstrap_of (fs w1) = bootstrap_of (fs w)).
  { apply bootstrap_of_same. rewrite Hbelow1; [reflexivity|].
    apply (scratch_not_bootstrap output_name []). }
  split; [|split; [|split; [|split]]].
  - (* the archive is still there *)
    rewrite Hf7. subst w6. cbn [fs].
    rewrite lookup_remove_div by apply (scratch_not_archive output_name []).
    rewrite Hbelow5 by (apply diverge_sym, archive_not_sidecar). exact Harch.
  - (* the manifest *)
    cbv zeta. rewrite <- Hboot. split.
    + change (lookup ["manifest.json"%string] tree)
        with (match Some tree with Some m => lookup ["manifest.json"%string] m
                              | None => None end).
      rewrite <- Htree, <- lookup_app.
      rewrite Hbelow3 by (apply (entries_part output_name); discriminate).
      exact Hman.
    + intros Habsent.
      now rewrite dict_get_update_absent by exact Habsent.
  - (* below volumes *)
    intros rest.
    change (lookup ("volumes"%string :: rest) tree)
      with (match Some tree with Some m => lookup ("volumes"%string :: rest) m
                            | None => None end).
    rewrite <- Htree, <- lookup_app.
    rewrite Hbelow3 by (apply (entries_part output_name); discriminate).
    rewrite Hbelow2 by (apply (entries_part output_name); discriminate).
    rewrite Hsame1. reflexivity.
  - rewrite Ht7. subst w6. cbn [trace]. rewrite Ht5, Ht4, Ht3, Ht2, Ht1.
    subst w0. cbn [trace]. rewrite <- !app_assoc. reflexivity.
  - apply Forall_app. split; [repeat constructor|].
    apply Forall_app. split; [exact Hnd3|]. repeat constructor.
Qed.

Lemma parent_is_dir p c n x :
  lookup (p // c) n = Some x -> exists es, lookup p n = Some (Dir es).
Proof.
  rewrite lookup_child. destruct (lookup p n) as [[d|es]|]; try discriminate. eauto.
Qed.

Lemma is_dir_same p n n' : lookup p n' = lookup p n -> is_dir p n' = is_dir p n.
Proof. unfold is_dir. now intros ->. Qed.

(** C6, as the code has it.  A full export under a plain name, on a new
    scratch directory, where every helper container ends, the one of
    volume A with a non-zero status and the one of volume B with status 0
    and its archive written: the export completes and returns the path of the archive;
    the archive holds volumes/B.tar.gz with what the helper wrote; the
    sidecar holds the digest of the archive; and the output shows, volume
    by volume, the line of A's failure and the line of B's success, before
    the lines of the packing and a summary that names no volume. *)
Theorem full_export_goes_on_after_a_failed_volume :
  forall E output w rps rls A B rA rB dataB entries,
    let output_name := chosen_name E output in
    let export_dir := backup_dir // output_name in
    let volumes_dir := export_dir // "volumes" in
    let archive_path := backup_dir // (output_name ++ ".tar.gz")%string in
    let sidecar := backup_dir // ((output_name ++ ".tar.gz") ++ ".sha256")%string in
    let volumes := names_if_ok rls in
    plain_name output_name = true ->
    lookup backup_dir (fs w) = Some (Dir entries) ->
    lookup export_dir (fs w) = None ->
    is_dir archive_path (fs w) = false ->
    is_dir sidecar (fs w) = false ->
    bootstrap_loads (fs w) = true ->
    exec E docker_ps_cmd = Exits rps ->
    exec E docker_volume_ls_cmd = Exits rls ->
    (forall v, In v volumes ->
       exists r, exec E (export_helper_cmd E v volumes_dir) = Exits r) ->
    In A volumes -> In B volumes ->
    exec E (export_helper_cmd E A volumes_dir) = Exits rA ->
    returncode rA <> 0%Z ->
    exec E (export_helper_cmd E B volumes_dir) = Exits rB ->
    returncode rB = 0%Z ->
    helper_archive E B = Some dataB ->
    exists w' tree before,
      let archive := targz_pack E [(output_name, tree)] in
      export_environment E output "full" w = (Ok archive_path, w')
      /\ lookup archive_path (fs w') = Some (File archive)
      /\ lookup ["volumes"%string; (B ++ ".tar.gz")%string] tree = Some (File dataB)
      /\ lookup sidecar (fs w')
         = Some (File (sidecar_text E archive (output_name ++ ".tar.gz")))
      /\ out w' = out w ++ before
                    ++ volumes_banner :: flat_map (volume_lines E volumes_dir) volumes
                    ++ [tarball_banner; checksum_banner]
                    ++ export_summary E archive_path (String.length archive)
                         (sha256_hexdigest E archive)
      /\ volume_lines E volumes_dir A
         = [("  Exporting volume: " ++ A)%string;
            ("    ✗ Failed to export: " ++ stderr rA)%string]
      /\ volume_lines E volumes_dir B
         = [("  Exporting volume: " ++ B)%string;
            ("    ✓ Exported to " ++ B ++ ".tar.gz")%string].
Proof.
  intros E output w rps rls A B rA rB dataB entries
    output_name export_dir volumes_dir archive_path sidecar volumes
    _ Hbackups Hfresh Harch0 Hside0 Hboot Hps Hls Hexit HA HB HrA HfailA HrB HokB HdataB.
  unfold export_environment. fold output_name export_dir archive_path.
  (* the header *)
  unfold bind at 1. rewrite print_header_run.
  (* the scratch directory *)
  unfold bind at 1. rewrite mkdir_exist_ok_run. cbn [fs trace out].
  rewrite Hfresh. unfold export_dir at 1. rewrite parent_child, Hbackups.
  set (w1 := mkWorld _ _ _).
  assert (Hbelow1 : writes_below export_dir w w1)
    by (intros q Hq; subst w1; cbn [fs]; now apply lookup_put_div).
  assert (Hdir1 : lookup export_dir (fs w1) = Some (Dir [])).
  { subst w1. cbn [fs]. eapply lookup_put_child. eassumption. }
  assert (Hnone1 : forall c, lookup (export_dir // c) (fs w1) = None).
  { intros c. subst w1. cbn [fs].
    eapply lookup_below_put_empty; [|apply child_not_nil].
    unfold export_dir. rewrite parent_child. eassumption. }
  (* the manifest *)
  destruct (export_metadata E export_dir "full" w1) as [r2 w2] eqn:H2.
  destruct (export_metadata_spec _ _ _ _ _ _ H2) as (Hbelow2 & _ & Hok2 & Hpre2).
  assert (Hres1 : r2 = Ok tt).
  { apply Hpre2; eauto.
    - replace (bootstrap_loads (fs w1)) with (bootstrap_loads (fs w)); [exact Hboot|].
      symmetry. apply bootstrap_of_same. apply Hbelow1.
      apply (scratch_not_bootstrap output_name []).
    - unfold is_dir. now rewrite Hnone1. }
  subst r2.
  destruct (Hok2 eq_refl) as (rps' & rls' & _ & _ & Hman & _ & Hout2). clear Hok2 Hpre2.
  unfold bind at 1. rewrite H2.
  (* the configuration files *)
  assert (Hnone2 : forall c, c <> "manifest.json"%string ->
            lookup (export_dir // c) (fs w2) = None).
  { intros c Hc. rewrite Hbelow2; [apply Hnone1|].
    apply diverge_children. congruence. }
  destruct (export_configs_ok export_dir w2) as [w3 H3].
  { eapply parent_is_dir. eassumption. }
  { apply Hnone2. discriminate. }
  destruct (export_configs_step _ _ _ _ H3) as [Hbelow3 [_ (lines3 & Hout3)]].
  unfold bind at 1. rewrite H3.
  (* the volumes *)
  rewrite String.eqb_refl.
  assert (Hman3 : lookup (export_dir // "manifest.json") (fs w3) <> None).
  { rewrite Hbelow3 by (apply diverge_children; discriminate).
    rewrite Hman. discriminate. }
  destruct (export_volumes_ok E export_dir w3 rls) as (w4 & H4 & _ & Hout4 & Hbelow4 & Hin4).
  { destruct (lookup (export_dir // "manifest.json") (fs w3)) eqn:Hl; [|congruence].
    eapply parent_is_dir. eassumption. }
  { rewrite Hbelow3 by (apply diverge_children; discriminate).
    apply Hnone2. discriminate. }
  { exact Hls. }
  { exact Hexit. }
  fold volumes_dir volumes in H4, Hout4, Hbelow4, Hin4.
  unfold bind at 1. rewrite H4.
  (* what the writes so far left alone *)
  assert (Hscratch : writes_below export_dir w w4).
  { intros q Hq.
    rewrite Hbelow4 by (apply (diverge_below export_dir q ["volumes"%string] Hq)).
    rewrite Hbelow3 by (apply (diverge_below export_dir q ["configs"%string] Hq)).
    rewrite Hbelow2 by (apply (diverge_below export_dir q ["manifest.json"%string] Hq)).
    now apply Hbelow1. }
  assert (HB4 : lookup (volumes_dir // archive_name B) (fs w4) = Some (File dataB))
    by (now apply Hin4).
  destruct (parent_is_dir _ _ _ _ HB4) as [ves Hves].
  destruct (parent_is_dir _ _ _ _ Hves) as [ees Hees].
  destruct (parent_is_dir _ _ _ _ Hees) as [bes Hbes].
  (* the archive *)
  destruct (create_tarball E archive_path export_dir output_name w4) as [r5 w5] eqn:H5.
  destruct (create_tarball_spec _ _ _ _ _ _ _ _
              (diverge_sym _ _ (scratch_not_archive output_name [])) H5)
    as (Hbelow5 & _ & Hok5 & Hpre5).
  rewrite app_nil_r in Hok5, Hpre5. fold export_dir archive_path in Hbelow5, Hok5, Hpre5.
  assert (Hres2 : r5 = Ok tt).
  { apply Hpre5; eauto.
    rewrite <- Harch0. apply is_dir_same. apply Hscratch.
    apply (scratch_not_archive output_name []). }
  subst r5.
  destruct (Hok5 eq_refl) as (tree & Htree & Harch5 & Hout5). clear Hok5 Hpre5.
  rewrite Hees in Htree. injection Htree as <-.
  unfold bind at 1. rewrite H5.
  (* the checksum *)
  destruct (write_checksum E archive_path w5) as [r6 w6] eqn:H6.
  destruct (write_checksum_spec _ _ _ _ _ _ H6) as (Hbelow6 & _ & Hok6 & Hpre6).
  fold archive_path sidecar in Hbelow6, Hok6, Hpre6.
  assert (Hres3 : r6 = Ok (sha256_hexdigest E (targz_pack E [(output_name, Dir ees)]))).
  { apply Hpre6; [exact Harch5|].
    rewrite <- Hside0. apply is_dir_same.
    rewrite Hbelow5 by apply archive_not_sidecar. apply Hscratch.
    apply (scratch_not_sidecar output_name []). }
  subst r6.
  destruct (Hok6 _ eq_refl) as (data & Hdata & _ & Hside6 & Hout6). clear Hok6 Hpre6.
  rewrite Harch5 in Hdata. injection Hdata as <-.
  unfold bind at 1. rewrite H6.
  (* the cleanup *)
  unfold bind at 1. rewrite rm_rf_run.
  set (w7 := mkWorld _ _ _).
  assert (Harch7 : lookup archive_path (fs w7)
                   = Some (File (targz_pack E [(output_name, Dir ees)]))).
  { subst w7. cbn [fs].
    rewrite lookup_remove_div by apply (scratch_not_archive output_name []).
    rewrite Hbelow6 by (apply diverge_sym, archive_not_sidecar). exact Harch5. }
  (* the summary *)
  destruct (print_export_summary E archive_path
              (sha256_hexdigest E (targz_pack E [(output_name, Dir ees)])) w7)
    as [r8 w8] eqn:H8.
  destruct (print_export_summary_spec _ _ _ _ _ _ H8) as (Hf8 & _ & Hok8 & Hpre8).
  assert (Hres4 : r8 = Ok tt) by (eapply Hpre8; eassumption).
  subst r8.
  destruct (Hok8 eq_refl) as (archive & Harchive & Hout8). clear Hok8 Hpre8.
  rewrite Harch7 in Harchive. injection Harchive as <-.
  unfold bind at 1. rewrite H8. unfold ret.
  exists w8, (Dir ees),
    ([(nl ++ repeat_char "=" 60)%string; center 60 "Exporting Local AI Package";
      (repeat_char "=" 60 ++ nl)%string] ++ metadata_lines ++ lines3).
  cbv zeta.
  split; [reflexivity|]. split; [now rewrite Hf8|].
  split; [|split; [|split; [|split]]].
  - unfold volumes_dir, child in HB4. rewrite <- app_assoc in HB4.
    rewrite lookup_app in HB4. fold (child backup_dir output_name) in HB4.
    fold export_dir in HB4. rewrite Hees in HB4. exact HB4.
  - rewrite Hf8. subst w7. cbn [fs].
    rewrite lookup_remove_div by apply (scratch_not_sidecar output_name []).
    exact Hside6.
  - rewrite Hout8. subst w7. cbn [out].
    rewrite Hout6, Hout5, Hout4, Hout3, Hout2. subst w1. cbn [out].
    rewrite <- !app_assoc. cbn [app]. reflexivity.
  - unfold volume_lines. rewrite HrA.
    apply Z.eqb_neq in HfailA. now rewrite HfailA.
  - unfold volume_lines. rewrite HrB, HokB. reflexivity.
Qed.

(** ** The manifest is read back as it was written *)

(** *** Strings *)

Lemma scanstring_encode_char c tail :
  scanstring (encode_char c ++ tail)%string = cons_char c (scanstring tail).
Proof.
  destruct c as [[|] [|] [|] [|] [|] [|] [|] [|]]; reflexivity.
Qed.

Lemma scanstring_encode_chars s rest :
  scanstring (encode_chars s ++ String dquote rest)%string = Some (s, rest).
Proof.
  induction s as [|c s IH]; cbn [encode_chars].
  - reflexivity.
  - rewrite append_assoc, scanstring_encode_char, IH. reflexivity.
Qed.

(** *** Whitespace and the first character of a value *)

Lemma skip_ws_spaces k s : skip_ws (repeat_char " " k ++ s)%string = skip_ws s.
Proof. induction k as [|k IH]; cbn; auto. Qed.

Lemma skip_ws_newline_indent level s :
  skip_ws (newline_indent level ++ s)%string = skip_ws s.
Proof. unfold newline_indent. cbn. apply skip_ws_spaces. Qed.

Lemma skip_ws_keep c s : is_ws c = false -> skip_ws (String c s) = String c s.
Proof. cbn. now intros ->. Qed.

Lemma skip_ws_drop c s : is_ws c = true -> skip_ws (String c s) = skip_ws s.
Proof. cbn. now intros ->. Qed.

Lemma begins_append P s t : begins P s = true -> begins P (s ++ t)%string = true.
Proof. now destruct s. Qed.

Lemma skip_ws_value s : begins value_start s = true -> skip_ws s = s.
Proof.
  destruct s as [|c s]; [discriminate|]. cbn.
  destruct c as [[|] [|] [|] [|] [|] [|] [|] [|]]; try discriminate; reflexivity.
Qed.

Lemma uint_digits_begin d :
  d <> Decimal.Nil -> begins is_digit (NilEmpty.string_of_uint d) = true.
Proof. destruct d; try reflexivity. congruence. Qed.

Lemma begins_digit_value s : begins is_digit s = true -> begins value_start s = true.
Proof.
  destruct s as [|c s]; [discriminate|]. cbn. unfold value_start.
  intros ->. now rewrite !orb_true_r.
Qed.

Lemma int_repr_begins z : begins value_start (int_repr z) = true.
Proof.
  destruct z as [|p|p]; try reflexivity.
  apply begins_digit_value, uint_digits_begin, DecimalPos.Unsigned.to_uint_nonnil.
Qed.

Lemma encode_begins level v : begins value_start (encode level v) = true.
Proof.
  destruct v as [|[|]|z|s|[|x xs]|[|[k x] ms]]; try reflexivity.
  apply int_repr_begins.
Qed.

(** *** Integers *)

Lemma ends_value_no_digit rest :
  ends_value rest = true -> begins is_digit rest = false /\ float_tail rest = false.
Proof.
  destruct rest as [|c r]; [now split|]. cbn.
  intros H. apply orb_true_iff in H.
  destruct H as [H|H]; apply Ascii.eqb_eq in H; subst c; now split.
Qed.

Lemma span_digits_uint d rest :
  begins is_digit rest = false ->
  span_digits (NilEmpty.string_of_uint d ++ rest)%string
  = (NilEmpty.string_of_uint d, rest).
Proof.
  intros Hrest. induction d; cbn [NilEmpty.string_of_uint append span_digits];
    try (change (is_digit _) with true; cbv iota; now rewrite IHd).
  destruct rest as [|c r]; [reflexivity|]. cbn in Hrest |- *. now rewrite Hrest.
Qed.

Lemma to_uint_normal p : Pos.to_uint p = Decimal.unorm (Pos.to_uint p).
Proof.
  pose proof (DecimalPos.Unsigned.to_of (Pos.to_uint p)) as H.
  rewrite DecimalPos.Unsigned.of_to in H. exact H.
Qed.

Lemma to_uint_no_leading_zero p d : Pos.to_uint p <> Decimal.D0 d.
Proof.
  intros H. pose proof (to_uint_normal p) as Hn. unfold Decimal.unorm in Hn.
  destruct (Decimal.nzhead (Pos.to_uint p)) eqn:Hz;
    try (apply (DecimalFacts.nzhead_nonzero (Pos.to_uint p) d); congruence).
  now apply (DecimalPos.Unsigned.to_uint_nonzero p).
Qed.

Lemma of_uint_to_uint p : Z.of_uint (Pos.to_uint p) = Zpos p.
Proof. unfold Z.of_uint. now rewrite DecimalPos.Unsigned.of_to. Qed.

Lemma finish_number_digits neg d rest :
  float_tail rest = false ->
  finish_number neg (NilEmpty.string_of_uint d) rest
  = Some (JInt (if neg then Z.opp (Z.of_uint d) else Z.of_uint d), rest).
Proof. intros H. unfold finish_number. now rewrite H, NilEmpty.usu. Qed.

(** The digits of a positive number, read after an optional sign. *)
Lemma scan_digits neg p rest :
  ends_value rest = true ->
  (let s := (NilEmpty.string_of_uint (Pos.to_uint p) ++ rest)%string in
   match s with
   | String c r =>
       if Ascii.eqb c "0" then finish_number neg "0" r
       else if is_digit c then
         let (ds, rest) := span_digits r in finish_number neg (String c ds) rest
       else None
   | EmptyString => None
   end)
  = Some (JInt (if neg then Zneg p else Zpos p), rest).
Proof.
  intros Hend. apply ends_value_no_digit in Hend. destruct Hend as [Hnd Hnf].
  cbv zeta. pose proof (of_uint_to_uint p) as Hval.
  pose proof (to_uint_no_leading_zero p) as Hlead.
  pose proof (DecimalPos.Unsigned.to_uint_nonnil p) as Hnil.
  destruct (Pos.to_uint p) as [|d|d|d|d|d|d|d|d|d|d] eqn:Hd;
    [congruence | exfalso; now apply (Hlead d) | ..];
    cbn [NilEmpty.string_of_uint append];
    (change (Ascii.eqb _ "0") with false; change (is_digit _) with true; cbv iota;
     rewrite span_digits_uint by exact Hnd;
     match goal with
     | |- finish_number _ (String ?c (NilEmpty.string_of_uint ?d)) _ = _ =>
         match type of Hval with
         | Z.of_uint ?u = _ =>
             change (String c (NilEmpty.string_of_uint d))
               with (NilEmpty.string_of_uint u)
         end
     end;
     rewrite finish_number_digits by exact Hnf; rewrite Hval;
     now destruct neg).
Qed.

Lemma scan_number_repr z rest :
  ends_value rest = true ->
  scan_number (int_repr z ++ rest)%string = Some (JInt z, rest).
Proof.
  intros Hend. destruct z as [|p|p].
  - apply ends_value_no_digit in Hend. destruct Hend as [_ Hnf].
    cbn. unfold finish_number. now rewrite Hnf.
  - unfold scan_number, int_repr.
    pose proof (scan_digits false p rest Hend) as H. cbv zeta in H.
    pose proof (uint_digits_begin _ (DecimalPos.Unsigned.to_uint_nonnil p)) as Hb.
    destruct (NilEmpty.string_of_uint (Pos.to_uint p)) as [|c r]; [discriminate|].
    cbn [append] in *. cbn [begins] in Hb.
    assert (Hc : Ascii.eqb c "-" = false).
    { destruct c as [[|] [|] [|] [|] [|] [|] [|] [|]]; try discriminate; reflexivity. }
    destruct c as [[|] [|] [|] [|] [|] [|] [|] [|]]; try discriminate Hc; exact H.
  - unfold scan_number, int_repr. cbn [append].
    exact (scan_digits true p rest Hend).
Qed.

Lemma scan_once_number n z rest :
  ends_value rest = true ->
  scan_once (S n) (int_repr z ++ rest)%string = Some (JInt z, rest).
Proof.
  intros Hend. rewrite <- (scan_number_repr z rest Hend).
  pose proof (int_repr_begins z) as Hb.
  assert (Hs : begins (fun c => (Ascii.eqb c "-" || is_digit c)%bool) (int_repr z) = true).
  { destruct z as [|p|p]; try reflexivity.
    cbn [int_repr].
    pose proof (uint_digits_begin _ (DecimalPos.Unsigned.to_uint_nonnil p)) as H.
    destruct (NilEmpty.string_of_uint (Pos.to_uint p)); [discriminate|].
    cbn in H |- *. now rewrite H, orb_true_r. }
  destruct (int_repr z) as [|c r]; [discriminate|].
  cbn [append begins] in *.
  destruct c as [[|] [|] [|] [|] [|] [|] [|] [|]]; try discriminate Hs; reflexivity.
Qed.

(** *** Dictionaries *)

Lemma mem_string_false_neq k l :
  mem_string k l = false -> forall x, In x l -> k <> x.
Proof.
  induction l as [|y l IH]; cbn; [contradiction|].
  intros H x [<-|Hx].
  - apply orb_false_iff in H. now apply String.eqb_neq.
  - apply orb_false_iff in H. now apply IH.
Qed.

Lemma dict_set_new k v d :
  mem_string k (map fst d) = false -> dict_set k v d = d ++ [(k, v)].
Proof.
  induction d as [|[k' v'] d IH]; cbn; [reflexivity|].
  intros H. apply orb_false_iff in H. destruct H as [Hk Hd].
  rewrite Hk. now rewrite IH.
Qed.

Lemma mem_string_app k l l' :
  mem_string k (l ++ l') = (mem_string k l || mem_string k l')%bool.
Proof.
  induction l as [|x l IH]; cbn; [reflexivity|]. now rewrite IH, orb_assoc.
Qed.

Lemma mem_string_sym k x l :
  mem_string k l = false -> In x l -> String.eqb x k = false.
Proof.
  intros H Hx. apply String.eqb_neq. intros ->.
  now apply (mem_string_false_neq _ _ H k).
Qed.

(** Pairs with distinct keys, none of them in [d], are added in order. *)
Lemma dict_update_new d ps :
  distinct (map fst ps) = true ->
  (forall k, In k (map fst ps) -> mem_string k (map fst d) = false) ->
  dict_update d ps = d ++ ps.
Proof.
  unfold dict_update. revert d.
  induction ps as [|[k v] ps IH]; intros d Hdis Hnew; cbn.
  - now rewrite app_nil_r.
  - cbn in Hdis. apply andb_true_iff in Hdis. destruct Hdis as [Hk Hdis].
    apply negb_true_iff in Hk.
    rewrite dict_set_new by (apply Hnew; now left).
    rewrite IH; [now rewrite <- app_assoc| exact Hdis|].
    intros k' Hk'. rewrite map_app, mem_string_app. cbn.
    rewrite (Hnew k') by now right.
    rewrite (mem_string_sym _ _ _ Hk Hk'). reflexivity.
Qed.

Lemma dict_of_pairs_distinct ps :
  distinct (map fst ps) = true -> dict_of_pairs ps = ps.
Proof.
  intros H. unfold dict_of_pairs. now rewrite dict_update_new.
Qed.

(** *** Values *)

Lemma jsize_pos v : 1 <= jsize v.
Proof. destruct v; cbn; lia. Qed.

Lemma ends_value_more_items enc level l rest :
  ends_value (more_items enc level l ++ rest)%string = true.
Proof. destruct l; reflexivity. Qed.

Lemma ends_value_more_members enc level l rest :
  ends_value (more_members enc level l ++ rest)%string = true.
Proof. destruct l as [|[k x] l]; reflexivity. Qed.

Section Scan.

Variable fuel : nat.

(** The reader with [fuel] reads back what the writer wrote for every
    value this fuel is enough for. *)
Hypothesis scan_encode :
  forall v level rest,
    jsize v <= fuel -> wf_json v = true -> ends_value rest = true ->
    scan_once fuel (encode level v ++ rest)%string = Some (v, rest).

Lemma parse_items_encode level xs : forall x k rest,
  length (x :: xs) <= k ->
  (forall y, In y (x :: xs) -> jsize y <= fuel /\ wf_json y = true) ->
  parse_items (scan_once fuel) k
    (encode (S level) x ++ more_items (encode (S level)) level xs ++ rest)%string
  = Some (x :: xs, rest).
Proof.
  induction xs as [|y xs IH]; intros x k rest Hk Hall;
    (destruct k as [|k]; [cbn in Hk; lia|]);
    cbn [parse_items];
    destruct (Hall x (or_introl eq_refl)) as [Hx Hwf];
    rewrite scan_encode by (trivial; apply ends_value_more_items).
  - cbn [more_items]. rewrite append_assoc, skip_ws_newline_indent. reflexivity.
  - cbn [more_items append skip_ws]. cbv iota.
    change (is_ws ",") with false. cbv iota.
    rewrite !append_assoc, skip_ws_newline_indent.
    rewrite skip_ws_value by (apply begins_append, encode_begins).
    rewrite IH; [reflexivity| cbn in Hk |- *; lia|].
    intros z Hz. apply Hall. now right.
Qed.

Lemma parse_members_encode level ms : forall key x k rest,
  length ((key, x) :: ms) <= k ->
  (forall member, In member ((key, x) :: ms) ->
     jsize (snd member) <= fuel /\ wf_json (snd member) = true) ->
  parse_members (scan_once fuel) k
    (encode_string key ++ ": " ++ encode (S level) x
     ++ more_members (encode (S level)) level ms ++ rest)%string
  = Some ((key, x) :: ms, rest).
Proof.
  induction ms as [|[key' y] ms IH]; intros key x k rest Hk Hall;
    (destruct k as [|k]; [cbn in Hk; lia|]);
    unfold encode_string; cbn [parse_members append];
    change (Ascii.eqb dquote dquote) with true; cbv iota;
    rewrite append_assoc; cbn [append];
    rewrite scanstring_encode_chars;
    rewrite (skip_ws_keep ":") by reflexivity; cbv iota beta;
    rewrite (skip_ws_drop " ") by reflexivity;
    rewrite skip_ws_value by (apply begins_append, encode_begins);
    destruct (Hall (key, x) (or_introl eq_refl)) as [Hx Hwf]; cbn [snd] in Hx, Hwf;
    rewrite scan_encode by (trivial; apply ends_value_more_members).
  - cbn [more_members]. rewrite append_assoc, skip_ws_newline_indent. reflexivity.
  - cbn [more_members append].
    rewrite (skip_ws_keep ",") by reflexivity. cbv iota beta.
    rewrite !append_assoc, skip_ws_newline_indent.
    rewrite skip_ws_value by (unfold encode_string; reflexivity).
    cbn [append]. rewrite ?append_assoc.
    match goal with
    | |- context [String ":" (String " " ?X)] =>
        change (String ":" (String " " X)) with (": " ++ X)%string
    end.
    rewrite IH; [reflexivity| cbn in Hk |- *; lia|].
    intros z Hz. apply Hall. now right.
Qed.

End Scan.

Lemma scan_once_open_bracket fuel r s :
  skip_ws r = s -> begins value_start s = true ->
  scan_once (S fuel) (String "[" r)
  = match parse_items (scan_once fuel) fuel s with
    | Some (vs, r1) => Some (JArr vs, r1)
    | None => None
    end.
Proof.
  intros <- H. cbn [scan_once].
  change (Ascii.eqb "[" dquote) with false. change (Ascii.eqb "[" "{") with false.
  change (Ascii.eqb "[" "[") with true. cbv iota.
  destruct (skip_ws r) as [|c t]; [discriminate|]. cbn [begins] in H.
  destruct c as [[|] [|] [|] [|] [|] [|] [|] [|]]; try discriminate H; reflexivity.
Qed.

Lemma scan_once_open_brace fuel r s :
  skip_ws r = s -> begins (Ascii.eqb dquote) s = true ->
  scan_once (S fuel) (String "{" r)
  = match parse_members (scan_once fuel) fuel s with
    | Some (ms, r1) => Some (JObj (dict_of_pairs ms), r1)
    | None => None
    end.
Proof.
  intros <- H. cbn [scan_once].
  change (Ascii.eqb "{" dquote) with false. change (Ascii.eqb "{" "{") with true.
  cbv iota.
  destruct (skip_ws r) as [|c t]; [discriminate|]. cbn [begins] in H.
  destruct c as [[|] [|] [|] [|] [|] [|] [|] [|]]; try discriminate H; reflexivity.
Qed.

Lemma sum_bounds {A} (size : A -> nat) (l : list A) :
  (forall x, In x l -> 1 <= size x) ->
  length l <= fold_right (fun x acc => size x + acc) 0 l
  /\ forall x, In x l -> size x <= fold_right (fun x acc => size x + acc) 0 l.
Proof.
  induction l as [|y l IH]; intros Hpos; cbn.
  - split; [lia|contradiction].
  - destruct IH as [IH1 IH2]; [intros x Hx; apply Hpos; now right|].
    pose proof (Hpos y (or_introl eq_refl)). split; [lia|].
    intros x [<-|Hx]; [lia|]. specialize (IH2 x Hx). lia.
Qed.

(** The reader reads back what the writer wrote. *)
Lemma scan_once_encode fuel : forall v level rest,
  jsize v <= fuel -> wf_json v = true -> ends_value rest = true ->
  scan_once fuel (encode level v ++ rest)%string = Some (v, rest).
Proof.
  induction fuel as [|fuel IH]; intros v level rest Hsize Hwf Hend.
  { pose proof (jsize_pos v). lia. }
  destruct v as [|[|]|z|s|[|x xs]|[|[key x] ms]]; try reflexivity.
  - now apply scan_once_number.
  - cbn [encode]. unfold encode_string. cbn [append scan_once].
    change (Ascii.eqb dquote dquote) with true. cbv iota.
    rewrite append_assoc. cbn [append]. now rewrite scanstring_encode_chars.
  - cbn [encode append]. rewrite !append_assoc.
    erewrite scan_once_open_bracket;
      [| rewrite skip_ws_newline_indent;
         apply skip_ws_value, begins_append, encode_begins
       | apply begins_append, encode_begins ].
    cbn [jsize] in Hsize. cbn [wf_json] in Hwf.
    destruct (sum_bounds jsize (x :: xs) (fun y _ => jsize_pos y)) as [Hlen Heach].
    rewrite (parse_items_encode fuel IH); [reflexivity| lia |].
    intros y Hy. split; [specialize (Heach y Hy); lia|].
    rewrite forallb_forall in Hwf. now apply Hwf.
  - cbn [encode append]. rewrite !append_assoc.
    erewrite scan_once_open_brace;
      [| rewrite skip_ws_newline_indent; apply skip_ws_value; reflexivity
       | reflexivity ].
    cbn [jsize] in Hsize. cbn [wf_json] in Hwf.
    apply andb_true_iff in Hwf. destruct Hwf as [Hdis Hwf].
    destruct (sum_bounds (fun member : string * json => jsize (snd member))
                ((key, x) :: ms) (fun y _ => jsize_pos (snd y))) as [Hlen Heach].
    cbn [append]. rewrite ?append_assoc.
    match goal with
    | |- context [String ":" (String " " ?X)] =>
        change (String ":" (String " " X)) with (": " ++ X)%string
    end.
    rewrite (parse_members_encode fuel IH); [|lia|].
    + now rewrite dict_of_pairs_distinct.
    + intros y Hy. split; [specialize (Heach y Hy); lia|].
      rewrite forallb_forall in Hwf. now apply Hwf.
Qed.

Lemma begins_length f s : begins f s = true -> 1 <= String.length s.
Proof. destruct s; [discriminate|cbn; lia]. Qed.

Lemma length_more_items enc level l :
  (forall y, In y l -> jsize y <= String.length (enc y)) ->
  fold_right (fun x acc => jsize x + acc) 0 l
  <= String.length (more_items enc level l).
Proof.
  induction l as [|y l IH]; intros Hall; cbn [fold_right more_items]; [lia|].
  rewrite !length_append.
  specialize (Hall y (or_introl eq_refl)) as Hy.
  specialize (IH (fun z Hz => Hall z (or_intror Hz))). lia.
Qed.

Lemma length_more_members enc level l :
  (forall member, In member l -> jsize (snd member) <= String.length (enc (snd member))) ->
  fold_right (fun member acc => jsize (snd member) + acc) 0 l
  <= String.length (more_members enc level l).
Proof.
  induction l as [|[k y] l IH]; intros Hall; cbn [fold_right more_members snd]; [lia|].
  rewrite !length_append.
  specialize (Hall (k, y) (or_introl eq_refl)) as Hy. cbn [snd] in Hy.
  specialize (IH (fun z Hz => Hall z (or_intror Hz))). lia.
Qed.

(** A text is at least as long as its value is large, so the fuel that
    [loads] takes from the length of the text is enough. *)
Lemma jsize_le_length n : forall v level,
  jsize v <= n -> jsize v <= String.length (encode level v).
Proof.
  induction n as [|n IH]; intros v level Hn.
  { pose proof (jsize_pos v). lia. }
  destruct v as [| b |z|s|[|x xs]|[|[key x] ms]]; cbn [jsize];
    try (apply (begins_length value_start); apply encode_begins).
  - cbn [encode jsize fold_right] in *. rewrite !length_append.
    destruct (sum_bounds jsize (x :: xs) (fun y _ => jsize_pos y)) as [_ Heach].
    cbn [fold_right] in Heach.
    assert (Hx : jsize x <= String.length (encode (S level) x)).
    { apply IH. specialize (Heach x (or_introl eq_refl)). lia. }
    assert (Hxs : fold_right (fun x acc => jsize x + acc) 0 xs
                  <= String.length (more_items (encode (S level)) level xs)).
    { apply length_more_items. intros y Hy. apply IH.
      specialize (Heach y (or_intror Hy)). lia. }
    cbn [String.length]. lia.
  - cbn [encode jsize fold_right snd] in *. rewrite !length_append.
    destruct (sum_bounds (fun member : string * json => jsize (snd member))
                ((key, x) :: ms) (fun y _ => jsize_pos (snd y))) as [_ Heach].
    cbn [fold_right snd] in Heach.
    assert (Hx : jsize x <= String.length (encode (S level) x)).
    { apply IH. specialize (Heach (key, x) (or_introl eq_refl)). cbn [snd] in Heach. lia. }
    assert (Hxs : fold_right (fun member acc => jsize (snd member) + acc) 0 ms
                  <= String.length (more_members (encode (S level)) level ms)).
    { apply length_more_members. intros y Hy. apply IH.
      specialize (Heach y (or_intror Hy)). lia. }
    cbn [String.length]. lia.
Qed.

Lemma append_empty s : (s ++ EmptyString)%string = s.
Proof. induction s as [|c s IH]; cbn; [reflexivity|now rewrite IH]. Qed.

(** What [json.dump] writes, [json.load] reads back: for every value whose
    objects repeat no key, whatever the nesting. *)
Lemma loads_dumps v : wf_json v = true -> loads (dumps v) = Some v.
Proof.
  intros Hwf. unfold loads, dumps.
  rewrite (skip_ws_value _ (encode_begins 0 v)).
  rewrite <- (append_empty (encode 0 v)) at 2.
  rewrite scan_once_encode; [reflexivity| |exact Hwf|reflexivity].
  pose proof (jsize_le_length (jsize v) v 0 (le_n _)). lia.
Qed.

(** ** What the reader returns repeats no key *)

Lemma mem_string_dict_set k' k v d :
  mem_string k' (map fst (dict_set k v d))
  = (mem_string k' (map fst d) || String.eqb k' k)%bool.
Proof.
  induction d as [|[k0 v0] d IH]; cbn [dict_set map fst mem_string].
  - now rewrite orb_false_r.
  - destruct (String.eqb k k0) eqn:Hk; cbn [map fst mem_string].
    + apply String.eqb_eq in Hk. subst k0.
      destruct (String.eqb k' k); [reflexivity|]. cbn. now rewrite orb_false_r.
    + rewrite IH. now rewrite orb_assoc.
Qed.

Lemma dict_set_distinct k v d :
  distinct (map fst d) = true -> distinct (map fst (dict_set k v d)) = true.
Proof.
  induction d as [|[k0 v0] d IH]; cbn [dict_set map fst distinct]; [reflexivity|].
  intros H. apply andb_true_iff in H. destruct H as [Hnew Hd].
  destruct (String.eqb k k0) eqn:Hk; cbn [map fst distinct].
  - apply String.eqb_eq in Hk. subst k0. now rewrite Hnew, Hd.
  - rewrite mem_string_dict_set, (IH Hd).
    apply negb_true_iff in Hnew. rewrite Hnew.
    rewrite String.eqb_sym, Hk. reflexivity.
Qed.

Lemma dict_set_forallb (P : string * json -> bool) k v d :
  P (k, v) = true -> forallb P d = true -> forallb P (dict_set k v d) = true.
Proof.
  intros Hkv. induction d as [|[k0 v0] d IH]; cbn [dict_set forallb].
  - now rewrite Hkv.
  - intros H. apply andb_true_iff in H. destruct H as [H0 Hd].
    destruct (String.eqb k k0); cbn [forallb].
    + now rewrite Hkv, Hd.
    + now rewrite H0, (IH Hd).
Qed.

Lemma dict_update_wf other : forall d,
  wf_json (JObj d) = true -> wf_members other = true ->
  wf_json (JObj (dict_update d other)) = true.
Proof.
  unfold dict_update, wf_members.
  induction other as [|[k v] other IH]; intros d Hd Hother; cbn [fold_left]; [exact Hd|].
  cbn [forallb snd fst] in *. apply andb_true_iff in Hother. destruct Hother as [Hv Hother].
  apply IH; [|exact Hother].
  cbn [wf_json] in *. apply andb_true_iff in Hd. destruct Hd as [Hdis Hall].
  apply andb_true_iff. split.
  - now apply dict_set_distinct.
  - now apply (dict_set_forallb (fun member => wf_json (snd member))).
Qed.

Ltac each_char c :=
  destruct c as [[|] [|] [|] [|] [|] [|] [|] [|]].

Lemma parse_items_wf scan :
  (forall s, wf_scanned wf_json (scan s)) ->
  forall k s, wf_scanned (forallb wf_json) (parse_items scan k s).
Proof.
  intros Hscan. induction k as [|k IH]; intros s; cbn [parse_items]; [exact I|].
  specialize (Hscan s). destruct (scan s) as [[v r]|]; [|exact I].
  cbn [wf_scanned] in Hscan.
  destruct (skip_ws r) as [|c t]; [exact I|].
  each_char c; try exact I; cbv beta iota;
    try (cbn [wf_scanned forallb]; now rewrite Hscan).
  specialize (IH (skip_ws t)).
  destruct (parse_items scan k (skip_ws t)) as [[vs r2]|]; [|exact I].
  cbn [wf_scanned forallb] in *. now rewrite Hscan, IH.
Qed.

Lemma parse_members_wf scan :
  (forall s, wf_scanned wf_json (scan s)) ->
  forall k s, wf_scanned wf_members (parse_members scan k s).
Proof.
  intros Hscan. induction k as [|k IH]; intros s; cbn [parse_members]; [exact I|].
  destruct s as [|q r]; [exact I|].
  destruct (Ascii.eqb q dquote); [|exact I].
  destruct (scanstring r) as [[key r1]|]; [|exact I].
  destruct (skip_ws r1) as [|c t]; [exact I|].
  each_char c; try exact I; cbv beta iota.
  specialize (Hscan (skip_ws t)). destruct (scan (skip_ws t)) as [[v r3]|]; [|exact I].
  cbn [wf_scanned] in Hscan.
  destruct (skip_ws r3) as [|c t']; [exact I|].
  each_char c; try exact I; cbv beta iota;
    try (unfold wf_members; cbn [wf_scanned forallb snd]; now rewrite Hscan).
  specialize (IH (skip_ws t')).
  destruct (parse_members scan k (skip_ws t')) as [[ms r5]|]; [|exact I].
  unfold wf_members in *. cbn [wf_scanned forallb snd] in *. now rewrite Hscan, IH.
Qed.

Lemma dict_of_pairs_wf ms :
  wf_members ms = true -> wf_json (JObj (dict_of_pairs ms)) = true.
Proof. intros H. now apply dict_update_wf. Qed.

Lemma scan_once_wf fuel : forall s, wf_scanned wf_json (scan_once fuel s).
Proof.
  induction fuel as [|fuel IH]; intros s; cbn [scan_once]; [exact I|].
  destruct s as [|c r]; [exact I|].
  destruct (Ascii.eqb c dquote).
  { destruct (scanstring r) as [[t r1]|]; exact I || reflexivity. }
  assert (Hobj : forall s1,
            wf_scanned wf_json
              match parse_members (scan_once fuel) fuel s1 with
              | Some (ms, r1) => Some (JObj (dict_of_pairs ms), r1)
              | None => None
              end).
  { intros s1. pose proof (parse_members_wf _ IH fuel s1) as H.
    destruct (parse_members (scan_once fuel) fuel s1) as [[ms r1]|]; [|exact I].
    now apply dict_of_pairs_wf. }
  assert (Harr : forall s1,
            wf_scanned wf_json
              match parse_items (scan_once fuel) fuel s1 with
              | Some (vs, r1) => Some (JArr vs, r1)
              | None => None
              end).
  { intros s1. pose proof (parse_items_wf _ IH fuel s1) as H.
    destruct (parse_items (scan_once fuel) fuel s1) as [[vs r1]|]; [|exact I].
    exact H. }
  destruct (Ascii.eqb c "{").
  { destruct (skip_ws r) as [|c' t]; [apply Hobj|].
    each_char c'; first [apply Hobj | reflexivity]. }
  destruct (Ascii.eqb c "[").
  { destruct (skip_ws r) as [|c' t]; [apply Harr|].
    each_char c'; first [apply Harr | reflexivity]. }
  destruct (strip_prefix "null" (String c r)); [reflexivity|].
  destruct (strip_prefix "true" (String c r)); [reflexivity|].
  destruct (strip_prefix "false" (String c r)); [reflexivity|].
  unfold scan_number.
  repeat match goal with
         | |- wf_scanned _ (match ?x with _ => _ end) => destruct x
         | |- wf_scanned _ (if ?x then _ else _) => destruct x
         | |- wf_scanned _ (finish_number _ _ _) => unfold finish_number
         | |- wf_scanned _ (Some _) => reflexivity
         | |- wf_scanned _ None => exact I
         end.
Qed.

Lemma loads_wf text v : loads text = Some v -> wf_json v = true.
Proof.
  unfold loads. pose proof (scan_once_wf (S (String.length text)) (skip_ws text)) as H.
  destruct (scan_once _ _) as [[v' r]|]; [|discriminate].
  destruct (skip_ws r); [|discriminate]. now intros [= <-].
Qed.

Lemma wf_names l : forallb wf_json (map JStr l) = true.
Proof. induction l as [|x l IH]; [reflexivity|exact IH]. Qed.

Lemma default_metadata_wf E format containers volumes :
  wf_json (JObj (default_metadata E format containers volumes)) = true.
Proof.
  unfold default_metadata. cbn [wf_json map fst snd forallb].
  rewrite !wf_names. reflexivity.
Qed.

Lemma bootstrap_of_wf n : wf_members (bootstrap_of n) = true.
Proof.
  unfold bootstrap_of.
  destruct (lookup bootstrap_metadata_file n) as [[text|es]|]; try reflexivity.
  destruct (loads text) as [v|] eqn:Hl; [|reflexivity].
  apply loads_wf in Hl. destruct v; try reflexivity.
  cbn [wf_json] in Hl. apply andb_true_iff in Hl. apply Hl.
Qed.

Lemma read_manifest_run restore_dir w text manifest :
  lookup (restore_dir // "manifest.json") (fs w) = Some (File text) ->
  loads text = Some manifest ->
  read_manifest restore_dir w = (Ok (Some manifest), w).
Proof.
  intros Hfile Hloads. unfold read_manifest.
  unfold bind at 1. rewrite path_exists_run. unfold exists_. rewrite Hfile.
  unfold bind at 1. rewrite read_file_run, Hfile. now rewrite Hloads.
Qed.

(** C8.  Every manifest that export writes reads back equal.  When the
    block of [export_environment] that collects the metadata completes,
    the file manifest.json of the export directory holds the text that
    [json.dump] gives for the mapping m made of the five fields of the
    export updated with the keys of the bootstrap metadata; [json.load]
    of that text is m itself, key by key and value by value, whatever
    the merged keys are; and the block of [import_environment] that
    reads the manifest of a backup root holding that text returns m. *)
Theorem exported_manifest_reads_back_equal :
  forall E export_dir format w w',
    export_metadata E export_dir format w = (Ok tt, w') ->
    exists rps rls,
      let m := JObj (dict_update
                       (default_metadata E format (names_if_ok rps) (names_if_ok rls))
                       (bootstrap_of (fs w))) in
      exec E docker_ps_cmd = Exits rps
      /\ exec E docker_volume_ls_cmd = Exits rls
      /\ lookup (export_dir // "manifest.json") (fs w') = Some (File (dumps m))
      /\ loads (dumps m) = Some m
      /\ forall restore_dir w2,
           lookup (restore_dir // "manifest.json") (fs w2) = Some (File (dumps m)) ->
           read_manifest restore_dir w2 = (Ok (Some m), w2).
Proof.
  intros E export_dir format w w' Hrun.
  destruct (export_metadata_spec _ _ _ _ _ _ Hrun) as (_ & _ & Hok & _).
  destruct (Hok eq_refl) as (rps & rls & Hps & Hls & Hfile & _).
  exists rps, rls. cbv zeta.
  assert (Hround : loads (dumps (JObj (dict_update
                      (default_metadata E format (names_if_ok rps) (names_if_ok rls))
                      (bootstrap_of (fs w)))))
                   = Some (JObj (dict_update
                      (default_metadata E format (names_if_ok rps) (names_if_ok rls))
                      (bootstrap_of (fs w))))).
  { apply loads_dumps, dict_update_wf;
      [apply default_metadata_wf | apply bootstrap_of_wf]. }
  repeat split; try assumption.
  intros restore_dir w2 Hthere. now apply (read_manifest_run _ _ _ _ Hthere).
Qed.

(** In the example the bootstrap metadata adds three keys and replaces
    the version. *)
Lemma exported_manifest_reads_back_equal_witness :
  export_metadata Demo.quiet_env (backup_dir // "nightly") "config"
    Demo.bootstrapped_site
  = (Ok tt, Demo.after (export_metadata Demo.quiet_env (backup_dir // "nightly") "config")
              Demo.bootstrapped_site)
  /\ exists rps rls,
      let m := JObj (dict_update
                       (default_metadata Demo.quiet_env "config"
                          (names_if_ok rps) (names_if_ok rls))
                       (bootstrap_of (fs Demo.bootstrapped_site))) in
      exec Demo.quiet_env docker_ps_cmd = Exits rps
      /\ exec Demo.quiet_env docker_volume_ls_cmd = Exits rls
      /\ lookup ((backup_dir // "nightly") // "manifest.json")
           (fs (Demo.after (export_metadata Demo.quiet_env (backup_dir // "nightly")
                              "config") Demo.bootstrapped_site))
         = Some (File (dumps m))
      /\ loads (dumps m) = Some m
      /\ forall restore_dir w2,
           lookup (restore_dir // "manifest.json") (fs w2) = Some (File (dumps m)) ->
           read_manifest restore_dir w2 = (Ok (Some m), w2).
Proof.
  split; [vm_compute; reflexivity|].
  apply (exported_manifest_reads_back_equal Demo.quiet_env (backup_dir // "nightly")
           "config" Demo.bootstrapped_site).
  vm_compute. reflexivity.
Defined.

(** The import of the archive whose sidecar records another digest. *)
Lemma import_checksum_mismatch_stops_before_extraction_witness :
  let w := Demo.tampered_site in
  sha256_hexdigest Demo.quiet_env Demo.good_archive <> Demo.other_digest
  /\ import_environment Demo.quiet_env ["b.tar.gz"%string] false w
     = (Ok false,
        mkWorld (fs w) (trace w)
          (out w ++ import_header
             ++ ["🔐 Verifying checksum..."%string;
                 "✗ Checksum mismatch! File may be corrupted."%string])).
Proof.
  cbv zeta. split; [vm_compute; discriminate|].
  apply (import_checksum_mismatch_stops_before_extraction Demo.quiet_env
           ["b.tar.gz"%string] false Demo.tampered_site Demo.good_archive
           (Demo.other_digest ++ "  b.tar.gz" ++ nl)%string Demo.other_digest).
  - reflexivity.
  - reflexivity.
  - vm_compute. reflexivity.
  - vm_compute. discriminate.
Defined.

(** The import of a backup of format full, volumes included. *)
Lemma import_stops_services_first_and_never_restarts_witness :
  let E := Demo.quiet_env in
  let w := Demo.good_site in
  let m := import_environment E ["b.tar.gz"%string] false in
  m w = (Demo.run m w, Demo.after m w)
  /\ exists issued,
      trace (Demo.after m w) = trace w ++ issued
      /\ (false = true -> ~ In compose_down_cmd issued)
      /\ (forall before cmd later,
            issued = before ++ cmd :: later ->
            is_volume_import cmd = true ->
            In compose_down_cmd before
            /\ exists res, exec E compose_down_cmd = Exits res)
      /\ (forall cmd, In cmd issued -> is_service_start cmd = false)
      /\ (forall restore_dir manifest w1,
            open_backup E ["b.tar.gz"%string] w
            = (Ok (Some (restore_dir, manifest)), w1) ->
            Demo.run m w = Ok true -> false = false ->
            format_is_full manifest = true ->
            In compose_down_cmd issued).
Proof.
  cbv zeta. split; [apply surjective_pairing|].
  apply (import_stops_services_first_and_never_restarts Demo.quiet_env
           ["b.tar.gz"%string] false Demo.good_site).
  vm_compute. reflexivity.
Defined.

(** The export of format config named nightly. *)
Lemma export_without_volumes_witness :
  let E := Demo.quiet_env in
  let w := Demo.good_site in
  let m := export_environment E (Some "nightly"%string) "config" in
  let archive_path := ["backups"%string; "nightly.tar.gz"%string] in
  m w = (Ok archive_path, Demo.after m w)
  /\ exists rps rls tree issued,
      archive_path = backup_dir // ("nightly" ++ ".tar.gz")%string
      /\ exec E docker_ps_cmd = Exits rps
      /\ exec E docker_volume_ls_cmd = Exits rls
      /\ lookup archive_path (fs (Demo.after m w))
         = Some (File (targz_pack E [("nightly"%string, tree)]))
      /\ (let metadata :=
            dict_update
              (default_metadata E "config" (names_if_ok rps) (names_if_ok rls))
              (bootstrap_of (fs w)) in
          lookup ["manifest.json"%string] tree = Some (File (dumps (JObj metadata)))
          /\ (dict_get "volumes" (bootstrap_of (fs w)) = None ->
              dict_get "volumes" metadata = Some (JArr (map JStr (names_if_ok rls)))))
      /\ (forall rest,
            lookup ("volumes"%string :: rest) tree
            = lookup (backup_dir // "nightly" ++ "volumes"%string :: rest) (fs w))
      /\ trace (Demo.after m w) = trace w ++ issued
      /\ Forall no_docker_run issued.
Proof.
  cbv zeta. split; [vm_compute; reflexivity|].
  apply (export_without_volumes Demo.quiet_env (Some "nightly"%string) "config"
           Demo.good_site ["backups"%string; "nightly.tar.gz"%string]).
  - reflexivity.
  - discriminate.
  - vm_compute. reflexivity.
Defined.

(** The full export of two volumes, where the helper of localai_a exits
    with status 1 and that of localai_b with status 0. *)
Lemma full_export_goes_on_after_a_failed_volume_witness :
  let E := Demo.a_fails_env in
  let w := Demo.good_site in
  let A := "localai_a"%string in
  let B := "localai_b"%string in
  let archive_path := ["backups"%string; "nightly.tar.gz"%string] in
  let sidecar := ["backups"%string; "nightly.tar.gz.sha256"%string] in
  let volumes_dir := ["backups"%string; "nightly"%string; "volumes"%string] in
  let volumes := [A; B] in
  exec E (export_helper_cmd E A volumes_dir) = Demo.failed "tar: read error"
  /\ exec E (export_helper_cmd E B volumes_dir) = Demo.succeeded EmptyString
  /\ exists w' tree before,
      let archive := targz_pack E [("nightly"%string, tree)] in
      export_environment E (Some "nightly"%string) "full" w = (Ok archive_path, w')
      /\ lookup archive_path (fs w') = Some (File archive)
      /\ lookup ["volumes"%string; (B ++ ".tar.gz")%string] tree
         = Some (File "archive of localai_b"%string)
      /\ lookup sidecar (fs w')
         = Some (File (sidecar_text E archive ("nightly" ++ ".tar.gz")))
      /\ out w' = out w ++ before
                    ++ volumes_banner :: flat_map (volume_lines E volumes_dir) volumes
                    ++ [tarball_banner; checksum_banner]
                    ++ export_summary E archive_path (String.length archive)
                         (sha256_hexdigest E archive)
      /\ volume_lines E volumes_dir A
         = [("  Exporting volume: " ++ A)%string;
            ("    ✗ Failed to export: " ++ "tar: read error")%string]
      /\ volume_lines E volumes_dir B
         = [("  Exporting volume: " ++ B)%string;
            ("    ✓ Exported to " ++ B ++ ".tar.gz")%string].
Proof.
  cbv zeta. split; [vm_compute; reflexivity|]. split; [vm_compute; reflexivity|].
  apply (full_export_goes_on_after_a_failed_volume Demo.a_fails_env
           (Some "nightly"%string) Demo.good_site
           (mkCompleted 0 EmptyString EmptyString)
           (mkCompleted 0 ("localai_a" ++ nl ++ "localai_b" ++ nl)%string EmptyString)
           "localai_a"%string "localai_b"%string
           (mkCompleted 1 EmptyString "tar: read error"%string)
           (mkCompleted 0 EmptyString EmptyString)
           "archive of localai_b"%string []).
  - reflexivity.
  - reflexivity.
  - reflexivity.
  - reflexivity.
  - reflexivity.
  - reflexivity.
  - vm_compute. reflexivity.
  - vm_compute. reflexivity.
  - intros v Hv. vm_compute in Hv.
    destruct Hv as [<-|[<-|[]]]; eexists; vm_compute; reflexivity.
  - vm_compute. left. reflexivity.
  - vm_compute. right. left. reflexivity.
  - vm_compute. reflexivity.
  - vm_compute. discriminate.
  - vm_compute. reflexivity.
  - reflexivity.
  - reflexivity.
Defined.

(** ** The volume a restored archive goes to *)

Lemma rev_string_append a : forall b acc,
  rev_string (a ++ b)%string acc = rev_string b (rev_string a acc).
Proof. induction a as [|c a IH]; intros b acc; cbn; [reflexivity|apply IH]. Qed.

Lemma after_last_dot_no_dot a b :
  has_char "." a = false ->
  after_last_dot (a ++ String "." b)%string = Some (String.length a).
Proof.
  induction a as [|c a IH]; cbn; [reflexivity|].
  intros H. apply orb_false_iff in H. destruct H as [Hc Ha].
  rewrite Hc, (IH Ha). reflexivity.
Qed.

Lemma take_append a b : take (String.length a) (a ++ b)%string = a.
Proof. induction a as [|c a IH]; cbn; [now destruct b|now rewrite IH]. Qed.

Lemma stem_tar_gz v : stem (v ++ ".tar.gz")%string = (v ++ ".tar")%string.
Proof.
  unfold stem. rewrite rev_string_append. cbn [rev_string].
  change (String "z" (String "g" (String "." (String "r" (String "a"
            (String "t" (String "." (rev_string v EmptyString))))))))
    with ("zg" ++ String "." ("rat." ++ rev_string v EmptyString))%string.
  rewrite after_last_dot_no_dot by reflexivity.
  rewrite length_append. cbn [String.length].
  replace (String.length v + 7 - 1 - 2) with (String.length v + 4) by lia.
  replace (Nat.ltb 0 (String.length v + 4)) with true by (symmetry; apply Nat.ltb_lt; lia).
  replace (Nat.ltb (String.length v + 4) (String.length v + 7 - 1)) with true
    by (symmetry; apply Nat.ltb_lt; lia).
  cbn [andb].
  change (v ++ ".tar.gz")%string with (v ++ (".tar" ++ ".gz"))%string.
  rewrite <- append_assoc.
  replace (String.length v + 4) with (String.length (v ++ ".tar")%string)
    by (rewrite length_append; reflexivity).
  apply take_append.
Qed.

Lemma remove_dot_tar_eq s :
  remove_dot_tar s
  = match strip_prefix ".tar" s with
    | Some s' => remove_dot_tar s'
    | None =>
        match s with
        | String c s' => String c (remove_dot_tar s')
        | EmptyString => EmptyString
        end
    end.
Proof.
  destruct s as [|c1 s1]; [reflexivity|].
  each_char c1; try reflexivity.
  destruct s1 as [|c2 s2]; [reflexivity|].
  each_char c2; try reflexivity.
  destruct s2 as [|c3 s3]; [reflexivity|].
  each_char c3; try reflexivity.
  destruct s3 as [|c4 s4]; [reflexivity|].
  each_char c4; reflexivity.
Qed.

Lemma has_dot_tar_eq s :
  has_dot_tar s
  = match strip_prefix ".tar" s with
    | Some _ => true
    | None =>
        match s with
        | String _ s' => has_dot_tar s'
        | EmptyString => false
        end
    end.
Proof.
  destruct s as [|c1 s1]; [reflexivity|].
  each_char c1; try reflexivity.
  destruct s1 as [|c2 s2]; [reflexivity|].
  each_char c2; try reflexivity.
  destruct s2 as [|c3 s3]; [reflexivity|].
  each_char c3; try reflexivity.
  destruct s3 as [|c4 s4]; [reflexivity|].
  each_char c4; reflexivity.
Qed.

Lemma strip_prefix_some p : forall s s',
  strip_prefix p s = Some s' -> s = (p ++ s')%string.
Proof.
  induction p as [|a p IH]; intros s s'; cbn.
  - now intros [= ->].
  - destruct s as [|b s]; [discriminate|].
    destruct (Ascii.eqb_spec a b) as [<-|]; [|discriminate].
    intros H. now rewrite (IH _ _ H).
Qed.

Lemma strip_prefix_append p s : strip_prefix p (p ++ s)%string = Some s.
Proof. induction p as [|a p IH]; cbn; [reflexivity|]. now rewrite Ascii.eqb_refl. Qed.

(** No occurrence of .tar starts in [v] and ends in a .tar put after it. *)
Lemma strip_prefix_tail v :
  v <> EmptyString -> strip_prefix ".tar" v = None ->
  strip_prefix ".tar" (v ++ ".tar")%string = None.
Proof.
  intros Hv H.
  destruct v as [|c1 [|c2 [|c3 [|c4 v']]]]; [congruence| | | |];
    cbn [strip_prefix append] in *;
    repeat match goal with
           | |- context [Ascii.eqb ?a ?c] =>
               destruct (Ascii.eqb_spec a c); subst; cbn [strip_prefix append] in *
           | H : context [Ascii.eqb ?a ?c] |- _ =>
               destruct (Ascii.eqb_spec a c); subst; cbn [strip_prefix append] in *
           end;
    congruence.
Qed.

Lemma remove_dot_tar_tail n : forall v,
  String.length v <= n ->
  remove_dot_tar (v ++ ".tar")%string = remove_dot_tar v.
Proof.
  induction n as [|n IH]; intros v Hn.
  { destruct v; [reflexivity|cbn in Hn; lia]. }
  destruct v as [|c v']; [reflexivity|].
  rewrite (remove_dot_tar_eq (String c v' ++ ".tar")), (remove_dot_tar_eq (String c v')).
  destruct (strip_prefix ".tar" (String c v')) as [rest|] eqn:Hp.
  - apply strip_prefix_some in Hp. rewrite Hp.
    rewrite append_assoc, strip_prefix_append.
    apply IH. rewrite Hp in Hn. rewrite length_append in Hn. cbn in Hn. lia.
  - rewrite strip_prefix_tail by (congruence || exact Hp).
    cbn [append]. f_equal. apply IH. cbn in Hn. lia.
Qed.

Lemma remove_dot_tar_length n : forall s,
  String.length s <= n -> String.length (remove_dot_tar s) <= String.length s.
Proof.
  induction n as [|n IH]; intros s Hn.
  { destruct s; [cbn; lia|cbn in Hn; lia]. }
  rewrite remove_dot_tar_eq.
  destruct (strip_prefix ".tar" s) as [rest|] eqn:Hp.
  - apply strip_prefix_some in Hp. subst s.
    rewrite length_append in *. cbn [String.length] in *.
    specialize (IH rest). lia.
  - destruct s as [|c s']; [cbn; lia|]. cbn [String.length] in *.
    specialize (IH s'). lia.
Qed.

Lemma remove_dot_tar_fixed n : forall s,
  String.length s <= n -> (remove_dot_tar s = s <-> has_dot_tar s = false).
Proof.
  induction n as [|n IH]; intros s Hn.
  { destruct s; [split; reflexivity|cbn in Hn; lia]. }
  rewrite remove_dot_tar_eq, has_dot_tar_eq.
  destruct (strip_prefix ".tar" s) as [rest|] eqn:Hp.
  - apply strip_prefix_some in Hp. subst s. split; [|discriminate].
    intros H. exfalso.
    pose proof (remove_dot_tar_length _ rest (le_n _)) as Hlen.
    rewrite H in Hlen. rewrite length_append in Hlen. cbn in Hlen. lia.
  - destruct s as [|c s']; [split; reflexivity|].
    cbn [String.length] in Hn. specialize (IH s').
    split.
    + intros [= H]. apply IH; [lia|exact H].
    + intros H. f_equal. apply IH; [lia|exact H].
Qed.

(** X1.  The archive that the export helper writes for the volume v is
    v.tar.gz, and the import restores that file into the volume whose
    name is v with every .tar taken out ([stem], then [replace]): the
    volume v itself exactly when .tar does not occur in v. *)
Theorem restored_volume_is_the_exported_one :
  forall E dir v,
    In ("/backup/" ++ v ++ ".tar.gz")%string (export_helper_cmd E v dir)
    /\ restore_volume E (dir // (v ++ ".tar.gz")%string)
       = bind (import_docker_volume E (remove_dot_tar v) (dir // (v ++ ".tar.gz")%string))
           (fun _ => ret tt)
    /\ (remove_dot_tar v = v <-> has_dot_tar v = false).
Proof.
  intros E dir v. split; [cbn; tauto|]. split.
  - unfold restore_volume. rewrite name_child, stem_tar_gz.
    now rewrite (remove_dot_tar_tail _ v (le_n _)).
  - apply (remove_dot_tar_fixed _ v (le_n _)).
Qed.

(** ** The names that docker lists *)

Lemma has_char_rev c s : forall acc,
  has_char c (rev_string s acc) = (has_char c s || has_char c acc)%bool.
Proof.
  induction s as [|a s IH]; intros acc; cbn; [reflexivity|].
  rewrite IH. cbn. destruct (Ascii.eqb a c), (has_char c s), (has_char c acc); reflexivity.
Qed.

Lemma split_lines_no_lf s : forall cur,
  has_char lf cur = false ->
  Forall (fun line => has_char lf line = false) (split_lines_acc s cur).
Proof.
  induction s as [|c s IH]; intros cur Hcur; cbn.
  - constructor; [|constructor]. now rewrite has_char_rev, Hcur.
  - destruct (Ascii.eqb c lf) eqn:Hc.
    + constructor; [now rewrite has_char_rev, Hcur|]. now apply IH.
    + apply IH. cbn. now rewrite Hc, Hcur.
Qed.

Lemma names_of_output_clean stdout name :
  In name (names_of_output stdout) ->
  name <> EmptyString /\ has_char lf name = false.
Proof.
  unfold names_of_output. intros H. apply filter_In in H. destruct H as [Hin Hne].
  split; [now destruct name|].
  pose proof (split_lines_no_lf (strip stdout) EmptyString eq_refl) as Hall.
  rewrite Forall_forall in Hall. now apply Hall.
Qed.

Lemma names_if_ok_clean r name :
  In name (names_if_ok r) ->
  returncode r = 0%Z /\ name <> EmptyString /\ has_char lf name = false.
Proof.
  unfold names_if_ok. destruct (Z.eqb_spec (returncode r) 0) as [H0|]; [|intros []].
  intros H. split; [exact H0|]. now apply names_of_output_clean in H.
Qed.

Lemma lister_run E cmd w names w' :
  bind (run_command E cmd None) (fun r => ret (names_if_ok r)) w = (Ok names, w') ->
  (forall name, In name names -> name <> EmptyString /\ has_char lf name = false)
  /\ fs w' = fs w /\ out w' = out w /\ trace w' = trace w ++ [cmd]
  /\ exists r, exec E cmd = Exits r
       /\ names = names_if_ok r
       /\ (returncode r <> 0%Z -> names = []).
Proof.
  unfold bind. rewrite run_command_run.
  destruct (exec E cmd) as [r| |]; try discriminate.
  unfold ret. intros [= <- <-]. cbn [fs trace out].
  split; [intros name H; now apply names_if_ok_clean in H|].
  repeat split. exists r. repeat split.
  intros Hr. unfold names_if_ok. now destruct (Z.eqb_spec (returncode r) 0).
Qed.

(** X2.  When [get_docker_volumes] or [get_running_containers] returns,
    every name of the list is a non-empty line of what docker printed,
    without a line feed in it; the list is empty when docker ended with
    a status other than 0; and the call has run that one command and has
    neither printed nor touched a file. *)
Theorem docker_lists_hold_clean_names :
  forall E w names w',
    get_docker_volumes E w = (Ok names, w')
    \/ get_running_containers E w = (Ok names, w') ->
    (forall name, In name names -> name <> EmptyString /\ has_char lf name = false)
    /\ fs w' = fs w /\ out w' = out w
    /\ exists cmd r,
         trace w' = trace w ++ [cmd]
         /\ head cmd = Some "docker"%string
         /\ exec E cmd = Exits r
         /\ names = names_if_ok r
         /\ (returncode r <> 0%Z -> names = []).
Proof.
  intros E w names w' [H|H]; apply lister_run in H;
    destruct H as (Hclean & Hfs & Hout & Htrace & r & Hexec & Hnames & Hfail);
    (split; [exact Hclean|]); (split; [exact Hfs|]); (split; [exact Hout|]);
    eexists _, r; repeat split; eassumption || reflexivity.
Qed.

Lemma docker_lists_hold_clean_names_witness :
  (forall name, In name ["localai_a"%string; "localai_b"%string] ->
     name <> EmptyString /\ has_char lf name = false)
  /\ fs (Demo.after (get_docker_volumes Demo.a_fails_env) Demo.good_site)
     = fs Demo.good_site
  /\ out (Demo.after (get_docker_volumes Demo.a_fails_env) Demo.good_site)
     = out Demo.good_site
  /\ exists cmd r,
       trace (Demo.after (get_docker_volumes Demo.a_fails_env) Demo.good_site)
       = trace Demo.good_site ++ [cmd]
       /\ head cmd = Some "docker"%string
       /\ exec Demo.a_fails_env cmd = Exits r
       /\ ["localai_a"%string; "localai_b"%string] = names_if_ok r
       /\ (returncode r <> 0%Z -> ["localai_a"%string; "localai_b"%string] = []).
Proof.
  apply (docker_lists_hold_clean_names Demo.a_fails_env Demo.good_site
           ["localai_a"%string; "localai_b"%string]
           (Demo.after (get_docker_volumes Demo.a_fails_env) Demo.good_site)).
  left. vm_compute. reflexivity.
Defined.

(** ** The first steps of an import *)

Lemma import_environment_start E b skip w :
  import_environment E b skip w
  = bind (path_exists b)
      (fun present =>
         if negb present then
           bind (print ("✗ Backup file not found: " ++ path_str b)%string)
             (fun _ => ret false)
         else
           bind (verify_checksum E b)
             (fun verified =>
                if negb verified then ret false
                else
                  bind (extract_archive E b)
                    (fun found =>
                       match found with
                       | None => ret false
                       | Some restore_dir =>
                           bind (read_manifest restore_dir)
                             (fun read =>
                                match read with
                                | None => ret false
                                | Some manifest =>
                                    restore_backup E restore_dir manifest skip
                                end)
                       end)))
      (mkWorld (fs w) (trace w) (out w ++ import_header)).
Proof.
  unfold import_environment, print_header.
  erewrite bind_ok
    by (erewrite bind_ok by apply print_run;
        erewrite bind_ok by apply print_run; apply print_run).
  cbn [fs trace out]. unfold import_header. rewrite <- !app_assoc. reflexivity.
Qed.

(** X3.  An import of a path where nothing is: the function prints that
    the backup file was not found and returns False; it runs no command,
    creates no scratch directory and leaves every file as it was. *)
Theorem import_of_a_missing_file_does_nothing :
  forall E backup_file skip_volumes w,
    lookup backup_file (fs w) = None ->
    import_environment E backup_file skip_volumes w
    = (Ok false,
       mkWorld (fs w) (trace w)
         (out w ++ import_header
            ++ [("✗ Backup file not found: " ++ path_str backup_file)%string])).
Proof.
  intros E b skip w Hnone. rewrite import_environment_start.
  unfold bind at 1. rewrite path_exists_run. cbn [fs trace out].
  unfold exists_. rewrite Hnone. cbn [negb].
  unfold bind. rewrite print_run. cbn [fs trace out]. unfold ret.
  now rewrite <- app_assoc.
Qed.

Lemma import_of_a_missing_file_does_nothing_witness :
  import_environment Demo.quiet_env ["c.tar.gz"%string] false Demo.good_site
  = (Ok false,
     mkWorld (fs Demo.good_site) (trace Demo.good_site)
       (out Demo.good_site ++ import_header
          ++ [("✗ Backup file not found: " ++ path_str ["c.tar.gz"%string])%string])).
Proof.
  apply (import_of_a_missing_file_does_nothing Demo.quiet_env ["c.tar.gz"%string]
           false Demo.good_site).
  reflexivity.
Defined.

(** X4.  An import of an archive beside a sidecar that holds no word (an
    empty file, or white space only): [f.read().split()[0]] raises
    IndexError, after the line that announces the verification; nothing
    is extracted and no command is run. *)
Theorem import_with_a_blank_sidecar_raises :
  forall E backup_file skip_volumes w data sidecar,
    lookup backup_file (fs w) = Some (File data) ->
    lookup (add_suffix backup_file ".sha256") (fs w) = Some (File sidecar) ->
    lstrip sidecar = EmptyString ->
    import_environment E backup_file skip_volumes w
    = (Raise IndexError,
       mkWorld (fs w) (trace w)
         (out w ++ import_header ++ ["🔐 Verifying checksum..."%string])).
Proof.
  intros E b skip w data sidecar Hfile Hside Hblank.
  rewrite import_environment_start.
  erewrite bind_ok by (eapply path_exists_true; cbn [fs]; eassumption).
  cbn [negb]. unfold verify_checksum.
  unfold bind at 1. unfold bind at 1.
  rewrite path_exists_run. cbn [fs trace out]. unfold exists_. rewrite Hside.
  unfold bind at 1. rewrite print_run. cbn [fs trace out].
  unfold bind at 1. rewrite read_file_run. cbn [fs trace out]. rewrite Hside.
  unfold first_word. rewrite Hblank. unfold raise.
  now rewrite <- app_assoc.
Qed.

Lemma import_with_a_blank_sidecar_raises_witness :
  import_environment Demo.quiet_env ["b.tar.gz"%string] false
    (Demo.empty_world [("backups"%string, Dir []);
                       ("b.tar.gz"%string, File Demo.good_archive);
                       ("b.tar.gz.sha256"%string, File nl)])
  = (Raise IndexError,
     mkWorld (Dir [("backups"%string, Dir []);
                   ("b.tar.gz"%string, File Demo.good_archive);
                   ("b.tar.gz.sha256"%string, File nl)]) []
       ([] ++ import_header ++ ["🔐 Verifying checksum..."%string])).
Proof.
  apply (import_with_a_blank_sidecar_raises Demo.quiet_env ["b.tar.gz"%string] false
           (Demo.empty_world [("backups"%string, Dir []);
                              ("b.tar.gz"%string, File Demo.good_archive);
                              ("b.tar.gz.sha256"%string, File nl)])
           Demo.good_archive nl).
  - reflexivity.
  - reflexivity.
  - reflexivity.
Defined.

(** ** The sidecar that the export writes, read by the import *)

Lemma first_word_of_line word rest :
  word <> EmptyString -> no_space word = true ->
  first_word (word ++ String " " rest)%string = Some word.
Proof.
  intros Hne Hclean. unfold first_word.
  destruct word as [|c word]; [congruence|].
  cbn [no_space] in Hclean. apply andb_true_iff in Hclean.
  destruct Hclean as [Hc Hword]. apply negb_true_iff in Hc.
  cbn [append lstrip]. rewrite Hc. cbn [until_space]. rewrite Hc.
  do 2 f_equal. clear Hc Hne c.
  induction word as [|c word IH]; [reflexivity|].
  cbn [no_space] in Hword. apply andb_true_iff in Hword.
  destruct Hword as [Hc Hword]. apply negb_true_iff in Hc.
  cbn [append until_space]. rewrite Hc. now rewrite (IH Hword).
Qed.

(** X5.  The sidecar that the export writes beside an archive passes the
    verification of the import: when the digest is a word (not empty, no
    white space in it, as a hexadecimal digest is), [write_checksum]
    followed by [verify_checksum] on the same archive gives True, with
    the line of the verified checksum. *)
Theorem exported_sidecar_passes_verification :
  forall E dir archive_name w data,
    lookup (dir // archive_name) (fs w) = Some (File data) ->
    is_dir (dir // (archive_name ++ ".sha256")%string) (fs w) = false ->
    sha256_hexdigest E data <> EmptyString ->
    no_space (sha256_hexdigest E data) = true ->
    exists w1,
      write_checksum E (dir // archive_name) w = (Ok (sha256_hexdigest E data), w1)
      /\ lookup (dir // archive_name) (fs w1) = Some (File data)
      /\ verify_checksum E (dir // archive_name) w1
         = (Ok true,
            mkWorld (fs w1) (trace w1)
              (out w1 ++ ["🔐 Verifying checksum..."%string;
                          "✓ Checksum verified"%string])).
Proof.
  intros E dir c w data Hfile Hside Hne Hclean.
  destruct (write_checksum E (dir // c) w) as [r w1] eqn:Hw.
  destruct (write_checksum_spec _ _ _ _ _ _ Hw) as (Hbelow & _ & Hok & Hpre).
  rewrite (Hpre data Hfile Hside) in *. clear Hpre.
  destruct (Hok _ eq_refl) as (data' & Hdata' & _ & Hsidecar & _).
  rewrite Hfile in Hdata'. injection Hdata' as <-.
  assert (Hkept : lookup (dir // c) (fs w1) = Some (File data)).
  { rewrite Hbelow; [exact Hfile|].
    apply diverge_children. apply append_not_self. discriminate. }
  exists w1. split; [reflexivity|]. split; [exact Hkept|].
  unfold verify_checksum. rewrite add_suffix_child.
  erewrite bind_ok by (eapply path_exists_true; eassumption). cbv beta iota.
  erewrite bind_ok by apply print_run.
  erewrite bind_ok by (apply read_file_ok; cbn [fs]; eassumption).
  unfold sidecar_text.
  change (sha256_hexdigest E data ++ "  " ++ c ++ nl)%string
    with (sha256_hexdigest E data ++ String " " (" " ++ c ++ nl))%string.
  rewrite first_word_of_line by assumption. cbv beta iota.
  erewrite bind_ok by (apply read_file_ok; cbn [fs]; eassumption).
  rewrite String.eqb_refl.
  erewrite bind_ok by apply print_run.
  unfold ret. cbn [fs trace out]. now rewrite <- app_assoc.
Qed.

Lemma exported_sidecar_passes_verification_witness :
  exists w1,
    write_checksum Demo.quiet_env ([] // "b.tar.gz"%string) (Demo.bare_site Demo.good_archive)
    = (Ok (sha256_hexdigest Demo.quiet_env Demo.good_archive), w1)
    /\ lookup ([] // "b.tar.gz"%string) (fs w1) = Some (File Demo.good_archive)
    /\ verify_checksum Demo.quiet_env ([] // "b.tar.gz"%string) w1
       = (Ok true,
          mkWorld (fs w1) (trace w1)
            (out w1 ++ ["🔐 Verifying checksum..."%string;
                        "✓ Checksum verified"%string])).
Proof.
  apply (exported_sidecar_passes_verification Demo.quiet_env [] "b.tar.gz"%string
           (Demo.bare_site Demo.good_archive) Demo.good_archive).
  - reflexivity.
  - reflexivity.
  - vm_compute. discriminate.
  - vm_compute. reflexivity.
Defined.

(** ** The bootstrap metadata in the manifest *)

Lemma dict_get_set_same k v d : dict_get k (dict_set k v d) = Some v.
Proof.
  induction d as [|[k0 v0] d IH]; cbn.
  - now rewrite String.eqb_refl.
  - destruct (String.eqb k k0) eqn:Hk; cbn; [now rewrite String.eqb_refl|].
    now rewrite Hk.
Qed.

Lemma dict_get_absent k d : mem_string k (map fst d) = false -> dict_get k d = None.
Proof.
  induction d as [|[k0 v0] d IH]; cbn; [reflexivity|].
  intros H. apply orb_false_iff in H. destruct H as [Hk Hd].
  rewrite Hk. now apply IH.
Qed.

Lemma dict_get_update other : forall d k,
  distinct (map fst other) = true ->
  dict_get k (dict_update d other)
  = match dict_get k other with
    | Some v => Some v
    | None => dict_get k d
    end.
Proof.
  unfold dict_update.
  induction other as [|[k0 v0] other IH]; intros d k Hdis; cbn [fold_left]; [reflexivity|].
  cbn [map fst distinct] in Hdis. apply andb_true_iff in Hdis.
  destruct Hdis as [Hnew Hdis]. apply negb_true_iff in Hnew.
  cbn [fst snd]. rewrite (IH _ _ Hdis). cbn [dict_get].
  destruct (String.eqb k k0) eqn:Hk.
  - apply String.eqb_eq in Hk. subst k0.
    rewrite (dict_get_absent _ _ Hnew). apply dict_get_set_same.
  - destruct (dict_get k other); [reflexivity|].
    apply dict_get_set_other. intros ->. now rewrite String.eqb_refl in Hk.
Qed.

Lemma bootstrap_of_distinct n : distinct (map fst (bootstrap_of n)) = true.
Proof.
  unfold bootstrap_of.
  destruct (lookup bootstrap_metadata_file n) as [[text|es]|]; try reflexivity.
  destruct (loads text) as [v|] eqn:Hl; [|reflexivity].
  apply loads_wf in Hl. destruct v; try reflexivity.
  cbn [wf_json] in Hl. apply andb_true_iff in Hl. apply Hl.
Qed.

(** X6.  In the manifest that the export writes, a key of the object in
    .bootstrap_metadata.json has the value of that file, also when it is
    one of the five fields of the export; every other key has the value
    of the export.  So the format that the import reads, which decides on
    the restoration of the volumes, is that of the bootstrap metadata
    when they have the key. *)
Theorem bootstrap_metadata_replaces_manifest_fields :
  forall E export_dir format w w',
    export_metadata E export_dir format w = (Ok tt, w') ->
    exists rps rls manifest,
      exec E docker_ps_cmd = Exits rps
      /\ exec E docker_volume_ls_cmd = Exits rls
      /\ lookup (export_dir // "manifest.json") (fs w')
         = Some (File (dumps (JObj manifest)))
      /\ (forall key,
            dict_get key manifest
            = match dict_get key (bootstrap_of (fs w)) with
              | Some value => Some value
              | None =>
                  dict_get key
                    (default_metadata E format (names_if_ok rps) (names_if_ok rls))
              end)
      /\ format_is_full (JObj manifest)
         = match dict_get "format" (bootstrap_of (fs w)) with
           | Some (JStr f) => String.eqb f "full"
           | Some _ => false
           | None => String.eqb format "full"
           end.
Proof.
  intros E export_dir format w w' Hrun.
  destruct (export_metadata_spec _ _ _ _ _ _ Hrun) as (_ & _ & Hok & _).
  destruct (Hok eq_refl) as (rps & rls & Hps & Hls & Hfile & _).
  exists rps, rls. eexists. split; [exact Hps|]. split; [exact Hls|].
  split; [exact Hfile|].
  assert (Hget : forall key,
            dict_get key
              (dict_update (default_metadata E format (names_if_ok rps) (names_if_ok rls))
                 (bootstrap_of (fs w)))
            = match dict_get key (bootstrap_of (fs w)) with
              | Some value => Some value
              | None =>
                  dict_get key
                    (default_metadata E format (names_if_ok rps) (names_if_ok rls))
              end).
  { intros key. apply dict_get_update, bootstrap_of_distinct. }
  split; [exact Hget|].
  unfold format_is_full. rewrite Hget.
  destruct (dict_get "format" (bootstrap_of (fs w))) as [v|]; reflexivity.
Qed.

Lemma bootstrap_metadata_replaces_manifest_fields_witness :
  dict_get "version" (bootstrap_of (fs Demo.bootstrapped_site))
  = Some (JStr "bootstrap")
  /\ exists rps rls manifest,
      exec Demo.quiet_env docker_ps_cmd = Exits rps
      /\ exec Demo.quiet_env docker_volume_ls_cmd = Exits rls
      /\ lookup ((backup_dir // "nightly") // "manifest.json")
           (fs (Demo.after (export_metadata Demo.quiet_env (backup_dir // "nightly")
                              "full") Demo.bootstrapped_site))
         = Some (File (dumps (JObj manifest)))
      /\ (forall key,
            dict_get key manifest
            = match dict_get key (bootstrap_of (fs Demo.bootstrapped_site)) with
              | Some value => Some value
              | None =>
                  dict_get key
                    (default_metadata Demo.quiet_env "full"
                       (names_if_ok rps) (names_if_ok rls))
              end)
      /\ format_is_full (JObj manifest)
         = match dict_get "format" (bootstrap_of (fs Demo.bootstrapped_site)) with
           | Some (JStr f) => String.eqb f "full"
           | Some _ => false
           | None => String.eqb "full" "full"
           end.
Proof.
  split; [vm_compute; reflexivity|].
  apply (bootstrap_metadata_replaces_manifest_fields Demo.quiet_env
           (backup_dir // "nightly") "full" Demo.bootstrapped_site).
  vm_compute. reflexivity.
Defined.

(** ** What an import runs and changes *)

(** X7.  An import with skip-volumes, or of a backup whose manifest does
    not say format full, runs no docker command at all: the commands of
    the run are copies of configuration files and the removal of the
    scratch directory. *)
Theorem import_without_volumes_runs_no_docker :
  forall E backup_file skip_volumes w r w',
    import_environment E backup_file skip_volumes w = (r, w') ->
    (skip_volumes = true
     \/ forall restore_dir manifest w1,
          open_backup E backup_file w = (Ok (Some (restore_dir, manifest)), w1) ->
          format_is_full manifest = false) ->
    exists issued,
      trace w' = trace w ++ issued
      /\ forall cmd, In cmd issued ->
           head_is "docker" cmd = false
           /\ (head_is "cp" cmd = true \/ cmd = rm_scratch_cmd).
Proof.
  intros E b skip w r w' H Hno.
  destruct (import_shape _ _ _ _ _ _ H)
    as [(Ht & _ & _)|(root & m & w1 & Hopen & [Ht1 _] & Hs & Hrest)].
  { exists []. rewrite app_nil_r. split; [exact Ht|]. intros cmd []. }
  destruct (restore_backup_spec _ _ _ _ _ _ _ Hs Hrest)
    as (cps & vol & fin & Ht & Hcps & Hvol & Hfin & _ & _).
  assert (Hvolnil : vol = []).
  { destruct Hvol as [->|(Hskip & Hfull & _)]; [reflexivity|].
    destruct Hno as [Hno|Hno]; [congruence|].
    rewrite (Hno _ _ _ Hopen) in Hfull. discriminate. }
  subst vol. cbn [app] in Ht.
  exists (cps ++ fin). split; [now rewrite Ht, Ht1|].
  intros cmd Hin. apply in_app_or in Hin. destruct Hin as [Hin|Hin].
  - destruct Hcps as [->| ->]; [contradiction|].
    apply in_map_iff in Hin. destruct Hin as (entry & <- & _).
    split; [reflexivity|]. now left.
  - destruct Hfin as [->| ->]; [contradiction|].
    destruct Hin as [<-|[]]. split; [reflexivity|]. now right.
Qed.

Lemma import_without_volumes_runs_no_docker_witness :
  exists issued,
    trace (Demo.after (import_environment Demo.quiet_env ["b.tar.gz"%string] true)
             Demo.good_site)
    = trace Demo.good_site ++ issued
    /\ forall cmd, In cmd issued ->
         head_is "docker" cmd = false
         /\ (head_is "cp" cmd = true \/ cmd = rm_scratch_cmd).
Proof.
  apply (import_without_volumes_runs_no_docker Demo.quiet_env ["b.tar.gz"%string] true
           Demo.good_site
           (Demo.run (import_environment Demo.quiet_env ["b.tar.gz"%string] true)
              Demo.good_site)).
  - vm_compute. reflexivity.
  - left. reflexivity.
Defined.

(** ** What an export changes *)

Lemma below_print p line : respects (writes_below p) (print line).
Proof.
  apply (respects_weaken silent); [apply silent_writes_below|apply silent_print].
Qed.

Lemma below_export_docker_volume E volume dir :
  respects (writes_below dir) (export_docker_volume E volume dir).
Proof.
  intros w r w'. rewrite export_docker_volume_run.
  destruct (exec E (export_helper_cmd E volume dir)); intros [= <- <-];
    intros q Hq; cbn [fs]; try reflexivity;
    apply export_helper_effect_div; now apply (diverge_below dir q [_]).
Qed.

Lemma below_get_docker_volumes E p : respects (writes_below p) (get_docker_volumes E).
Proof.
  intros w r w' H. unfold get_docker_volumes, bind in H.
  rewrite run_command_run in H.
  destruct (exec E docker_volume_ls_cmd); injection H as <- <-;
    intros q _; reflexivity.
Qed.

Lemma below_export_volumes E export_dir :
  respects (writes_below (export_dir // "volumes")) (export_volumes E export_dir).
Proof.
  unfold export_volumes.
  set (dir := export_dir // "volumes").
  apply (respects_bind _ (writes_below_trans dir)); [apply below_print|intros _].
  apply (respects_bind _ (writes_below_trans dir)).
  { intros w r w' H. apply (export_step_mkdir_here dir) in H. apply H. }
  intros _.
  apply (respects_bind _ (writes_below_trans dir));
    [apply below_get_docker_volumes|intros volumes].
  apply (respects_for_each _ (writes_below_refl dir) (writes_below_trans dir)).
  intros volume _.
  apply (respects_bind _ (writes_below_trans dir));
    [apply below_export_docker_volume|intros ?].
  apply (respects_ret _ (writes_below_refl dir)).
Qed.

Lemma below_backups_child c r w w' :
  writes_below ((backup_dir // c) ++ r) w w' -> writes_below backup_dir w w'.
Proof.
  intros H. apply (writes_below_deeper backup_dir (c :: r)).
  now rewrite <- child_app.
Qed.

Lemma export_below_backups E output format :
  respects (writes_below backup_dir) (export_environment E output format).
Proof.
  unfold export_environment.
  set (output_name := chosen_name E output).
  set (export_dir := backup_dir // output_name).
  set (R := writes_below backup_dir).
  assert (Rt := writes_below_trans backup_dir). assert (Rr := writes_below_refl backup_dir).
  apply (respects_bind R Rt).
  { apply (respects_weaken silent); [apply silent_writes_below|apply silent_print_header]. }
  intros _. apply (respects_bind R Rt).
  { intros w r w' H. apply (export_step_mkdir backup_dir [output_name]) in H. apply H. }
  intros _. apply (respects_bind R Rt).
  { intros w r w' H. apply export_metadata_spec in H. destruct H as [H _].
    apply (below_backups_child output_name ["manifest.json"%string]). exact H. }
  intros _. apply (respects_bind R Rt).
  { intros w r w' H. apply export_configs_step in H. destruct H as [H _].
    apply (below_backups_child output_name ["configs"%string]). exact H. }
  intros _. apply (respects_bind R Rt).
  { destruct (String.eqb format "full"); [|apply (respects_ret R Rr)].
    intros w r w' H. apply below_export_volumes in H.
    apply (below_backups_child output_name ["volumes"%string]). exact H. }
  intros _. apply (respects_bind R Rt).
  { intros w r w' H.
    apply (create_tarball_spec E backup_dir) in H;
      [|apply diverge_sym, (scratch_not_archive output_name [])].
    destruct H as [H _].
    apply (below_backups_child (output_name ++ ".tar.gz")%string []).
    rewrite app_nil_r. exact H. }
  intros _. apply (respects_bind R Rt).
  { intros w r w' H. apply (write_checksum_spec E backup_dir) in H.
    destruct H as [H _].
    apply (below_backups_child ((output_name ++ ".tar.gz") ++ ".sha256")%string []).
    rewrite app_nil_r. exact H. }
  intros checksum. apply (respects_bind R Rt).
  { intros w r w' H. rewrite rm_rf_run in H.
    assert (Hfs : fs w' = remove export_dir (fs w)) by (now inversion H).
    intros q Hq. rewrite Hfs.
    apply lookup_remove_div. now apply (diverge_below backup_dir q [output_name]). }
  intros _. apply (respects_bind R Rt).
  { intros w r w' H. apply print_export_summary_spec in H. destruct H as [H _].
    intros q _. now rewrite H. }
  intros _. apply (respects_ret R Rr).
Qed.

(** X9.  An export under a plain name, of any format and whatever its
    result (also when it is stopped by an error or a timeout), changes
    nothing outside the directory backups: every file and directory of
    the working directory under another name is after the run what it was
    before. *)
Theorem export_changes_nothing_outside_backups :
  forall E output format w r w' name rest,
    plain_name (chosen_name E output) = true ->
    export_environment E output format w = (r, w') ->
    name <> "backups"%string ->
    lookup (name :: rest) (fs w') = lookup (name :: rest) (fs w).
Proof.
  intros E output format w r w' name rest _ H Hname.
  apply export_below_backups in H. apply H.
  exists [], "backups"%string, name, [], rest. repeat split. congruence.
Qed.

Lemma export_changes_nothing_outside_backups_witness :
  lookup [".env"%string]
    (fs (Demo.after (export_environment Demo.slow_env (Some "nightly"%string) "full")
           Demo.good_site))
  = lookup [".env"%string] (fs Demo.good_site).
Proof.
  apply (export_changes_nothing_outside_backups Demo.slow_env (Some "nightly"%string)
           "full" Demo.good_site
           (Demo.run (export_environment Demo.slow_env (Some "nightly"%string) "full")
              Demo.good_site)).
  - reflexivity.
  - vm_compute. reflexivity.
  - discriminate.
Defined.

(** ** The configuration files, from the export to the import *)

Lemma cp_into_flat_dir config_dir f n :
  flat_dir config_dir n ->
  cp_effect [f] config_dir n
  = match lookup [f] n with
    | Some (File d) => write_entry (config_dir // f) d n
    | _ => n
    end.
Proof.
  intros [[es Hes] Hflat]. unfold cp_effect, write_entry.
  destruct (lookup [f] n) as [[d|es']|]; try reflexivity.
  rewrite Hes. change (name [f]) with f.
  specialize (Hflat f). unfold is_dir in Hflat.
  destruct (lookup (config_dir // f) n) as [[d'|es']|]; reflexivity.
Qed.

(** The loop over the configuration files, into a directory without
    subdirectory: each file that is a regular file of the working
    directory is in the directory afterwards, with its content. *)
Lemma export_config_loop_content config_dir (files : list string) : forall w,
  (forall f, In f files -> diverge config_dir [f]) ->
  flat_dir config_dir (fs w) ->
  exists w',
    for_each files (export_config_file config_dir) w = (Ok tt, w')
    /\ writes_below config_dir w w'
    /\ flat_dir config_dir (fs w')
    /\ (forall c, ~ In c files ->
          lookup (config_dir // c) (fs w') = lookup (config_dir // c) (fs w))
    /\ (forall f d, In f files -> lookup [f] (fs w) = Some (File d) ->
          lookup (config_dir // f) (fs w') = Some (File d)).
Proof.
  induction files as [|f0 files IH]; intros w Hdiv Hflat.
  - exists w. split; [reflexivity|]. split; [apply writes_below_refl|].
    split; [exact Hflat|]. split; [reflexivity|]. intros f d [].
  - cbn [for_each]. unfold bind at 1. rewrite export_config_file_run.
    assert (Hstep : exists w1,
              (if exists_ [f0] (fs w)
               then (Ok tt,
                     mkWorld (cp_effect [f0] config_dir (fs w))
                       (trace w ++ [["cp"%string; f0; path_str config_dir]])
                       (out w ++ [("  ✓ " ++ f0)%string]))
               else (Ok tt, w)) = (Ok tt, w1)
              /\ fs w1 = match lookup [f0] (fs w) with
                         | Some (File d) => write_entry (config_dir // f0) d (fs w)
                         | _ => fs w
                         end).
    { unfold exists_. destruct (lookup [f0] (fs w)) as [[d|es]|] eqn:Hsrc;
        eexists; (split; [reflexivity|]); cbn [fs]; trivial;
        rewrite (cp_into_flat_dir _ _ _ Hflat), Hsrc; reflexivity. }
    destruct Hstep as (w1 & -> & Hfs1).
    assert (Hbelow1 : writes_below config_dir w w1).
    { intros q Hq. rewrite Hfs1.
      destruct (lookup [f0] (fs w)) as [[d|es]|]; trivial.
      apply write_entry_div. now apply (diverge_below config_dir q [f0]). }
    assert (Hflat1 : flat_dir config_dir (fs w1)).
    { rewrite Hfs1. destruct (lookup [f0] (fs w)) as [[d|es]|]; trivial.
      now apply flat_dir_write. }
    destruct (IH w1 (fun f Hf => Hdiv f (or_intror Hf)) Hflat1)
      as (w' & Hrun & Hbelow & Hflat' & Hother & Hin).
    exists w'. split; [exact Hrun|]. split; [|split; [|split]].
    + eapply writes_below_trans; eassumption.
    + exact Hflat'.
    + intros c Hc. rewrite Hother by (intros Hin'; apply Hc; now right).
      rewrite Hfs1. destruct (lookup [f0] (fs w)) as [[d|es]|]; trivial.
      apply write_entry_div, diverge_children. intros ->. apply Hc. now left.
    + intros f d Hf Hsrc.
      assert (Hsrc1 : lookup [f] (fs w1) = Some (File d)).
      { rewrite Hbelow1; [exact Hsrc|]. apply Hdiv. exact Hf. }
      destruct (in_dec string_dec f files) as [Hin'|Hnot]; [now apply (Hin f d)|].
      destruct Hf as [<-|Hf]; [|contradiction].
      rewrite Hother by exact Hnot.
      rewrite Hfs1, Hsrc. now apply write_entry_read.
Qed.

Lemma config_files_not_backups f : In f config_files -> f <> "backups"%string.
Proof.
  unfold config_files. cbn [In].
  intros [<-|[<-|[<-|[<-|[<-|[<-|[<-|[<-|[]]]]]]]]]; discriminate.
Qed.

Lemma put_keeps_dir p : forall c r x n es,
  lookup p n = Some (Dir es) ->
  exists es', lookup p (put (p ++ c :: r) x n) = Some (Dir es').
Proof.
  induction p as [|d p IH]; intros c r x n es H.
  - cbn in H. injection H as ->. cbn [app put lookup].
    destruct (assoc c es), r; eauto.
  - cbn [lookup] in H. destruct n as [data|es0]; [discriminate|].
    destruct (assoc d es0) as [sub|] eqn:Hd; [|discriminate].
    change ((d :: p) ++ c :: r) with (d :: (p ++ c :: r)).
    cbn [put]. rewrite Hd. cbn [lookup]. rewrite assoc_set_entry_same.
    eapply IH. eassumption.
Qed.

Lemma cp_keeps_dir p c src n es :
  lookup p n = Some (Dir es) ->
  exists es', lookup p (cp_effect src (p // c) n) = Some (Dir es').
Proof.
  intros H. unfold cp_effect.
  destruct (lookup src n) as [[d|es0]|]; eauto.
  destruct (lookup (p // c) n) as [[d'|es']|].
  - apply (put_keeps_dir p c [] _ _ _ H).
  - destruct (lookup (p // c // name src) n) as [[d''|es'']|]; eauto.
    + unfold child. rewrite <- app_assoc. apply (put_keeps_dir p c [name src] _ _ _ H).
    + unfold child. rewrite <- app_assoc. apply (put_keeps_dir p c [name src] _ _ _ H).
  - apply (put_keeps_dir p c [] _ _ _ H).
Qed.

(** [export_configs] into a new directory configs of a directory below
    backups. *)
Lemma export_configs_content c r w :
  let export_dir := (backup_dir // c) ++ r in
  (exists es, lookup export_dir (fs w) = Some (Dir es)) ->
  lookup (export_dir // "configs") (fs w) = None ->
  exists w',
    export_configs export_dir w = (Ok tt, w')
    /\ (exists ces, lookup (export_dir // "configs") (fs w') = Some (Dir ces))
    /\ (forall f d, In f config_files -> lookup [f] (fs w) = Some (File d) ->
          lookup (export_dir // "configs" // f) (fs w') = Some (File d)).
Proof.
  intros export_dir [es Hes] Hnone. unfold export_configs.
  erewrite bind_ok by apply print_run.
  set (cd := export_dir // "configs") in *.
  unfold bind at 1. rewrite mkdir_exist_ok_run. cbn [fs trace out].
  rewrite Hnone. unfold cd at 1. rewrite parent_child, Hes.
  set (w1 := mkWorld _ _ _).
  assert (Hflat : flat_dir cd (fs w1)).
  { subst w1. cbn [fs]. split.
    - exists []. unfold cd. eapply lookup_put_child. eassumption.
    - intros c'. unfold is_dir.
      erewrite lookup_below_put_empty; [reflexivity| |apply child_not_nil].
      unfold cd. rewrite parent_child. eassumption. }
  assert (Hdiv : forall q, q <> "backups"%string -> forall s, diverge (cd ++ s) [q]).
  { intros q Hq s. exists [], "backups"%string, q, ((c :: r) ++ "configs"%string :: s), [].
    split; [|split; [reflexivity|congruence]].
    unfold cd, export_dir, backup_dir, child. cbn [app].
    rewrite <- !app_assoc. reflexivity. }
  assert (Hsrc1 : forall f, f <> "backups"%string ->
            lookup [f] (fs w1) = lookup [f] (fs w)).
  { intros f Hf. subst w1. cbn [fs]. apply lookup_put_div.
    rewrite <- (app_nil_r cd). now apply Hdiv. }
  destruct (export_config_loop_content cd config_files w1) as
    (w2 & Hloop & Hbelow2 & [[es2 Hes2] Hflat2] & Hother & Hin); [|exact Hflat|].
  { intros f Hf. rewrite <- (app_nil_r cd).
    apply Hdiv. now apply config_files_not_backups. }
  erewrite bind_ok by exact Hloop.
  assert (Hs2 : lookup (cd // "searxng") (fs w2) = None).
  { rewrite Hother.
    - subst w1. cbn [fs].
      eapply lookup_below_put_empty; [|apply child_not_nil].
      unfold cd. rewrite parent_child. eassumption.
    - intros Hin'. now apply config_files_not_searxng in Hin'. }
  assert (Hgoal : forall w3,
            (forall q, diverge (cd // "searxng") q ->
               lookup q (fs w3) = lookup q (fs w2)) ->
            forall f d, In f config_files -> lookup [f] (fs w) = Some (File d) ->
              lookup (cd // f) (fs w3) = Some (File d)).
  { intros w3 H3 f d Hf Hsrc. rewrite H3.
    - apply (Hin f d Hf). rewrite Hsrc1; [exact Hsrc|].
      now apply config_files_not_backups.
    - apply diverge_children. intros Heq. symmetry in Heq.
      now apply config_files_not_searxng in Heq. }
  unfold export_searxng. unfold bind at 1. rewrite path_exists_run.
  destruct (exists_ ["searxng"%string; "settings.yml"%string] (fs w2)).
  - unfold bind at 1. rewrite mkdir_exist_ok_run, Hs2, parent_child, Hes2.
    unfold bind at 1. rewrite cp_run. rewrite print_run.
    eexists. split; [reflexivity|]. split.
    + cbn [fs]. apply cp_keeps_dir with (es := set_entry "searxng" (Dir []) es2).
      now apply put_child_dir.
    + apply Hgoal. intros q Hq. cbn [fs].
      rewrite cp_effect_div by exact Hq. now apply lookup_put_div.
  - eexists. split; [reflexivity|]. split; [eauto|]. apply Hgoal. reflexivity.
Qed.

Lemma lookup_in_tree p q n tree :
  lookup p n = Some tree -> lookup (p ++ q) n = lookup q tree.
Proof. intros H. now rewrite lookup_app, H. Qed.

(** What a completed export on a new scratch directory leaves: the
    archive of a tree with the manifest and the configuration files, and
    its sidecar. *)
Lemma export_archive_content E output format w p w' :
  let output_name := chosen_name E output in
  let archive_path := backup_dir // (output_name ++ ".tar.gz")%string in
  let sidecar := backup_dir // ((output_name ++ ".tar.gz") ++ ".sha256")%string in
  lookup (backup_dir // output_name) (fs w) = None ->
  export_environment E output format w = (Ok p, w') ->
  exists es manifest,
    let archive := targz_pack E [(output_name, Dir es)] in
    p = archive_path
    /\ lookup archive_path (fs w') = Some (File archive)
    /\ lookup sidecar (fs w')
       = Some (File (sidecar_text E archive (output_name ++ ".tar.gz")))
    /\ lookup ["manifest.json"%string] (Dir es) = Some (File (dumps (JObj manifest)))
    /\ wf_json (JObj manifest) = true
    /\ (exists ces, lookup ["configs"%string] (Dir es) = Some (Dir ces))
    /\ (forall f d, In f config_files -> lookup [f] (fs w) = Some (File d) ->
          lookup ["configs"%string; f] (Dir es) = Some (File d)).
Proof.
  intros output_name ap sidecar Hfresh H.
  unfold export_environment in H. fold output_name in H.
  set (export_dir := backup_dir // output_name) in *. fold ap in H.
  (* the header *)
  unfold bind at 1 in H. rewrite print_header_run in H.
  set (w0 := mkWorld _ _ _) in H.
  (* the scratch directory *)
  run_inv H as u1 w1 H1. destruct u1.
  destruct (mkdir_ok_spec _ _ _ (child_not_nil _ _) H1)
    as ([es1 Hes1] & Hsame1 & Hbelow1 & _ & _).
  assert (Hnone1 : forall c, lookup (export_dir // c) (fs w1) = None).
  { intros c. unfold child at 1. rewrite Hsame1.
    rewrite lookup_app. subst w0. cbn [fs]. fold export_dir. now rewrite Hfresh. }
  (* the manifest *)
  run_inv H as u2 w2 H2. destruct u2.
  destruct (export_metadata_spec _ _ _ _ _ _ H2) as (Hbelow2 & _ & Hok2 & _).
  destruct (Hok2 eq_refl) as (rps & rls & _ & _ & Hman & _). clear Hok2.
  destruct (parent_is_dir _ _ _ _ Hman) as [es2 Hes2].
  (* the configuration files *)
  run_inv H as u3 w3 H3. destruct u3.
  destruct (export_configs_content output_name [] w2) as (w3' & H3' & [ces Hces] & Hconf).
  { rewrite app_nil_r. eauto. }
  { rewrite app_nil_r. rewrite Hbelow2 by (apply diverge_children; discriminate).
    apply Hnone1. }
  rewrite app_nil_r in H3', Hconf, Hces. fold export_dir in H3', Hconf, Hces.
  rewrite H3' in H3. injection H3 as <-.
  destruct (export_configs_step _ _ _ _ H3') as [Hbelow3 _].
  (* the volumes *)
  run_inv H as u4 w4 H4. destruct u4.
  assert (Hbelow4 : writes_below (export_dir // "volumes") w3' w4).
  { destruct (String.eqb format "full").
    - eapply below_export_volumes. eassumption.
    - injection H4 as <-. apply writes_below_refl. }
  (* the archive *)
  run_inv H as u5 w5 H5. destruct u5.
  destruct (create_tarball_spec _ _ _ _ _ _ _ _
              (diverge_sym _ _ (scratch_not_archive output_name [])) H5)
    as (_ & _ & Hok5 & _).
  rewrite app_nil_r in Hok5. fold export_dir ap in Hok5.
  destruct (Hok5 eq_refl) as (tree & Htree & Harch & _). clear Hok5.
  (* the checksum, the cleanup and the summary *)
  run_inv H as checksum w6 H6.
  destruct (write_checksum_spec _ _ _ _ _ _ H6) as (Hbelow6 & _ & Hok6 & _).
  fold ap sidecar in Hbelow6, Hok6.
  destruct (Hok6 _ eq_refl) as (data & Hdata & _ & Hside & _). clear Hok6.
  rewrite Harch in Hdata. injection Hdata as <-.
  unfold bind at 1 in H. rewrite rm_rf_run in H.
  set (w7 := mkWorld _ _ _) in H.
  run_inv H as u8 w8 H8.
  destruct (print_export_summary_spec _ _ _ _ _ _ H8) as (Hf8 & _ & _).
  injection H as <- <-.
  (* the manifest and the configuration files are in the tree *)
  assert (Hman4 : lookup (export_dir // "manifest.json") (fs w4)
                  = Some (File (dumps (JObj (dict_update
                       (default_metadata E format (names_if_ok rps) (names_if_ok rls))
                       (bootstrap_of (fs w1))))))).
  { rewrite Hbelow4 by (apply diverge_children; discriminate).
    rewrite Hbelow3 by (apply diverge_children; discriminate). exact Hman. }
  destruct tree as [d|es].
  { apply parent_is_dir in Hman4. destruct Hman4 as [es' Hes']. congruence. }
  exists es. eexists. cbv zeta.
  split; [reflexivity|]. split; [|split; [|split; [|split; [|split]]]].
  - rewrite Hf8. subst w7. cbn [fs].
    rewrite lookup_remove_div by apply (scratch_not_archive output_name []).
    rewrite Hbelow6 by (apply diverge_sym, archive_not_sidecar). exact Harch.
  - rewrite Hf8. subst w7. cbn [fs].
    rewrite lookup_remove_div by apply (scratch_not_sidecar output_name []).
    exact Hside.
  - rewrite <- (lookup_in_tree export_dir _ _ _ Htree). exact Hman4.
  - apply dict_update_wf; [apply default_metadata_wf|apply bootstrap_of_wf].
  - exists ces. rewrite <- (lookup_in_tree export_dir _ _ _ Htree).
    change (export_dir ++ ["configs"%string]) with (export_dir // "configs").
    rewrite Hbelow4 by (apply diverge_children; discriminate). exact Hces.
  - intros f d Hf Hsrc.
    rewrite <- (lookup_in_tree export_dir _ _ _ Htree).
    change (export_dir ++ ["configs"%string; f]) with (export_dir // "configs" // f).
    rewrite Hbelow4 by (apply (entries_part output_name); discriminate).
    apply (Hconf f d Hf).
    rewrite Hbelow2, Hbelow1; [exact Hsrc| |].
    + exists [], "backups"%string, f, [output_name], []. repeat split.
      intros Heq. symmetry in Heq. now apply config_files_not_backups in Heq.
    + exists [], "backups"%string, f, [output_name; "manifest.json"%string], [].
      repeat split.
      intros Heq. symmetry in Heq. now apply config_files_not_backups in Heq.
Qed.

Lemma cp_restores src e d n :
  (exists es, n = Dir es) ->
  lookup src n = Some (File d) -> is_dir [e] n = false ->
  lookup [e] (cp_effect src [e] n) = Some (File d).
Proof.
  intros [es ->] Hsrc Hnd. unfold cp_effect. rewrite Hsrc.
  unfold is_dir in Hnd.
  destruct (lookup [e] (Dir es)) as [[d'|es']|]; try discriminate;
    apply lookup_put_same; try discriminate; eexists; reflexivity.
Qed.

Lemma root_is_dir n : lookup extract_dir n <> None -> exists es, n = Dir es.
Proof.
  destruct n as [d|es]; [|eauto]. intros H. exfalso. apply H. reflexivity.
Qed.

(** The loop of [restore_configs]: each entry that is a regular file is,
    after the loop, in the working directory under its name, unless a
    directory stood there. *)
Lemma restore_loop_content q0 (names : list string) n0 :
  let config_dir := extract_dir ++ q0 in
  forall w w',
    lookup extract_dir n0 <> None ->
    (forall q, lookup (extract_dir ++ q) (fs w) = lookup (extract_dir ++ q) n0) ->
    for_each (map (child config_dir) names) restore_config_file w = (Ok tt, w') ->
    forall f d,
      In f names -> lookup (config_dir // f) n0 = Some (File d) ->
      f <> "backups"%string -> is_dir [f] (fs w) = false ->
      lookup [f] (fs w') = Some (File d).
Proof.
  intros config_dir. induction names as [|e names IH];
    intros w w' Hs Hinv Hrun f d Hf Hd Hb Hnd; [contradiction|].
  cbn [map for_each] in Hrun.
  assert (Hsame : lookup (config_dir // e) (fs w) = lookup (config_dir // e) n0).
  { unfold config_dir, child. rewrite <- !app_assoc. apply Hinv. }
  unfold bind at 1 in Hrun. rewrite restore_config_file_run in Hrun.
  unfold is_file in Hrun. rewrite Hsame in Hrun.
  destruct (lookup (config_dir // e) n0) as [[de|ees]|] eqn:He.
  - rewrite name_child in Hrun.
    set (w1 := mkWorld _ _ _) in Hrun.
    assert (Hinv1 : forall q, lookup (extract_dir ++ q) (fs w1)
                              = lookup (extract_dir ++ q) n0).
    { intros q. subst w1. cbn [fs].
      rewrite <- (name_child config_dir e) at 2.
      rewrite cp_effect_scratch; [apply Hinv|].
      specialize (Hinv []). rewrite app_nil_r in Hinv. now rewrite Hinv. }
    assert (Hroot : exists es, fs w = Dir es).
    { apply root_is_dir. specialize (Hinv []). rewrite app_nil_r in Hinv.
      now rewrite Hinv. }
    destruct (in_dec string_dec f names) as [Hin|Hnot].
    + apply (IH w1 w' Hs Hinv1 Hrun f d Hin Hd Hb).
      subst w1. cbn [fs]. destruct (string_dec f e) as [->|Hne].
      * unfold is_dir. now rewrite (cp_restores _ _ de _ Hroot Hsame Hnd).
      * unfold is_dir. rewrite cp_effect_elsewhere by exact Hne. exact Hnd.
    + destruct Hf as [->|Hf]; [|contradiction].
      rewrite He in Hd. injection Hd as ->.
      destruct (restore_loop q0 names n0 w1 Hs Hinv1) as (w'' & Hrun' & _ & _ & Hframe).
      fold config_dir in Hrun'. rewrite Hrun in Hrun'. injection Hrun' as <-.
      rewrite Hframe.
      * subst w1. cbn [fs]. now apply cp_restores.
      * intros Hin. apply filter_In in Hin. now destruct Hin.
  - destruct Hf as [->|Hf]; [congruence|]. now apply (IH w w' Hs Hinv Hrun f d).
  - destruct Hf as [->|Hf]; [congruence|]. now apply (IH w w' Hs Hinv Hrun f d).
Qed.

Lemma assoc_del_entry_same k es : assoc k (del_entry k es) = None.
Proof.
  induction es as [|[k' x] es IH]; cbn; [reflexivity|].
  destruct (String.eqb k k') eqn:H; [exact IH|]. cbn. now rewrite H.
Qed.

Lemma assoc_in k es x : assoc k es = Some x -> In k (map fst es).
Proof.
  induction es as [|[k' y] es IH]; cbn; [discriminate|].
  destruct (String.eqb_spec k k') as [->|]; [now left|]. intros H. right. now apply IH.
Qed.

Lemma print_backup_info_object E d w :
  exists lines,
    print_backup_info E (JObj d) w
    = (Ok tt, mkWorld (fs w) (trace w) (out w ++ lines)).
Proof.
  unfold print_backup_info, manifest_get, bind, ret. rewrite !print_run.
  cbn [fs trace out]. rewrite <- !app_assoc. eexists. reflexivity.
Qed.

Lemma next_steps_run w :
  for_each import_next_steps print w
  = (Ok tt, mkWorld (fs w) (trace w) (out w ++ import_next_steps)).
Proof.
  unfold import_next_steps. cbn [for_each]. unfold bind, ret. rewrite !print_run.
  cbn [fs trace out]. rewrite <- !app_assoc. reflexivity.
Qed.

Lemma verify_checksum_exported E dir c w archive :
  lookup (dir // c) (fs w) = Some (File archive) ->
  lookup (dir // (c ++ ".sha256")%string) (fs w)
  = Some (File (sidecar_text E archive c)) ->
  sha256_hexdigest E archive <> EmptyString ->
  no_space (sha256_hexdigest E archive) = true ->
  verify_checksum E (dir // c) w
  = (Ok true,
     mkWorld (fs w) (trace w)
       (out w ++ ["🔐 Verifying checksum..."%string; "✓ Checksum verified"%string])).
Proof.
  intros Hfile Hside Hne Hclean.
  unfold verify_checksum. rewrite add_suffix_child.
  erewrite bind_ok by (eapply path_exists_true; eassumption). cbv beta iota.
  erewrite bind_ok by apply print_run.
  erewrite bind_ok by (apply read_file_ok; cbn [fs]; eassumption).
  unfold sidecar_text.
  change (sha256_hexdigest E archive ++ "  " ++ c ++ nl)%string
    with (sha256_hexdigest E archive ++ String " " (" " ++ c ++ nl))%string.
  rewrite first_word_of_line by assumption. cbv beta iota.
  erewrite bind_ok by (apply read_file_ok; cbn [fs]; eassumption).
  rewrite String.eqb_refl.
  erewrite bind_ok by apply print_run.
  unfold ret. cbn [fs trace out]. now rewrite <- app_assoc.
Qed.

(** The extraction of an archive that holds one directory, where no
    scratch directory is. *)
Lemma extract_one_root E b w root es archive :
  targz_unpack E archive = Some [(root, Dir es)] ->
  diverge extract_dir b ->
  lookup b (fs w) = Some (File archive) ->
  (exists bes, lookup backup_dir (fs w) = Some (Dir bes)) ->
  lookup extract_dir (fs w) = None ->
  exists n3,
    extract_archive E b w
    = (Ok (Some (extract_dir // root)),
       mkWorld n3 (trace w) (out w ++ [(nl ++ "📦 Extracting backup archive...")%string]))
    /\ lookup extract_dir n3 = Some (Dir [(root, Dir es)])
    /\ (forall g rest, g <> "backups"%string ->
          lookup (g :: rest) n3 = lookup (g :: rest) (fs w)).
Proof.
  intros Hunpack Hdiv Hfile [bes Hbes] Hnone.
  unfold extract_archive.
  erewrite bind_ok by apply print_run.
  unfold bind at 1. rewrite mkdir_exist_ok_run. cbn [fs trace out].
  rewrite Hnone. change (parent extract_dir) with backup_dir. rewrite Hbes.
  set (n1 := put extract_dir (Dir []) (fs w)).
  assert (Hscratch1 : lookup extract_dir n1 = Some (Dir [])).
  { unfold n1, extract_dir. eapply lookup_put_child. eassumption. }
  assert (Hbes1 : exists bes1, lookup backup_dir n1 = Some (Dir bes1)).
  { unfold n1, extract_dir. rewrite (put_child_dir _ _ _ _ _ Hbes). eauto. }
  unfold tar_extractall.
  unfold bind at 1. unfold bind at 1. rewrite read_file_run. cbn [fs trace out].
  unfold n1 at 1. rewrite (lookup_put_div _ _ _ _ Hdiv), Hfile, Hunpack.
  unfold bind at 1. unfold get_fs at 1. cbn [fs trace out]. rewrite Hscratch1.
  change (overlay (Dir [(root, Dir es)]) (Dir [])) with (Dir [(root, Dir es)]).
  unfold set_fs at 1. cbn [fs trace out].
  set (n3 := put extract_dir (Dir [(root, Dir es)]) n1).
  assert (Hscratch3 : lookup extract_dir n3 = Some (Dir [(root, Dir es)])).
  { unfold n3. apply lookup_put_same; [discriminate|exact Hbes1]. }
  assert (Hroot3 : lookup (extract_dir // root) n3 = Some (Dir es)).
  { rewrite lookup_child, Hscratch3. cbn [assoc]. now rewrite String.eqb_refl. }
  unfold bind at 1. rewrite iterdir_run. cbn [fs trace out].
  rewrite Hscratch3. cbn [map fst].
  unfold bind at 1. unfold get_fs at 1. cbn [fs trace out filter].
  unfold is_dir at 1. rewrite Hroot3. unfold ret.
  exists n3. split; [reflexivity|]. split; [exact Hscratch3|].
  intros g rest Hg. unfold n3, n1.
  assert (Hd : diverge extract_dir (g :: rest)).
  { exists [], "backups"%string, g, ["restore_temp"%string], rest.
    repeat split. congruence. }
  now rewrite !lookup_put_div by exact Hd.
Qed.

(** [restore_configs] where configs is a directory of the backup root. *)
Lemma restore_configs_content root w ces :
  let config_dir := extract_dir // root // "configs" in
  lookup extract_dir (fs w) <> None ->
  lookup config_dir (fs w) = Some (Dir ces) ->
  exists w',
    restore_configs (extract_dir // root) w = (Ok tt, w')
    /\ (forall q, lookup (extract_dir ++ q) (fs w') = lookup (extract_dir ++ q) (fs w))
    /\ (forall f d,
          lookup (config_dir // f) (fs w) = Some (File d) ->
          f <> "backups"%string -> is_dir [f] (fs w) = false ->
          lookup [f] (fs w') = Some (File d)).
Proof.
  intros config_dir Hs Hcd. unfold restore_configs. fold config_dir.
  erewrite bind_ok by apply print_run.
  set (w0 := mkWorld (fs w) (trace w) _).
  erewrite bind_ok by (eapply path_exists_true; exact Hcd). cbv beta iota.
  unfold bind at 1. rewrite iterdir_run.
  change (fs w0) with (fs w). rewrite Hcd.
  assert (Hcdq : config_dir = extract_dir ++ [root; "configs"%string]).
  { unfold config_dir, child. now rewrite <- app_assoc. }
  replace (map (fun e => config_dir // fst e) ces)
    with (map (child (extract_dir ++ [root; "configs"%string])) (map fst ces))
    by (rewrite map_map, Hcdq; reflexivity).
  destruct (restore_loop [root; "configs"%string] (map fst ces) (fs w) w0 Hs)
    as (w5 & Hrun & _ & Hinv5 & _); [reflexivity|].
  pose proof (restore_loop_content [root; "configs"%string] (map fst ces) (fs w)
                w0 w5 Hs (fun q => eq_refl) Hrun) as Hcontent.
  exists w5. split; [exact Hrun|]. split; [exact Hinv5|].
  intros f d Hf Hb Hnd. apply (Hcontent f d).
  - rewrite lookup_child, Hcd in Hf. eapply assoc_in. eassumption.
  - rewrite <- Hcdq. exact Hf.
  - exact Hb.
  - exact Hnd.
Qed.

(** The import, without the volumes, of an archive that holds one
    directory with a manifest and a directory configs, into a working
    directory without scratch directory. *)
Lemma import_of_one_root E b w root es ces manifest archive lines :
  targz_unpack E archive = Some [(root, Dir es)] ->
  diverge extract_dir b ->
  lookup b (fs w) = Some (File archive) ->
  (forall w0, fs w0 = fs w ->
     verify_checksum E b w0
     = (Ok true, mkWorld (fs w0) (trace w0) (out w0 ++ lines))) ->
  (exists bes, lookup backup_dir (fs w) = Some (Dir bes)) ->
  lookup extract_dir (fs w) = None ->
  lookup ["manifest.json"%string] (Dir es) = Some (File (dumps (JObj manifest))) ->
  wf_json (JObj manifest) = true ->
  lookup ["configs"%string] (Dir es) = Some (Dir ces) ->
  exists w',
    import_environment E b true w = (Ok true, w')
    /\ lookup extract_dir (fs w') = None
    /\ (forall f d,
          lookup ["configs"%string; f] (Dir es) = Some (File d) ->
          f <> "backups"%string -> is_dir [f] (fs w) = false ->
          lookup [f] (fs w') = Some (File d)).
Proof.
  intros Hunpack Hdiv Hfile Hverify [bes Hbes] Hnone Hman Hwf Hconfigs.
  rewrite import_environment_start.
  erewrite bind_ok by (eapply path_exists_true; cbn [fs]; eassumption).
  cbn [negb]. erewrite bind_ok by (apply Hverify; reflexivity).
  cbn [negb fs trace out].
  (* the extraction *)
  destruct (extract_one_root E b
              (mkWorld (fs w) (trace w) ((out w ++ import_header) ++ lines))
              root es archive Hunpack Hdiv Hfile (ex_intro _ bes Hbes) Hnone)
    as (n3 & Hextract & Hscratch3 & Hout3).
  erewrite bind_ok by exact Hextract. cbn [fs trace out].
  assert (Hroot3 : lookup (extract_dir // root) n3 = Some (Dir es)).
  { rewrite lookup_child, Hscratch3. cbn [assoc]. now rewrite String.eqb_refl. }
  (* the manifest *)
  set (w3 := mkWorld n3 _ _).
  erewrite bind_ok;
    [| apply (read_manifest_run _ w3 (dumps (JObj manifest)) (JObj manifest));
       [ subst w3; cbn [fs]; unfold child at 1;
         rewrite (lookup_in_tree _ _ _ _ Hroot3); exact Hman
       | now apply loads_dumps ] ].
  (* the restoration *)
  unfold restore_backup.
  destruct (print_backup_info_object E manifest w3) as [info Hinfo].
  erewrite bind_ok by exact Hinfo.
  set (w4 := mkWorld (fs w3) _ _).
  assert (Hs4 : lookup extract_dir (fs w4) <> None).
  { subst w4 w3. cbn [fs]. rewrite Hscratch3. discriminate. }
  assert (Hcd : lookup (extract_dir // root // "configs") (fs w4) = Some (Dir ces)).
  { subst w4 w3. cbn [fs]. unfold child at 1.
    rewrite (lookup_in_tree _ _ _ _ Hroot3). exact Hconfigs. }
  destruct (restore_configs_content root w4 ces Hs4 Hcd)
    as (w5 & Hrun & Hinv5 & Hcontent).
  erewrite bind_ok by exact Hrun.
  (* no volumes, the cleanup and the last lines *)
  unfold restore_volumes. cbn [negb andb]. unfold bind at 1. unfold ret at 1.
  unfold bind at 1. rewrite rm_rf_run.
  unfold bind at 1. rewrite next_steps_run. unfold ret. cbn [fs trace out].
  eexists. split; [reflexivity|]. cbn [fs]. split.
  - assert (Hbes5 : exists bes5, lookup backup_dir (fs w5) = Some (Dir bes5)).
    { specialize (Hinv5 []). rewrite app_nil_r in Hinv5.
      destruct (lookup extract_dir (fs w4)) as [x4|] eqn:H4; [|congruence].
      apply (parent_is_dir backup_dir "restore_temp" _ x4). exact Hinv5. }
    destruct Hbes5 as [bes5 Hbes5].
    unfold extract_dir. rewrite lookup_child.
    assert (Hrm : lookup backup_dir (remove (backup_dir // "restore_temp") (fs w5))
                  = Some (Dir (del_entry "restore_temp" bes5))).
    { unfold backup_dir, child in *. cbn [app lookup remove] in *.
      destruct (fs w5) as [d5|es5]; [discriminate|].
      destruct (assoc "backups" es5) as [[d|sub]|] eqn:Hb; try discriminate.
      injection Hbes5 as ->. cbn [lookup]. now rewrite assoc_set_entry_same. }
    fold extract_dir in Hrm. unfold extract_dir in Hrm. rewrite Hrm.
    apply assoc_del_entry_same.
  - intros f d Hf Hb Hnd.
    rewrite (lookup_remove_diverge [] "backups"%string f ["restore_temp"%string] [])
      by congruence.
    apply (Hcontent f d).
    + unfold child at 1. rewrite (lookup_in_tree _ _ _ _ Hcd).
      change ["configs"%string; f] with (["configs"%string] ++ [f]) in Hf.
      rewrite (lookup_in_tree _ _ _ _ Hconfigs) in Hf. exact Hf.
    + exact Hb.
    + subst w4 w3. cbn [fs]. unfold is_dir. rewrite Hout3 by exact Hb. exact Hnd.
Qed.

(** ** The files an import restores *)







(** ** The archive format of the examples *)

Lemma read_number_number n rest :
  Tar.read_number (Tar.number n ++ rest)%string = Some (n, rest).
Proof.
  unfold Tar.number. induction n as [|n IH]; [reflexivity|].
  cbn [repeat_char append Tar.read_number].
  change (Ascii.eqb "1" "0") with false. change (Ascii.eqb "1" "1") with true.
  cbv iota. cbn [append] in IH. now rewrite IH.
Qed.

Lemma read_chars_append s rest :
  Tar.read_chars (String.length s) (s ++ rest)%string = Some (s, rest).
Proof. induction s as [|c s IH]; cbn; [reflexivity|now rewrite IH]. Qed.

Lemma read_text_text s rest :
  Tar.read_text (Tar.text s ++ rest)%string = Some (s, rest).
Proof.
  unfold Tar.read_text, Tar.text. rewrite append_assoc, read_number_number.
  apply read_chars_append.
Qed.

Lemma height_pos x : 1 <= height x.
Proof. destruct x; cbn; lia. Qed.

Lemma max_bounds (l : list (string * node)) e :
  In e l -> height (snd e) <= fold_right (fun e acc => Nat.max (height (snd e)) acc) 0 l.
Proof.
  induction l as [|e0 l IH]; [contradiction|]. cbn [fold_right].
  intros [<-|H]; [lia|]. specialize (IH H). lia.
Qed.

Lemma read_entries_text read l : forall rest,
  (forall e r, In e l -> read (Tar.node_text (snd e) ++ r)%string = Some (snd e, r)) ->
  Tar.read_entries read (List.length l) (Tar.entries_text Tar.node_text l ++ rest)%string
  = Some (l, rest).
Proof.
  induction l as [|[k y] l IH]; intros rest Hread; [reflexivity|].
  cbn [List.length Tar.entries_text Tar.read_entries].
  rewrite !append_assoc, read_text_text.
  rewrite (Hread (k, y) _ (or_introl eq_refl)).
  rewrite IH; [reflexivity|]. intros e r He. apply Hread. now right.
Qed.

Lemma read_node_text fuel : forall x rest,
  height x <= fuel ->
  Tar.read_node fuel (Tar.node_text x ++ rest)%string = Some (x, rest).
Proof.
  induction fuel as [|fuel IH]; intros x rest Hh.
  { pose proof (height_pos x). lia. }
  destruct x as [data|es].
  - cbn [Tar.node_text append Tar.read_node].
    change (Ascii.eqb "F" "F") with true. cbv iota. now rewrite read_text_text.
  - cbn [Tar.node_text append Tar.read_node].
    change (Ascii.eqb "D" "F") with false. change (Ascii.eqb "D" "D") with true.
    cbv iota. rewrite append_assoc, read_number_number.
    rewrite read_entries_text; [reflexivity|].
    intros e r He. apply IH. cbn [height] in Hh.
    pose proof (max_bounds es e He). lia.
Qed.

Lemma length_entries_text l :
  (forall e, In e l -> height (snd e) <= String.length (Tar.node_text (snd e))) ->
  fold_right (fun e acc => Nat.max (height (snd e)) acc) 0 l
  <= String.length (Tar.entries_text Tar.node_text l).
Proof.
  induction l as [|[k y] l IH]; intros Hall; cbn [fold_right Tar.entries_text]; [lia|].
  rewrite !length_append. cbn [snd].
  pose proof (Hall (k, y) (or_introl eq_refl)) as Hy. cbn [snd] in Hy.
  specialize (IH (fun e He => Hall e (or_intror He))). lia.
Qed.

Lemma height_le_length n : forall x,
  height x <= n -> height x <= String.length (Tar.node_text x).
Proof.
  induction n as [|n IH]; intros x Hn.
  { pose proof (height_pos x). lia. }
  destruct x as [data|es]; [cbn; lia|].
  cbn [height Tar.node_text] in *. rewrite !length_append. cbn [String.length].
  assert (H : fold_right (fun e acc => Nat.max (height (snd e)) acc) 0 es
              <= String.length (Tar.entries_text Tar.node_text es)).
  { apply length_entries_text. intros e He. apply IH.
    pose proof (max_bounds es e He). lia. }
  lia.
Qed.

(** Unpacking what was packed gives the members back. *)
Lemma tar_unpack_pack members : Tar.unpack (Tar.pack members) = Some members.
Proof.
  unfold Tar.unpack, Tar.pack.
  rewrite <- (append_empty (Tar.node_text (Dir members))) at 2.
  rewrite read_node_text; [reflexivity|].
  apply (height_le_length (height (Dir members))). lia.
Qed.

Lemma archive_name_not_scratch s : (s ++ ".tar.gz")%string <> "restore_temp"%string.
Proof.
  intros H. apply (f_equal (fun x => rev_string x EmptyString)) in H.
  rewrite rev_string_append in H. cbn in H. discriminate.
Qed.

(** X10.  What an export saves, an import brings back.  Take an export
    under a plain name that completes, on a scratch directory that did
    not exist, and then
    any state of the working directory that still has the archive and its
    sidecar under backups and has no scratch directory restore_temp.
    Where unpacking inverts packing and digests are words, the import of
    that archive with skip-volumes returns True, removes its scratch
    directory, and leaves every configuration file of the export list
    that was a regular file at the time of the export with the content it
    had then (unless a directory now stands under its name). *)
Theorem config_files_survive_export_and_import :
  forall E output format w archive_path w1 w2,
    (forall members, targz_unpack E (targz_pack E members) = Some members) ->
    (forall data, sha256_hexdigest E data <> EmptyString
                  /\ no_space (sha256_hexdigest E data) = true) ->
    plain_name (chosen_name E output) = true ->
    lookup (backup_dir // chosen_name E output) (fs w) = None ->
    export_environment E output format w = (Ok archive_path, w1) ->
    lookup archive_path (fs w2) = lookup archive_path (fs w1) ->
    lookup (add_suffix archive_path ".sha256") (fs w2)
    = lookup (add_suffix archive_path ".sha256") (fs w1) ->
    lookup extract_dir (fs w2) = None ->
    exists w3,
      import_environment E archive_path true w2 = (Ok true, w3)
      /\ lookup extract_dir (fs w3) = None
      /\ forall f d,
           In f config_files -> lookup [f] (fs w) = Some (File d) ->
           is_dir [f] (fs w2) = false ->
           lookup [f] (fs w3) = Some (File d).
Proof.
  intros E output format w p w1 w2 Hunpack Hdigest _ Hfresh Hexport Harch Hside Hnone.
  destruct (export_archive_content _ _ _ _ _ _ Hfresh Hexport)
    as (es & manifest & -> & Harch1 & Hside1 & Hman & Hwf & [ces Hces] & Hconf).
  cbv zeta in Harch1, Hside1.
  set (output_name := chosen_name E output) in *.
  set (archive := targz_pack E [(output_name, Dir es)]) in *.
  rewrite add_suffix_child in Hside.
  rewrite Harch1 in Harch. rewrite Hside1 in Hside.
  destruct (Hdigest archive) as [Hne Hclean].
  destruct (import_of_one_root E (backup_dir // (output_name ++ ".tar.gz")%string) w2
              output_name es ces manifest archive
              ["🔐 Verifying checksum..."%string; "✓ Checksum verified"%string])
    as (w3 & Hrun & Hgone & Hback); trivial.
  - apply Hunpack.
  - apply diverge_children. intros H. symmetry in H.
    now apply archive_name_not_scratch in H.
  - intros w0 Hfs. apply (verify_checksum_exported E backup_dir _ w0 archive);
      trivial; now rewrite Hfs.
  - eapply parent_is_dir. exact Harch.
  - exists w3. split; [exact Hrun|]. split; [exact Hgone|].
    intros f d Hf Hsrc Hnd. apply Hback; trivial.
    + now apply Hconf.
    + now apply config_files_not_backups.
Qed.

Lemma hex_digit_no_space n : is_space (hex_digit n) = false.
Proof.
  destruct n as [|p]; [reflexivity|].
  do 5 (try destruct p as [p|p|]; try reflexivity).
Qed.

Lemma demo_digest_is_a_word data :
  Demo.digest data <> EmptyString /\ no_space (Demo.digest data) = true.
Proof.
  unfold Demo.digest. cbv zeta. split; [discriminate|].
  cbn [no_space]. rewrite !hex_digit_no_space. reflexivity.
Qed.

(** In the example the file .env is changed between the export and the
    import. *)
Lemma config_files_survive_export_and_import_witness :
  let w := Demo.bare_site Demo.good_archive in
  let export := export_environment Tar.tar_env (Some "nightly"%string) "config" in
  let w2 := mkWorld (put [".env"%string] (File "POSTGRES_PASSWORD=lost")
                       (fs (Demo.after export w))) [] [] in
  export w = (Ok ["backups"%string; "nightly.tar.gz"%string], Demo.after export w)
  /\ lookup [".env"%string] (fs w) = Some (File "POSTGRES_PASSWORD=current")
  /\ lookup [".env"%string] (fs w2) = Some (File "POSTGRES_PASSWORD=lost")
  /\ exists w3,
      import_environment Tar.tar_env ["backups"%string; "nightly.tar.gz"%string] true w2
      = (Ok true, w3)
      /\ lookup extract_dir (fs w3) = None
      /\ forall f d,
           In f config_files -> lookup [f] (fs w) = Some (File d) ->
           is_dir [f] (fs w2) = false ->
           lookup [f] (fs w3) = Some (File d).
Proof.
  cbv zeta. split; [vm_compute; reflexivity|].
  split; [reflexivity|]. split; [vm_compute; reflexivity|].
  apply (config_files_survive_export_and_import Tar.tar_env (Some "nightly"%string)
           "config" (Demo.bare_site Demo.good_archive)
           ["backups"%string; "nightly.tar.gz"%string]
           (Demo.after (export_environment Tar.tar_env (Some "nightly"%string) "config")
              (Demo.bare_site Demo.good_archive))).
  - exact tar_unpack_pack.
  - exact demo_digest_is_a_word.
  - reflexivity.
  - reflexivity.
  - vm_compute. reflexivity.
  - vm_compute. reflexivity.
  - vm_compute. reflexivity.
  - vm_compute. reflexivity.
Defined.

(** ** [validate_environment] *)

Lemma var_issues_nil env_vars vars :
  flat_map (var_issues env_vars) vars = []
  <-> forallb (var_is_set env_vars) vars = true.
Proof.
  induction vars as [|v vars IH]; cbn [flat_map forallb]; [tauto|].
  unfold var_issues at 1, var_is_set at 1.
  destruct (vars_get v env_vars) as [value|]; [|split; discriminate].
  destruct (nonempty value), (startswith "generate-" value); cbn;
    try (split; discriminate); exact IH.
Qed.

Lemma check_env_file_run w :
  check_env_file w =
  match lookup [".env"%string] (fs w) with
  | None => (Ok [".env file not found"%string], w)
  | Some (Dir _) =>
      (Raise IsADirectoryError,
       mkWorld (fs w) (trace w) (out w ++ ["✓ .env file exists"%string]))
  | Some (File text) =>
      let issues := flat_map (var_issues (read_env text)) required_vars in
      (Ok issues,
       mkWorld (fs w) (trace w)
         (out w ++ "✓ .env file exists"%string
            :: match issues with
               | [] => ["✓ All required variables are set"%string]
               | _ => []
               end))
  end.
Proof.
  unfold check_env_file. unfold bind at 1. rewrite path_exists_run. unfold exists_.
  destruct (lookup [".env"%string] (fs w)) as [[text|es]|] eqn:Henv; cbn [negb].
  - unfold bind at 1. rewrite print_run.
    unfold bind at 1. rewrite read_file_run. cbn [fs trace out]. rewrite Henv.
    cbv zeta. destruct (flat_map (var_issues (read_env text)) required_vars).
    + unfold bind, ret. rewrite print_run. cbn [fs trace out].
      now rewrite <- app_assoc.
    + unfold bind, ret. reflexivity.
  - unfold bind at 1. rewrite print_run.
    unfold bind at 1. rewrite read_file_run. cbn [fs trace out]. now rewrite Henv.
  - reflexivity.
Qed.

Lemma check_tool_run E cmd installed missing issues w r :
  exec E cmd = Exits r ->
  check_tool E cmd installed missing issues w
  = (Ok (if Z.eqb (returncode r) 0 then issues else issues ++ [missing]),
     mkWorld (fs w) (trace w ++ [cmd])
       (out w ++ if Z.eqb (returncode r) 0 then [installed] else [])).
Proof.
  intros Hexec. unfold check_tool. unfold bind at 1.
  rewrite run_command_run, Hexec. cbv zeta.
  destruct (Z.eqb (returncode r) 0).
  - unfold bind, ret. rewrite print_run. reflexivity.
  - unfold ret. cbn [fs trace out]. now rewrite app_nil_r.
Qed.

Lemma check_optional_run E tools : forall warnings w,
  (forall tool, In tool tools -> exists r, exec E [tool; "--version"%string] = Exits r) ->
  exists warnings',
    check_optional E tools warnings w
    = (Ok warnings',
       mkWorld (fs w) (trace w ++ map (fun tool => [tool; "--version"%string]) tools)
         (out w)).
Proof.
  induction tools as [|tool tools IH]; intros warnings w Hexits.
  - exists warnings. cbn. rewrite app_nil_r. now destruct w.
  - cbn [check_optional map]. unfold bind at 1. rewrite run_command_run. cbv zeta.
    destruct (Hexits tool (or_introl eq_refl)) as [r ->].
    edestruct IH as [warnings' ->]; [intros t Ht; apply Hexits; now right|].
    exists warnings'. cbn [fs trace out]. now rewrite <- app_assoc.
Qed.

Lemma respects_print_validation issues warnings :
  respects silent (print_validation issues warnings).
Proof. unfold print_validation. silent_auto. Qed.

Lemma for_each_print_run (lines : list string) (f : string -> string) : forall w,
  for_each lines (fun line => print (f line)) w
  = (Ok tt, mkWorld (fs w) (trace w) (out w ++ map f lines)).
Proof.
  induction lines as [|line lines IH]; intros w; cbn [for_each map].
  - rewrite app_nil_r. now destruct w.
  - unfold bind. rewrite print_run, IH. cbn [fs trace out].
    now rewrite <- app_assoc.
Qed.

Lemma print_validation_ok issues warnings w :
  exists lines,
    print_validation issues warnings w
    = (Ok tt, mkWorld (fs w) (trace w) (out w ++ lines)).
Proof.
  unfold print_validation. unfold bind at 1. rewrite print_run.
  destruct issues as [|issue issues]; destruct warnings as [|warning warnings];
    unfold bind, ret; rewrite ?print_run, ?for_each_print_run;
    cbn [fs trace out]; rewrite ?print_run, ?for_each_print_run;
    cbn [fs trace out]; rewrite <- ?app_assoc; eexists; reflexivity.
Qed.

Lemma no_issue_is_ok (issues : list string) (ok : bool) :
  (issues = [] <-> ok = true) -> Nat.eqb (List.length issues) 0 = ok.
Proof.
  intros H. destruct issues as [|i issues]; destruct ok; trivial.
  - destruct H as [H _]. now specialize (H eq_refl).
  - destruct H as [_ H]. now specialize (H eq_refl).
Qed.

Lemma verdict_of_issues (issues : list string) (ok a b : bool) (ma mb : string) :
  (issues = [] <-> ok = true) ->
  Nat.eqb
    (List.length
       (if b then (if a then issues else issues ++ [ma])
        else (if a then issues else issues ++ [ma]) ++ [mb])) 0
  = (ok && a && b)%bool.
Proof.
  intros H. destruct a, b; rewrite ?length_app, ?andb_true_r, ?andb_false_r;
    cbn [List.length]; try (now apply no_issue_is_ok);
    rewrite ?Nat.add_1_r; try reflexivity;
    destruct (List.length issues); reflexivity.
Qed.

Lemma validate_tail E issues ok w1 r1 r2 :
  (issues = [] <-> ok = true) ->
  exec E ["docker"%string; "--version"%string] = Exits r1 ->
  exec E ["docker"%string; "compose"%string; "version"%string] = Exits r2 ->
  (forall tool, In tool ["sops"%string; "age"%string] ->
     exists r, exec E [tool; "--version"%string] = Exits r) ->
  exists w',
    bind (check_tool E ["docker"%string; "--version"%string] "✓ Docker is installed"
            "Docker is not installed or not running" issues)
      (fun issues =>
         bind (check_tool E ["docker"%string; "compose"%string; "version"%string]
                 "✓ Docker Compose is installed" "Docker Compose is not installed"
                 issues)
           (fun issues =>
              bind (check_optional E ["sops"%string; "age"%string] [])
                (fun warnings =>
                   bind (print_validation issues warnings)
                     (fun _ => ret (Nat.eqb (List.length issues) 0))))) w1
    = (Ok (ok && Z.eqb (returncode r1) 0 && Z.eqb (returncode r2) 0)%bool, w')
    /\ fs w' = fs w1
    /\ trace w' = trace w1 ++ validation_cmds.
Proof.
  intros Hok H1 H2 Htools.
  unfold bind at 1. rewrite (check_tool_run _ _ _ _ _ _ _ H1).
  unfold bind at 1. rewrite (check_tool_run _ _ _ _ _ _ _ H2). cbn [fs trace out].
  set (w3 := mkWorld _ _ _).
  destruct (check_optional_run E ["sops"%string; "age"%string] [] w3 Htools)
    as [warnings Hopt].
  unfold bind at 1. rewrite Hopt.
  set (w4 := mkWorld _ _ _).
  destruct (print_validation_ok
              (if Z.eqb (returncode r2) 0
               then (if Z.eqb (returncode r1) 0 then issues
                     else issues ++ ["Docker is not installed or not running"%string])
               else (if Z.eqb (returncode r1) 0 then issues
                     else issues ++ ["Docker is not installed or not running"%string])
                    ++ ["Docker Compose is not installed"%string])
              warnings w4) as [lines Hprint].
  unfold bind at 1. rewrite Hprint. unfold ret.
  rewrite (verdict_of_issues _ _ _ _ _ _ Hok).
  eexists. split; [reflexivity|]. subst w4 w3. cbn [fs trace map].
  split; [reflexivity|].
  unfold validation_cmds. rewrite <- ?app_assoc. reflexivity.
Qed.

(** X11.  The verdict of a validation.  Where .env is not a directory
    and the four programs asked for their version can be started and end,
    [validate_environment] returns True exactly when .env is a regular
    file that sets every required variable (to a value that is not empty
    and does not begin with generate-), docker exits with status 0 and
    docker compose exits with status 0.  What sops and age answer only
    makes warnings: it never changes the result.  The run issues the four
    commands in that order and changes no file. *)
Theorem validation_passes_exactly_when :
  forall E w r1 r2,
    is_dir [".env"%string] (fs w) = false ->
    exec E ["docker"%string; "--version"%string] = Exits r1 ->
    exec E ["docker"%string; "compose"%string; "version"%string] = Exits r2 ->
    (forall tool, In tool ["sops"%string; "age"%string] ->
       exists r, exec E [tool; "--version"%string] = Exits r) ->
    exists w',
      validate_environment E w
      = (Ok (env_file_ok (fs w) && Z.eqb (returncode r1) 0 && Z.eqb (returncode r2) 0)%bool,
         w')
      /\ fs w' = fs w
      /\ trace w' = trace w ++ validation_cmds.
Proof.
  intros E w r1 r2 Hnd H1 H2 Htools.
  unfold validate_environment.
  unfold bind at 1. rewrite print_header_run.
  unfold bind at 1. rewrite check_env_file_run. cbn [fs trace out].
  unfold env_file_ok, is_dir in *.
  destruct (lookup [".env"%string] (fs w)) as [[text|es]|]; [| discriminate |]; cbv zeta.
  - edestruct (validate_tail E (flat_map (var_issues (read_env text)) required_vars))
      as (w' & Hrun & Hfs & Htrace); [apply var_issues_nil|exact H1|exact H2|exact Htools|].
    exists w'. split; [exact Hrun|]. split; assumption.
  - edestruct (validate_tail E [".env file not found"%string] false)
      as (w' & Hrun & Hfs & Htrace); [split; discriminate|exact H1|exact H2|exact Htools|].
    exists w'. split; [exact Hrun|]. split; assumption.
Qed.

Lemma validation_passes_exactly_when_witness :
  env_file_ok (fs Examples.ready_site) = true
  /\ exists w',
      validate_environment (Examples.env_with Examples.docker_only) Examples.ready_site
      = (Ok (env_file_ok (fs Examples.ready_site)
             && Z.eqb (returncode (mkCompleted 0 "Docker version 27" EmptyString)) 0
             && Z.eqb (returncode (mkCompleted 0 "Docker version 27" EmptyString)) 0)%bool,
         w')
      /\ fs w' = fs Examples.ready_site
      /\ trace w' = trace Examples.ready_site ++ validation_cmds.
Proof.
  split; [vm_compute; reflexivity|].
  apply (validation_passes_exactly_when (Examples.env_with Examples.docker_only)
           Examples.ready_site).
  - reflexivity.
  - reflexivity.
  - reflexivity.
  - intros tool [<-|[<-|[]]]; eexists; reflexivity.
Defined.

(** ** The reading of .env *)

Lemma vars_get_set_same k v d : vars_get k (vars_set k v d) = Some v.
Proof.
  induction d as [|[k0 v0] d IH]; cbn.
  - now rewrite String.eqb_refl.
  - destruct (String.eqb k k0) eqn:Hk; cbn; [now rewrite String.eqb_refl|].
    now rewrite Hk.
Qed.

Lemma vars_get_set_other k k' v d :
  k <> k' -> vars_get k (vars_set k' v d) = vars_get k d.
Proof.
  intros Hne. induction d as [|[k0 v0] d IH]; cbn.
  - destruct (String.eqb_spec k k'); [contradiction|reflexivity].
  - destruct (String.eqb_spec k' k0) as [<-|Hk0]; cbn.
    + destruct (String.eqb_spec k k'); [contradiction|reflexivity].
    + destruct (String.eqb k k0); [reflexivity|exact IH].
Qed.

Lemma read_env_lines var lines : forall env_vars,
  vars_get var (fold_left read_env_line lines env_vars)
  = fold_left (fun found line =>
                 match assigned var line with
                 | Some value => Some value
                 | None => found
                 end) lines (vars_get var env_vars).
Proof.
  induction lines as [|line lines IH]; intros env_vars; cbn [fold_left]; [reflexivity|].
  rewrite IH. f_equal. unfold read_env_line, assigned.
  destruct (is_assignment line); [|reflexivity].
  destruct (split_once "=" line) as [key value].
  destruct (String.eqb_spec var (strip key)) as [->|Hne].
  - apply vars_get_set_same.
  - now apply vars_get_set_other.
Qed.

(** X12.  The value that the validation sees for a variable is the one
    of the last line of .env that assigns it: a line counts when it has
    an equals sign and does not begin, after white space, with #; the
    name is what stands before the first equals sign and the value what
    stands after it, both without the white space around them. *)
Theorem env_value_is_the_last_assignment :
  forall text var,
    vars_get var (read_env text) = last_assigned var (file_lines text).
Proof. intros text var. unfold read_env, last_assigned. apply read_env_lines. Qed.

(** X13.  If one of the four programs that a validation asks for its
    version cannot be started (it is not installed), the validation does
    not report it: [subprocess.run] raises FileNotFoundError, which
    nothing catches, also for the tools called optional.  No file is
    changed. *)
Theorem validation_raises_when_a_program_is_missing :
  forall E w cmd,
    is_dir [".env"%string] (fs w) = false ->
    In cmd validation_cmds ->
    exec E cmd = NoSuchProgram ->
    (forall c, In c validation_cmds -> exec E c <> Overruns) ->
    exists w',
      validate_environment E w = (Raise FileNotFoundError, w')
      /\ fs w' = fs w.
Proof.
  intros E w cmd Hnd Hin Hmissing Hends.
  unfold validate_environment.
  unfold bind at 1. rewrite print_header_run.
  unfold bind at 1. rewrite check_env_file_run. cbn [fs trace out].
  assert (Hgo : forall issues (w1 : world),
            fs w1 = fs w ->
            exists w',
              bind (check_tool E ["docker"%string; "--version"%string]
                      "✓ Docker is installed"
                      "Docker is not installed or not running" issues)
                (fun issues =>
                   bind (check_tool E ["docker"%string; "compose"%string; "version"%string]
                           "✓ Docker Compose is installed"
                           "Docker Compose is not installed" issues)
                     (fun issues =>
                        bind (check_optional E ["sops"%string; "age"%string] [])
                          (fun warnings =>
                             bind (print_validation issues warnings)
                               (fun _ => ret (Nat.eqb (List.length issues) 0))))) w1
              = (Raise FileNotFoundError, w')
              /\ fs w' = fs w).
  { intros issues w1 Hfs.
    assert (H1 := Hends _ (or_introl eq_refl)).
    assert (H2 := Hends _ (or_intror (or_introl eq_refl))).
    assert (H3 := Hends _ (or_intror (or_intror (or_introl eq_refl)))).
    assert (H4 := Hends _ (or_intror (or_intror (or_intror (or_introl eq_refl))))).
    unfold check_tool. unfold bind at 1. unfold bind at 1. rewrite run_command_run.
    cbv zeta.
    destruct (exec E ["docker"%string; "--version"%string]) as [r1| |] eqn:E1;
      [| congruence | eexists; split; [reflexivity|exact Hfs] ].
    destruct (Z.eqb (returncode r1) 0).
    all: unfold bind at 1; rewrite ?print_run; unfold ret at 1; cbn [fs trace out].
    all: unfold bind at 1; unfold bind at 1; rewrite run_command_run; cbv zeta.
    all: destruct (exec E ["docker"%string; "compose"%string; "version"%string])
           as [r2| |] eqn:E2;
           [| congruence | eexists; split; [reflexivity|exact Hfs] ].
    all: destruct (Z.eqb (returncode r2) 0).
    all: unfold bind at 1; rewrite ?print_run; unfold ret at 1; cbn [fs trace out].
    all: cbn [check_optional].
    all: unfold bind at 1; unfold bind at 1; rewrite run_command_run; cbv zeta.
    all: destruct (exec E ["sops"%string; "--version"%string]) as [r3| |] eqn:E3;
           [| congruence | eexists; split; [reflexivity|exact Hfs] ].
    all: unfold bind at 1; rewrite run_command_run; cbv zeta.
    all: destruct (exec E ["age"%string; "--version"%string]) as [r4| |] eqn:E4;
           [| congruence | eexists; split; [reflexivity|exact Hfs] ].
    all: exfalso; destruct Hin as [<-|[<-|[<-|[<-|[]]]]]; congruence. }
  unfold is_dir in Hnd.
  destruct (lookup [".env"%string] (fs w)) as [[text|es]|]; [| discriminate |];
    cbv zeta; apply Hgo; reflexivity.
Qed.

Lemma validation_raises_when_a_program_is_missing_witness :
  exists w',
    validate_environment (Examples.env_with Examples.without_sops) Examples.ready_site
    = (Raise FileNotFoundError, w')
    /\ fs w' = fs Examples.ready_site.
Proof.
  apply (validation_raises_when_a_program_is_missing
           (Examples.env_with Examples.without_sops) Examples.ready_site
           ["sops"%string; "--version"%string]).
  - reflexivity.
  - right. right. left. reflexivity.
  - reflexivity.
  - intros c [<-|[<-|[<-|[<-|[]]]]]; discriminate.
Defined.

(** ** [main], every subcommand *)

Lemma init_run w es :
  lookup backup_dir (fs w) = Some (Dir es) -> mkdir_exist_ok backup_dir w = (Ok tt, w).
Proof. intros H. now rewrite mkdir_exist_ok_run, H. Qed.

(** X14.  Every subcommand begins by making the directory backups.
    Where a regular file stands under that name, each of them (also
    validate and decrypt, which have no use for the directory) raises
    FileExistsError before it has printed a line, run a command or
    changed a file; so does [main] on export and import. *)
Theorem every_subcommand_needs_the_backups_directory :
  forall E help_text script_effect c w data,
    c <> NoCommand ->
    lookup backup_dir (fs w) = Some (File data) ->
    cli_main E help_text script_effect c w = (Raise FileExistsError, w)
    /\ forall a, main E a w = (Raise FileExistsError, w).
Proof.
  intros E help effect c w data Hc Hfile. split.
  - destruct c; try congruence; unfold cli_main, bind;
      now rewrite mkdir_exist_ok_run, Hfile.
  - intros a. unfold main, bind. now rewrite mkdir_exist_ok_run, Hfile.
Qed.

Lemma every_subcommand_needs_the_backups_directory_witness :
  cli_main (Examples.env_with Examples.docker_only) "usage" (fun _ n => n) Validate
    (Demo.empty_world [("backups"%string, File "notes")])
  = (Raise FileExistsError, Demo.empty_world [("backups"%string, File "notes")])
  /\ forall a,
       main (Examples.env_with Examples.docker_only) a
         (Demo.empty_world [("backups"%string, File "notes")])
       = (Raise FileExistsError, Demo.empty_world [("backups"%string, File "notes")]).
Proof.
  apply (every_subcommand_needs_the_backups_directory
           (Examples.env_with Examples.docker_only) "usage" (fun _ n => n) Validate
           (Demo.empty_world [("backups"%string, File "notes")]) "notes").
  - discriminate.
  - reflexivity.
Defined.

(** X15.  The subcommand decrypt writes .env only when sops ends with
    status 0: then .env holds exactly what sops printed, whatever it held
    before, and the process ends with status 0.  When sops ends with any
    other status no file is changed and the process ends with status 1. *)
Theorem decrypt_writes_env_only_on_success :
  forall E help_text script_effect w es r,
    lookup backup_dir (fs w) = Some (Dir es) ->
    is_dir [".env"%string] (fs w) = false ->
    exec E decrypt_cmd = Exits r ->
    exists res w',
      cli_main E help_text script_effect Decrypt w = (res, w')
      /\ trace w' = trace w ++ [decrypt_cmd]
      /\ (returncode r = 0%Z ->
          res = Ok tt /\ exit_status res = Some 0%Z
          /\ lookup [".env"%string] (fs w') = Some (File (stdout r))
          /\ forall name rest, name <> ".env"%string ->
               lookup (name :: rest) (fs w') = lookup (name :: rest) (fs w))
      /\ (returncode r <> 0%Z ->
          res = Raise (SystemExit 1) /\ exit_status res = Some 1%Z /\ fs w' = fs w).
Proof.
  intros E help effect w es r Hbackups Hnd Hexec.
  unfold cli_main. unfold bind at 1. rewrite (init_run _ _ Hbackups).
  unfold decrypt. unfold bind at 1. rewrite print_run.
  unfold bind at 1. rewrite run_command_run, Hexec. cbv zeta. cbn [fs trace out].
  destruct (Z.eqb_spec (returncode r) 0) as [Hz|Hnz].
  - unfold bind at 1. rewrite write_file_run. cbn [fs trace out].
    unfold is_dir in Hnd.
    assert (Hroot : exists res, lookup (parent [".env"%string]) (fs w) = Some (Dir res)).
    { cbn. destruct (fs w) as [d|res]; [discriminate|eauto]. }
    destruct Hroot as [res Hroot]. rewrite Hroot.
    assert (Hgoal : exists res0 w',
              print "✓ Decrypted to .env"
                (mkWorld (put [".env"%string] (File (stdout r)) (fs w))
                   (trace w ++ [decrypt_cmd])
                   (out w ++ ["Decrypting .env.enc with SOPS..."%string]))
              = (res0, w')
              /\ trace w' = trace w ++ [decrypt_cmd]
              /\ (returncode r = 0%Z ->
                  res0 = Ok tt /\ exit_status res0 = Some 0%Z
                  /\ lookup [".env"%string] (fs w') = Some (File (stdout r))
                  /\ forall name rest, name <> ".env"%string ->
                       lookup (name :: rest) (fs w') = lookup (name :: rest) (fs w))
              /\ (returncode r <> 0%Z ->
                  res0 = Raise (SystemExit 1) /\ exit_status res0 = Some 1%Z
                  /\ fs w' = fs w)).
    { rewrite print_run. cbn [fs trace out]. eexists _, _.
      split; [reflexivity|]. cbn [fs trace]. split; [reflexivity|].
      split; [|congruence]. intros _. split; [reflexivity|]. split; [reflexivity|].
      split.
      - apply lookup_put_same; [discriminate|eauto].
      - intros name rest Hname.
        apply (lookup_put_diverge [] ".env"%string name [] rest). congruence. }
    destruct (lookup [".env"%string] (fs w)) as [[d|des]|]; try discriminate; exact Hgoal.
  - unfold bind at 1. rewrite print_run. unfold raise. cbn [fs trace out].
    eexists _, _. split; [reflexivity|]. cbn [fs trace]. split; [reflexivity|].
    split; [congruence|]. intros _. repeat split.
Qed.

Lemma decrypt_writes_env_only_on_success_witness :
  exists res w',
    cli_main (Examples.env_with (Examples.sops_gives "JWT_SECRET=k3")) "usage"
      (fun _ n => n) Decrypt Examples.ready_site = (res, w')
    /\ trace w' = trace Examples.ready_site ++ [decrypt_cmd]
    /\ (returncode (mkCompleted 0 "JWT_SECRET=k3" EmptyString) = 0%Z ->
        res = Ok tt /\ exit_status res = Some 0%Z
        /\ lookup [".env"%string] (fs w')
           = Some (File (stdout (mkCompleted 0 "JWT_SECRET=k3" EmptyString)))
        /\ forall name rest, name <> ".env"%string ->
             lookup (name :: rest) (fs w') = lookup (name :: rest) (fs Examples.ready_site))
    /\ (returncode (mkCompleted 0 "JWT_SECRET=k3" EmptyString) <> 0%Z ->
        res = Raise (SystemExit 1) /\ exit_status res = Some 1%Z
        /\ fs w' = fs Examples.ready_site).
Proof.
  apply (decrypt_writes_env_only_on_success
           (Examples.env_with (Examples.sops_gives "JWT_SECRET=k3")) "usage"
           (fun _ n => n) Examples.ready_site []).
  - reflexivity.
  - reflexivity.
  - reflexivity.
Defined.

Lemma run_script_run E effect cmd w :
  run_script E effect cmd w =
  match exec E cmd with
  | Exits r => (Ok tt, mkWorld (effect cmd (fs w)) (trace w ++ [cmd]) (out w))
  | Overruns => (Hang, mkWorld (effect cmd (fs w)) (trace w ++ [cmd]) (out w))
  | NoSuchProgram => (Raise FileNotFoundError, mkWorld (fs w) (trace w ++ [cmd]) (out w))
  end.
Proof.
  unfold run_script, subprocess_run, record_call, bind, get_fs, set_fs, ret, raise, hang.
  cbn [fs trace out]. destruct (exec E cmd); reflexivity.
Qed.

(** X16.  The subcommands encrypt, setup-gitea and sync-infisical start
    one script and do not look at its result: whenever the script ends,
    with whatever status, the process ends with status 0. *)
Theorem script_subcommands_ignore_the_exit_status :
  forall E help_text script_effect c cmd w es r,
    lookup backup_dir (fs w) = Some (Dir es) ->
    script_of c = Some cmd ->
    exec E cmd = Exits r ->
    exists w',
      cli_main E help_text script_effect c w = (Ok tt, w')
      /\ exit_status (fst (cli_main E help_text script_effect c w)) = Some 0%Z
      /\ trace w' = trace w ++ [cmd]
      /\ fs w' = script_effect cmd (fs w).
Proof.
  intros E help effect c cmd w es r Hbackups Hscript Hexec.
  assert (Hrun : exists lines,
            cli_main E help effect c w
            = (Ok tt, mkWorld (effect cmd (fs w)) (trace w ++ [cmd]) (out w ++ lines))).
  { destruct c; try discriminate; injection Hscript as <-;
      unfold cli_main; unfold bind at 1; rewrite (init_run _ _ Hbackups);
      try (unfold bind at 1; rewrite print_run);
      rewrite run_script_run; cbn [fs trace out]; rewrite Hexec;
      try (eexists; reflexivity).
    exists []. now rewrite app_nil_r. }
  destruct Hrun as [lines Hrun]. rewrite Hrun. eexists. repeat split.
Qed.

Lemma script_subcommands_ignore_the_exit_status_witness :
  returncode (mkCompleted 1 EmptyString "not available") <> 0%Z
  /\ exists w',
      cli_main (Examples.env_with Examples.docker_only) "usage" (fun _ n => n) Encrypt
        Examples.ready_site = (Ok tt, w')
      /\ exit_status (fst (cli_main (Examples.env_with Examples.docker_only) "usage"
                             (fun _ n => n) Encrypt Examples.ready_site)) = Some 0%Z
      /\ trace w' = trace Examples.ready_site
                      ++ [["python"%string; "scripts/encrypt_secrets.py"%string]]
      /\ fs w' = fs Examples.ready_site.
Proof.
  split; [discriminate|].
  apply (script_subcommands_ignore_the_exit_status
           (Examples.env_with Examples.docker_only) "usage" (fun _ n => n) Encrypt
           ["python"%string; "scripts/encrypt_secrets.py"%string]
           Examples.ready_site [] (mkCompleted 1 EmptyString "not available")).
  - reflexivity.
  - reflexivity.
  - reflexivity.
Defined.

(** X17.  Every run of sync-infisical starts the script once, with
    --push when the push flag is given, and with --pull only when the
    pull flag is given without the push flag: push wins over pull, and
    the script never gets both. *)
Theorem sync_infisical_passes_push_before_pull :
  forall E help_text script_effect push pull w es res w',
    lookup backup_dir (fs w) = Some (Dir es) ->
    cli_main E help_text script_effect (SyncInfisical push pull) w = (res, w') ->
    exists flags,
      trace w' = trace w ++ [["python"%string; "scripts/infisical_sync.py"%string] ++ flags]
      /\ (In "--push"%string flags <-> push = true)
      /\ (In "--pull"%string flags <-> push = false /\ pull = true)
      /\ List.length flags <= 1.
Proof.
  intros E help effect push pull w es res w' Hbackups Hrun.
  unfold cli_main in Hrun. unfold bind at 1 in Hrun.
  rewrite (init_run _ _ Hbackups), run_script_run in Hrun.
  exists (if push then ["--push"%string] else if pull then ["--pull"%string] else []).
  split.
  - unfold sync_infisical_cmd in Hrun.
    destruct (exec E _); injection Hrun as _ <-; reflexivity.
  - destruct push, pull; cbn; repeat split; intros; try tauto; try discriminate;
      try lia; try (destruct H as [H|[]]; discriminate); intuition discriminate.
Qed.

Lemma sync_infisical_passes_push_before_pull_witness :
  exists flags,
    trace (Demo.after (cli_main (Examples.env_with Examples.docker_only) "usage"
                         (fun _ n => n) (SyncInfisical true true)) Examples.ready_site)
    = trace Examples.ready_site
        ++ [["python"%string; "scripts/infisical_sync.py"%string] ++ flags]
    /\ (In "--push"%string flags <-> true = true)
    /\ (In "--pull"%string flags <-> true = false /\ true = true)
    /\ List.length flags <= 1.
Proof.
  apply (sync_infisical_passes_push_before_pull
           (Examples.env_with Examples.docker_only) "usage" (fun _ n => n) true true
           Examples.ready_site []
           (Demo.run (cli_main (Examples.env_with Examples.docker_only) "usage"
                        (fun _ n => n) (SyncInfisical true true)) Examples.ready_site)).
  - reflexivity.
  - vm_compute. reflexivity.
Defined.

(** X18.  The subcommand validate carries its verdict into the exit
    status: under the conditions of X11 the process ends with status 0
    when the validation passes and with status 1 when it fails. *)
Theorem validate_exit_status_tells_the_verdict :
  forall E help_text script_effect w es r1 r2,
    lookup backup_dir (fs w) = Some (Dir es) ->
    is_dir [".env"%string] (fs w) = false ->
    exec E ["docker"%string; "--version"%string] = Exits r1 ->
    exec E ["docker"%string; "compose"%string; "version"%string] = Exits r2 ->
    (forall tool, In tool ["sops"%string; "age"%string] ->
       exists r, exec E [tool; "--version"%string] = Exits r) ->
    exit_status (fst (cli_main E help_text script_effect Validate w))
    = Some (if (env_file_ok (fs w) && Z.eqb (returncode r1) 0
                && Z.eqb (returncode r2) 0)%bool
            then 0%Z else 1%Z).
Proof.
  intros E help effect w es r1 r2 Hbackups Hnd H1 H2 Htools.
  unfold cli_main. unfold bind at 1. rewrite (init_run _ _ Hbackups).
  unfold bind at 1. unfold validate_environment.
  unfold bind at 1. rewrite print_header_run.
  unfold bind at 1. rewrite check_env_file_run. cbn [fs trace out].
  unfold env_file_ok, is_dir in *.
  destruct (lookup [".env"%string] (fs w)) as [[text|des]|]; [| discriminate |];
    cbv zeta.
  - edestruct (validate_tail E (flat_map (var_issues (read_env text)) required_vars))
      as (w' & -> & _); [apply var_issues_nil|exact H1|exact H2|exact Htools|].
    destruct (forallb (var_is_set (read_env text)) required_vars
              && Z.eqb (returncode r1) 0 && Z.eqb (returncode r2) 0)%bool; reflexivity.
  - edestruct (validate_tail E [".env file not found"%string] false)
      as (w' & -> & _); [split; discriminate|exact H1|exact H2|exact Htools|].
    reflexivity.
Qed.

Lemma validate_exit_status_tells_the_verdict_witness :
  exit_status (fst (cli_main (Examples.env_with Examples.docker_only) "usage"
                      (fun _ n => n) Validate Demo.good_site))
  = Some (if (env_file_ok (fs Demo.good_site)
              && Z.eqb (returncode (mkCompleted 0 "Docker version 27" EmptyString)) 0
              && Z.eqb (returncode (mkCompleted 0 "Docker version 27" EmptyString)) 0)%bool
          then 0%Z else 1%Z).
Proof.
  apply (validate_exit_status_tells_the_verdict
           (Examples.env_with Examples.docker_only) "usage" (fun _ n => n)
           Demo.good_site []).
  - reflexivity.
  - reflexivity.
  - reflexivity.
  - reflexivity.
  - intros tool [<-|[<-|[]]]; eexists; reflexivity.
Defined.

(** ** The restoration of the volumes *)

Lemma import_docker_volume_run E volume backup w rc rh :
  exec E (volume_create_cmd volume) = Exits rc ->
  exec E (import_helper_cmd E volume backup) = Exits rh ->
  exists lines,
    import_docker_volume E volume backup w
    = (Ok (Z.eqb (returncode rh) 0),
       mkWorld (fs w)
         (trace w ++ [volume_create_cmd volume; import_helper_cmd E volume backup])
         (out w ++ lines)).
Proof.
  intros Hc Hh. unfold import_docker_volume.
  unfold bind at 1. rewrite print_run.
  unfold bind at 1. rewrite run_command_run. cbv zeta.
  change ["docker"%string; "volume"%string; "create"%string; volume]
    with (volume_create_cmd volume). rewrite Hc.
  unfold bind at 1. rewrite run_command_run. cbv zeta. rewrite Hh. cbn [fs trace out].
  destruct (Z.eqb (returncode rh) 0); unfold bind, ret; rewrite print_run;
    cbn [fs trace out]; rewrite <- !app_assoc; eexists; reflexivity.
Qed.

Lemma restore_volume_loop E dir (entries : list string) : forall w,
  (forall entry, In entry entries ->
     exists rc rh,
       exec E (volume_create_cmd (volume_of entry)) = Exits rc
       /\ exec E (import_helper_cmd E (volume_of entry) (dir // entry)) = Exits rh) ->
  exists lines,
    for_each (map (fun entry => dir // entry) entries) (restore_volume E) w
    = (Ok tt,
       mkWorld (fs w) (trace w ++ flat_map (volume_import_cmds E dir) entries)
         (out w ++ lines)).
Proof.
  induction entries as [|entry entries IH]; intros w Hends.
  - exists []. cbn. rewrite !app_nil_r. now destruct w.
  - cbn [map for_each flat_map]. unfold bind at 1. unfold restore_volume at 1.
    rewrite name_child. fold (volume_of entry).
    destruct (Hends entry (or_introl eq_refl)) as (rc & rh & Hc & Hh).
    destruct (import_docker_volume_run E _ (dir // entry) w rc rh Hc Hh) as [l1 Hrun].
    unfold bind at 1. rewrite Hrun. unfold ret at 1.
    edestruct IH as [l2 Hrest]; [intros e He; apply Hends; now right|].
    rewrite Hrest. cbn [fs trace out]. exists (l1 ++ l2).
    unfold volume_import_cmds at 2. cbn [app]. rewrite <- !app_assoc. reflexivity.
Qed.

(** X19.  The restoration of the volumes of a full backup, not skipped:
    after the stop of the services, every entry of the directory volumes
    whose name ends in .tar.gz is restored, in the order of the
    directory, by the creation of its volume and the run of the helper;
    the other entries are left out.  The status of no command is looked
    at: a stop, a creation or a helper that fails stops nothing, and the
    block ends normally. *)
Theorem every_volume_archive_is_restored :
  forall E restore_dir manifest w entries stopped,
    format_is_full manifest = true ->
    lookup (restore_dir // "volumes") (fs w) = Some (Dir entries) ->
    exec E compose_down_cmd = Exits stopped ->
    (forall entry,
       In entry (map fst entries) -> endswith ".tar.gz" entry = true ->
       exists rc rh,
         exec E (volume_create_cmd (volume_of entry)) = Exits rc
         /\ exec E (import_helper_cmd E (volume_of entry)
                      (restore_dir // "volumes" // entry)) = Exits rh) ->
    exists w',
      restore_volumes E restore_dir manifest false w = (Ok tt, w')
      /\ fs w' = fs w
      /\ trace w'
         = trace w
             ++ compose_down_cmd
                :: flat_map (volume_import_cmds E (restore_dir // "volumes"))
                     (filter (endswith ".tar.gz") (map fst entries)).
Proof.
  intros E rd manifest w entries stopped Hfull Hdir Hstop Hends.
  unfold restore_volumes. rewrite Hfull. cbn [negb andb].
  unfold bind at 1. rewrite print_run.
  unfold bind at 1. rewrite print_run.
  unfold bind at 1. rewrite run_command_run, Hstop. cbv zeta. cbn [fs trace out].
  unfold bind at 1. rewrite path_exists_run. cbn [fs]. unfold exists_. rewrite Hdir.
  unfold bind at 1. unfold glob_tar_gz at 1. unfold bind at 1.
  unfold get_fs at 1. cbn [fs]. rewrite Hdir. unfold ret at 1.
  replace (map (fun e : string * node => rd // "volumes" // fst e)
             (filter (fun e : string * node => endswith ".tar.gz" (fst e)) entries))
    with (map (fun entry => rd // "volumes" // entry)
            (filter (endswith ".tar.gz") (map fst entries))).
  - edestruct (restore_volume_loop E (rd // "volumes")
                 (filter (endswith ".tar.gz") (map fst entries))) as [lines Hrun].
    { intros entry Hin. apply filter_In in Hin. destruct Hin as [Hin Hgz].
      now apply Hends. }
    rewrite Hrun. cbn [fs trace out]. eexists. split; [reflexivity|].
    cbn [fs trace]. split; [reflexivity|]. now rewrite <- app_assoc.
  - clear. induction entries as [|[k x] entries IH]; [reflexivity|].
    cbn [map filter fst]. destruct (endswith ".tar.gz" k); cbn [map]; now rewrite IH.
Qed.

Lemma every_volume_archive_is_restored_witness :
  exists w',
    restore_volumes Demo.quiet_env ["b"%string] Demo.full_manifest false
      (Demo.empty_world
         [("b"%string,
           Dir [("volumes"%string,
                 Dir [("localai_db.tar.gz"%string, File "db");
                      ("README"%string, File "notes");
                      ("my.tar_data.tar.gz"%string, File "more")])])])
    = (Ok tt, w')
    /\ fs w' = Dir [("b"%string,
                     Dir [("volumes"%string,
                           Dir [("localai_db.tar.gz"%string, File "db");
                                ("README"%string, File "notes");
                                ("my.tar_data.tar.gz"%string, File "more")])])]
    /\ trace w'
       = [] ++ compose_down_cmd
            :: flat_map (volume_import_cmds Demo.quiet_env (["b"%string] // "volumes"))
                 (filter (endswith ".tar.gz")
                    (map fst [("localai_db.tar.gz"%string, File "db");
                              ("README"%string, File "notes");
                              ("my.tar_data.tar.gz"%string, File "more")])).
Proof.
  apply (every_volume_archive_is_restored Demo.quiet_env ["b"%string] Demo.full_manifest
           (Demo.empty_world
              [("b"%string,
                Dir [("volumes"%string,
                      Dir [("localai_db.tar.gz"%string, File "db");
                           ("README"%string, File "notes");
                           ("my.tar_data.tar.gz"%string, File "more")])])])
           [("localai_db.tar.gz"%string, File "db");
            ("README"%string, File "notes");
            ("my.tar_data.tar.gz"%string, File "more")]
           (mkCompleted 0 EmptyString EmptyString)).
  - reflexivity.
  - reflexivity.
  - reflexivity.
  - intros entry [<-|[<-|[<-|[]]]] Hgz; try discriminate Hgz;
      eexists _, _; split; vm_compute; reflexivity.
Defined.

(** ** Exports and docker *)

(** X20.  An export, under a plain name, needs docker to be installed,
    also for the formats
    that save no volume: where the program docker cannot be started, the
    collection of the metadata raises FileNotFoundError.  The scratch
    directory has been made by then and is left behind, empty; no
    archive is written. *)
Theorem export_raises_where_docker_is_missing :
  forall E output format w entries,
    let output_name := chosen_name E output in
    plain_name output_name = true ->
    lookup backup_dir (fs w) = Some (Dir entries) ->
    lookup (backup_dir // output_name) (fs w) = None ->
    exec E docker_ps_cmd = NoSuchProgram ->
    exists w',
      export_environment E output format w = (Raise FileNotFoundError, w')
      /\ trace w' = trace w ++ [docker_ps_cmd]
      /\ lookup (backup_dir // output_name) (fs w') = Some (Dir [])
      /\ lookup (backup_dir // (output_name ++ ".tar.gz")%string) (fs w')
         = lookup (backup_dir // (output_name ++ ".tar.gz")%string) (fs w).
Proof.
  intros E output format w entries output_name _ Hbackups Hfresh Hps.
  unfold export_environment. fold output_name.
  unfold bind at 1. rewrite print_header_run.
  unfold bind at 1. rewrite mkdir_exist_ok_run. cbn [fs trace out].
  rewrite Hfresh, parent_child, Hbackups.
  unfold bind at 1. unfold export_metadata. unfold bind at 1. rewrite print_run.
  unfold bind at 1. unfold get_running_containers. unfold bind at 1.
  rewrite run_command_run, Hps. cbv zeta. cbn [fs trace out].
  eexists. split; [reflexivity|]. cbn [fs trace]. split; [reflexivity|]. split.
  - eapply lookup_put_child. eassumption.
  - apply lookup_put_div, (scratch_not_archive output_name []).
Qed.

Lemma export_raises_where_docker_is_missing_witness :
  exists w',
    export_environment (Examples.env_with (fun _ => NoSuchProgram))
      (Some "nightly"%string) "config" Examples.ready_site
    = (Raise FileNotFoundError, w')
    /\ trace w' = trace Examples.ready_site ++ [docker_ps_cmd]
    /\ lookup (backup_dir // "nightly") (fs w') = Some (Dir [])
    /\ lookup (backup_dir // ("nightly" ++ ".tar.gz")%string) (fs w')
       = lookup (backup_dir // ("nightly" ++ ".tar.gz")%string) (fs Examples.ready_site).
Proof.
  apply (export_raises_where_docker_is_missing
           (Examples.env_with (fun _ => NoSuchProgram)) (Some "nightly"%string)
           "config" Examples.ready_site []).
  - reflexivity.
  - reflexivity.
  - reflexivity.
  - reflexivity.
Defined.

(** X21.  An export of a format other than full, under a plain name,
    completes whenever the
    directory backups is there, the scratch directory is new, no
    directory stands in place of the archive or of its sidecar, the
    bootstrap metadata can be read, and the two listings of docker end,
    with whatever status: a listing that fails gives an empty list and
    stops nothing.  The archive and the sidecar are written, and the
    scratch directory is removed. *)
Theorem config_export_completes :
  forall E output format w entries rps rls,
    let output_name := chosen_name E output in
    let archive_path := backup_dir // (output_name ++ ".tar.gz")%string in
    let sidecar := backup_dir // ((output_name ++ ".tar.gz") ++ ".sha256")%string in
    plain_name output_name = true ->
    format <> "full"%string ->
    lookup backup_dir (fs w) = Some (Dir entries) ->
    lookup (backup_dir // output_name) (fs w) = None ->
    is_dir archive_path (fs w) = false ->
    is_dir sidecar (fs w) = false ->
    bootstrap_loads (fs w) = true ->
    exec E docker_ps_cmd = Exits rps ->
    exec E docker_volume_ls_cmd = Exits rls ->
    exists w' tree,
      let archive := targz_pack E [(output_name, tree)] in
      export_environment E output format w = (Ok archive_path, w')
      /\ lookup archive_path (fs w') = Some (File archive)
      /\ lookup sidecar (fs w')
         = Some (File (sidecar_text E archive (output_name ++ ".tar.gz")))
      /\ lookup (backup_dir // output_name) (fs w') = None
      /\ lookup ["manifest.json"%string] tree
         = Some (File (dumps (JObj (dict_update
                                      (default_metadata E format (names_if_ok rps)
                                         (names_if_ok rls))
                                      (bootstrap_of (fs w))))))
      /\ (returncode rps <> 0%Z -> names_if_ok rps = [])
      /\ (returncode rls <> 0%Z -> names_if_ok rls = []).
Proof.
  intros E output format w entries rps rls output_name archive_path sidecar
    _ Hformat Hbackups Hfresh Harch0 Hside0 Hboot Hps Hls.
  apply String.eqb_neq in Hformat.
  set (export_dir := backup_dir // output_name) in *.
  unfold export_environment. fold output_name export_dir archive_path.
  rewrite Hformat.
  (* the header *)
  unfold bind at 1. rewrite print_header_run.
  (* the scratch directory *)
  unfold bind at 1. rewrite mkdir_exist_ok_run. cbn [fs trace out].
  rewrite Hfresh. unfold export_dir at 1. rewrite parent_child, Hbackups.
  set (w1 := mkWorld _ _ _).
  assert (Hbelow1 : writes_below export_dir w w1)
    by (intros q Hq; subst w1; cbn [fs]; now apply lookup_put_div).
  assert (Hnone1 : forall c, lookup (export_dir // c) (fs w1) = None).
  { intros c. subst w1. cbn [fs].
    eapply lookup_below_put_empty; [|apply child_not_nil].
    unfold export_dir. rewrite parent_child. eassumption. }
  (* the manifest *)
  destruct (export_metadata E export_dir format w1) as [r2 w2] eqn:H2.
  destruct (export_metadata_spec _ _ _ _ _ _ H2) as (Hbelow2 & _ & Hok2 & Hpre2).
  assert (Hres1 : r2 = Ok tt).
  { apply Hpre2; eauto.
    - replace (bootstrap_loads (fs w1)) with (bootstrap_loads (fs w)); [exact Hboot|].
      symmetry. apply bootstrap_of_same. apply Hbelow1.
      apply (scratch_not_bootstrap output_name []).
    - subst w1. cbn [fs]. eexists. unfold export_dir. eapply lookup_put_child. eassumption.
    - unfold is_dir. now rewrite Hnone1. }
  subst r2.
  destruct (Hok2 eq_refl) as (rps' & rls' & Hps' & Hls' & Hman & _ & _). clear Hok2 Hpre2.
  rewrite Hps in Hps'. injection Hps' as <-.
  rewrite Hls in Hls'. injection Hls' as <-.
  assert (Hboot1 : bootstrap_of (fs w1) = bootstrap_of (fs w)).
  { apply bootstrap_of_same. apply Hbelow1. apply (scratch_not_bootstrap output_name []). }
  rewrite Hboot1 in Hman.
  unfold bind at 1. rewrite H2.
  (* the configuration files *)
  destruct (export_configs_ok export_dir w2) as [w3 H3].
  { eapply parent_is_dir. eassumption. }
  { rewrite Hbelow2 by (apply diverge_children; discriminate). apply Hnone1. }
  destruct (export_configs_step _ _ _ _ H3) as [Hbelow3 _].
  unfold bind at 1. rewrite H3.
  (* no volumes *)
  unfold bind at 1. unfold ret at 1.
  assert (Hscratch : writes_below export_dir w w3).
  { intros q Hq.
    rewrite Hbelow3 by (apply (diverge_below export_dir q ["configs"%string] Hq)).
    rewrite Hbelow2 by (apply (diverge_below export_dir q ["manifest.json"%string] Hq)).
    now apply Hbelow1. }
  assert (Hxm : lookup (export_dir // "manifest.json") (fs w3)
                = Some (File (dumps (JObj (dict_update
                     (default_metadata E format (names_if_ok rps) (names_if_ok rls))
                     (bootstrap_of (fs w))))))).
  { rewrite Hbelow3 by (apply diverge_children; discriminate). exact Hman. }
  destruct (parent_is_dir _ _ _ _ Hxm) as [ees Hees].
  destruct (parent_is_dir _ _ _ _ Hees) as [bes Hbes].
  (* the archive *)
  destruct (create_tarball E archive_path export_dir output_name w3) as [r5 w5] eqn:H5.
  destruct (create_tarball_spec _ _ _ _ _ _ _ _
              (diverge_sym _ _ (scratch_not_archive output_name [])) H5)
    as (Hbelow5 & _ & Hok5 & Hpre5).
  rewrite app_nil_r in Hok5, Hpre5. fold export_dir archive_path in Hbelow5, Hok5, Hpre5.
  assert (Hres2 : r5 = Ok tt).
  { apply Hpre5; eauto.
    rewrite <- Harch0. apply is_dir_same. apply Hscratch.
    apply (scratch_not_archive output_name []). }
  subst r5.
  destruct (Hok5 eq_refl) as (tree & Htree & Harch5 & _). clear Hok5 Hpre5.
  rewrite Hees in Htree. injection Htree as <-.
  unfold bind at 1. rewrite H5.
  (* the checksum *)
  destruct (write_checksum E archive_path w5) as [r6 w6] eqn:H6.
  destruct (write_checksum_spec _ _ _ _ _ _ H6) as (Hbelow6 & _ & Hok6 & Hpre6).
  fold archive_path sidecar in Hbelow6, Hok6, Hpre6.
  assert (Hres3 : r6 = Ok (sha256_hexdigest E (targz_pack E [(output_name, Dir ees)]))).
  { apply Hpre6; [exact Harch5|].
    rewrite <- Hside0. apply is_dir_same.
    rewrite Hbelow5 by apply archive_not_sidecar. apply Hscratch.
    apply (scratch_not_sidecar output_name []). }
  subst r6.
  destruct (Hok6 _ eq_refl) as (data & Hdata & _ & Hside6 & _). clear Hok6 Hpre6.
  rewrite Harch5 in Hdata. injection Hdata as <-.
  unfold bind at 1. rewrite H6.
  (* the cleanup *)
  unfold bind at 1. rewrite rm_rf_run.
  set (w7 := mkWorld _ _ _).
  assert (Harch7 : lookup archive_path (fs w7)
                   = Some (File (targz_pack E [(output_name, Dir ees)]))).
  { subst w7. cbn [fs].
    rewrite lookup_remove_div by apply (scratch_not_archive output_name []).
    rewrite Hbelow6 by (apply diverge_sym, archive_not_sidecar). exact Harch5. }
  (* the summary *)
  destruct (print_export_summary E archive_path
              (sha256_hexdigest E (targz_pack E [(output_name, Dir ees)])) w7)
    as [r8 w8] eqn:H8.
  destruct (print_export_summary_spec _ _ _ _ _ _ H8) as (Hf8 & _ & _ & Hpre8).
  assert (Hres4 : r8 = Ok tt) by (eapply Hpre8; eassumption).
  subst r8.
  unfold bind at 1. rewrite H8. unfold ret.
  exists w8, (Dir ees). cbv zeta.
  split; [reflexivity|]. split; [now rewrite Hf8|].
  split; [|split; [|split; [|split]]].
  - rewrite Hf8. subst w7. cbn [fs].
    rewrite lookup_remove_div by apply (scratch_not_sidecar output_name []).
    exact Hside6.
  - rewrite Hf8. subst w7. cbn [fs].
    assert (Hbes6 : exists bes6, lookup backup_dir (fs w6) = Some (Dir bes6)).
    { apply (parent_is_dir backup_dir ((output_name ++ ".tar.gz") ++ ".sha256") _ _ Hside6). }
    destruct Hbes6 as [bes6 Hbes6].
    unfold export_dir. rewrite lookup_child.
    assert (Hrm : lookup backup_dir (remove (backup_dir // output_name) (fs w6))
                  = Some (Dir (del_entry output_name bes6))).
    { unfold backup_dir, child in *. cbn [app lookup remove] in *.
      destruct (fs w6) as [d6|es6]; [discriminate|].
      destruct (assoc "backups" es6) as [[d|sub]|] eqn:Hb; try discriminate.
      injection Hbes6 as ->. cbn [lookup]. now rewrite assoc_set_entry_same. }
    rewrite Hrm. apply assoc_del_entry_same.
  - rewrite <- (lookup_in_tree export_dir _ _ _ Hees). exact Hxm.
  - intros Hnz. unfold names_if_ok. now destruct (Z.eqb_spec (returncode rps) 0).
  - intros Hnz. unfold names_if_ok. now destruct (Z.eqb_spec (returncode rls) 0).
Qed.

(** In the example docker answers both listings with status 1. *)
Lemma config_export_completes_witness :
  exists w' tree,
    export_environment (Examples.env_with (fun _ => Demo.failed "no daemon"))
      (Some "nightly"%string) "config" Examples.ready_site
    = (Ok (backup_dir // ("nightly" ++ ".tar.gz")%string), w')
    /\ lookup (backup_dir // ("nightly" ++ ".tar.gz")%string) (fs w')
       = Some (File (targz_pack (Examples.env_with (fun _ => Demo.failed "no daemon"))
                       [("nightly"%string, tree)]))
    /\ lookup (backup_dir // (("nightly" ++ ".tar.gz") ++ ".sha256")%string) (fs w')
       = Some (File (sidecar_text (Examples.env_with (fun _ => Demo.failed "no daemon"))
                       (targz_pack (Examples.env_with (fun _ => Demo.failed "no daemon"))
                          [("nightly"%string, tree)])
                       ("nightly" ++ ".tar.gz")))
    /\ lookup (backup_dir // "nightly") (fs w') = None
    /\ lookup ["manifest.json"%string] tree
       = Some (File (dumps (JObj (dict_update
                 (default_metadata (Examples.env_with (fun _ => Demo.failed "no daemon"))
                    "config"
                    (names_if_ok (mkCompleted 1 EmptyString "no daemon"))
                    (names_if_ok (mkCompleted 1 EmptyString "no daemon")))
                 (bootstrap_of (fs Examples.ready_site))))))
    /\ (returncode (mkCompleted 1 EmptyString "no daemon") <> 0%Z ->
        names_if_ok (mkCompleted 1 EmptyString "no daemon") = [])
    /\ (returncode (mkCompleted 1 EmptyString "no daemon") <> 0%Z ->
        names_if_ok (mkCompleted 1 EmptyString "no daemon") = []).
Proof.
  apply (config_export_completes (Examples.env_with (fun _ => Demo.failed "no daemon"))
           (Some "nightly"%string) "config" Examples.ready_site []
           (mkCompleted 1 EmptyString "no daemon")
           (mkCompleted 1 EmptyString "no daemon")).
  - reflexivity.
  - discriminate.
  - reflexivity.
  - reflexivity.
  - reflexivity.
  - reflexivity.
  - reflexivity.
  - reflexivity.
  - reflexivity.
Defined.

(** ** The program on examples *)

Import Demo.
Local Open Scope string_scope.

Ltac pick := repeat (first [left; reflexivity | right]).

Ltac conj := repeat match goal with |- _ /\ _ => split end.

(** C1, on the code.  The import of an archive whose sidecar records
    another digest returns False after the line of the checksum mismatch;
    [main] drops that value, so the process ends with exit status 0. *)
Theorem main_import_tampered_exits_zero :
  run (import_environment quiet_env ["b.tar.gz"] false) tampered_site = Ok false
  /\ In "✗ Checksum mismatch! File may be corrupted."
        (out (after (main quiet_env (Import ["b.tar.gz"] false)) tampered_site))
  /\ exit_status (run (main quiet_env (Import ["b.tar.gz"] false)) tampered_site)
     = Some 0%Z.
Proof.
  split; [|split].
  - vm_compute. reflexivity.
  - vm_compute. pick.
  - vm_compute. reflexivity.
Qed.

(** C3, on the code.  An archive with two directories at its top: the
    import takes the first one listed as the backup root, restores its
    configuration and returns True; nothing counts the candidates. *)
Theorem import_two_roots_goes_on :
  let w := bare_site two_root_archive in
  unpack two_root_archive
  = Some [("first", backup_root);
          ("second", Dir [("manifest.json", File (dumps full_manifest))])]
  /\ run (import_environment quiet_env ["b.tar.gz"] false) w = Ok true
  /\ In ["cp"; "backups/restore_temp/first/configs/.env"; ".env"]
        (trace (after (import_environment quiet_env ["b.tar.gz"] false) w))
  /\ lookup [".env"] (fs (after (import_environment quiet_env ["b.tar.gz"] false) w))
     = Some (File "POSTGRES_PASSWORD=restored").
Proof.
  cbv zeta. conj; vm_compute; try reflexivity. pick.
Qed.

(** C4, on the code.  The import that returns early, on an archive
    without a directory at its top or on a backup root without manifest,
    leaves backups/restore_temp in place; the export stopped by a helper
    that overruns its timeout leaves backups/<name> in place. *)
Theorem import_early_return_keeps_scratch :
  (run (import_environment quiet_env ["b.tar.gz"] false) (bare_site no_root_archive) = Ok false
   /\ lookup extract_dir
        (fs (after (import_environment quiet_env ["b.tar.gz"] false) (bare_site no_root_archive)))
      = Some (Dir [("README", File "not a backup")]))
  /\ (run (import_environment quiet_env ["b.tar.gz"] false) (bare_site no_manifest_archive) = Ok false
      /\ is_dir extract_dir
           (fs (after (import_environment quiet_env ["b.tar.gz"] false) (bare_site no_manifest_archive)))
         = true)
  /\ is_dir ["backups"; "nightly"]
       (fs (after (export_environment slow_env (Some "nightly") "full") good_site)) = true.
Proof.
  conj; vm_compute; reflexivity.
Qed.

(** C7, on the code.  A helper still running after the timeout makes
    [export_docker_volume] raise TimeoutExpired; the exception crosses
    [export_environment]: the helper of the next volume is never run, no
    archive is written, and the process ends with exit status 1. *)
Theorem export_timeout_is_raised :
  run (export_docker_volume slow_env "localai_db" ["backups"; "nightly"; "volumes"])
      good_site = Raise TimeoutExpired
  /\ run (export_environment slow_env (Some "nightly") "full") good_site
     = Raise TimeoutExpired
  /\ existsb (same_cmd (export_helper_cmd slow_env "localai_cache" ["backups"; "nightly"; "volumes"]))
       (trace (after (export_environment slow_env (Some "nightly") "full") good_site))
     = false
  /\ lookup ["backups"; "nightly.tar.gz"]
       (fs (after (export_environment slow_env (Some "nightly") "full") good_site)) = None
  /\ exit_status (run (main slow_env (Export (Some "nightly") "full")) good_site)
     = Some 1%Z.
Proof.
  conj; vm_compute; reflexivity.
Qed.

(** C5, the claim as written fails: the manifest inside the archive of an
    export of format config lists the volume that [docker volume ls]
    named. *)
Lemma config_export_manifest_lists_volumes :
  let w' := after (export_environment quiet_env (Some "nightly") "config") good_site in
  run (export_environment quiet_env (Some "nightly") "config") good_site
  = Ok ["backups"; "nightly.tar.gz"]
  /\ exists d,
       archived_manifest w' ["backups"; "nightly.tar.gz"] "nightly" = Some (JObj d)
       /\ dict_get "format" d = Some (JStr "config")
       /\ dict_get "volumes" d = Some (JArr [JStr "localai_db"]).
Proof.
  split.
  - vm_compute. reflexivity.
  - eexists. split; [vm_compute; reflexivity|]. split; vm_compute; reflexivity.
Qed.

(** C6, the claim as written fails: the export after a failed volume
    completes, and its summary, the last four lines of the output, names
    neither the volume that failed nor the one that succeeded. *)
Lemma export_summary_names_no_volume :
  let m := export_environment a_fails_env (Some "nightly") "full" in
  run m good_site = Ok ["backups"; "nightly.tar.gz"]
  /\ exists archive,
       lookup ["backups"; "nightly.tar.gz"] (fs (after m good_site)) = Some (File archive)
       /\ last_lines 4 (out (after m good_site))
          = export_summary a_fails_env ["backups"; "nightly.tar.gz"]
              (String.length archive) (digest archive)
       /\ existsb (mentions "localai_a") (last_lines 4 (out (after m good_site))) = false
       /\ existsb (mentions "localai_b") (last_lines 4 (out (after m good_site))) = false.
Proof.
  split.
  - vm_compute. reflexivity.
  - eexists. split; [vm_compute; reflexivity|]. conj; vm_compute; reflexivity.
Qed.
